(** * swshtools: the binary record codecs of [swshtools.py]

    A shallow embedding of the three codecs of [swshtools.py]
    (personal_total.bin, wazaoboe_total.bin, pokecaplist.bin) together with
    the enumeration registry and the [struct] packing they rest on, followed
    by the properties of the codecs.

    Conventions of the embedding:
    - a Python [int] is a [Z]; a byte buffer ([bytes], [bytearray]) is a
      [list Z] whose elements are meant to lie in [0, 256);
    - a Python exception is a value of [exn]; a function that may raise
      returns a [result];
    - the JSON documents are the structured values themselves (records,
      lists and insertion-ordered dictionaries); reading and writing files
      is outside the embedding;
    - [constants.json] is not part of the sources: the registry is a
      parameter [CONSTANTS], one ordered list of names per category. *)

From Stdlib Require Import ZArith Lia String Ascii List Bool.
From stdpp Require Import base tactics decidable option list strings.

Local Open Scope Z_scope.

(** ** Exceptions and results *)

(** The exceptions the modelled code can raise: [IndexError] (a list or
    bytes index out of range), [ValueError] ([list.index] of an absent
    value, [bytes.fromhex] of a malformed string) and [StructError]
    ([struct.error]: a value that does not fit its format code, a buffer
    that is too small). *)
Inductive exn : Set := IndexError | ValueError | StructError.

Inductive result (A : Type) : Type :=
| OK (a : A)
| Raise (e : exn).
Arguments OK {A} a.
Arguments Raise {A} e.

Definition bind {A B : Type} (m : result A) (k : A -> result B) : result B :=
  match m with
  | OK a => k a
  | Raise e => Raise e
  end.

Notation "'let*' x ':=' m 'in' k" := (bind m (fun x => k))
  (at level 10, x pattern, m at level 100, k at level 200).

(** ** Bytes and little-endian integers *)

Definition is_byte (b : Z) : bool := (0 <=? b) && (b <? 256).

Definition all_bytes (bs : list Z) : bool := forallb is_byte bs.

(** [int.to_bytes(n, "little")] for a value already known to fit. *)
Fixpoint to_bytes (n : nat) (z : Z) : list Z :=
  match n with
  | O => []
  | S n' => z mod 256 :: to_bytes n' (z / 256)
  end.

(** [int.from_bytes(bs, "little")]. *)
Fixpoint from_bytes (bs : list Z) : Z :=
  match bs with
  | [] => 0
  | b :: bs' => b + 256 * from_bytes bs'
  end.

(** ** The [struct] module, for the format codes the tool uses

    All three formats start with ["<"]: little-endian, standard sizes, no
    alignment. *)
Module Struct.

Inductive code : Set :=
| fB            (* "B": unsigned char *)
| fH            (* "H": unsigned short *)
| fI            (* "I": unsigned int *)
| fs (n : nat)  (* "<n>s": n raw bytes *)
| fx            (* "x": a pad byte, no value *)
| fq.           (* "?": a bool in one byte *)

Inductive value : Type :=
| VInt (z : Z)
| VBytes (bs : list Z)
| VBool (b : bool).

Definition size (c : code) : nat :=
  match c with
  | fB => 1 | fH => 2 | fI => 4 | fs n => n | fx => 1 | fq => 1
  end.

Fixpoint calcsize (codes : list code) : nat :=
  match codes with
  | [] => O
  | c :: cs => (size c + calcsize cs)%nat
  end.

(** An integer code refuses a value outside [0, 256^n). *)
Definition pack_int (n : nat) (z : Z) : result (list Z) :=
  if (0 <=? z) && (z <? 256 ^ Z.of_nat n) then OK (to_bytes n z)
  else Raise StructError.

(** ["<n>s"] truncates a longer value and pads a shorter one with zeros. *)
Definition pack_bytes (n : nat) (bs : list Z) : list Z :=
  take n bs ++ replicate (n - length bs) 0.

Definition pack_value (c : code) (v : value) : result (list Z) :=
  match c, v with
  | fB, VInt z => pack_int 1 z
  | fH, VInt z => pack_int 2 z
  | fI, VInt z => pack_int 4 z
  | fs n, VBytes bs => OK (pack_bytes n bs)
  | fq, VBool b => OK [if b then 1 else 0]
  | _, _ => Raise StructError
  end.

(** [Struct.pack]: the values are consumed from left to right, a pad byte
    consumes none and is written as zero; too few or too many values are
    an error. *)
Fixpoint pack (codes : list code) (vals : list value) : result (list Z) :=
  match codes with
  | [] => match vals with [] => OK [] | _ :: _ => Raise StructError end
  | fx :: cs => let* rest := pack cs vals in OK (0 :: rest)
  | c :: cs =>
      match vals with
      | [] => Raise StructError
      | v :: vs =>
          let* bs := pack_value c v in
          let* rest := pack cs vs in
          OK (bs ++ rest)
      end
  end.

(** The values of [codes] read from the front of [bs] (long enough). *)
Fixpoint unpack_codes (codes : list code) (bs : list Z) : list value :=
  match codes with
  | [] => []
  | c :: cs =>
      let rest := unpack_codes cs (drop (size c) bs) in
      match c with
      | fB | fH | fI => VInt (from_bytes (take (size c) bs)) :: rest
      | fs n => VBytes (take n bs) :: rest
      | fx => rest
      | fq => VBool (negb (from_bytes (take 1 bs) =? 0)) :: rest
      end
  end.

(** [Struct.unpack_from(buffer, offset)], for an offset that is not
    negative. *)
Definition unpack_from (codes : list code) (buffer : list Z) (offset : nat)
  : result (list value) :=
  if (offset + calcsize codes <=? length buffer)%nat
  then OK (unpack_codes codes (drop offset buffer))
  else Raise StructError.

(** [Struct.pack_into(buffer, offset, *vals)]: the packed bytes overwrite
    [calcsize codes] bytes of the buffer from [offset]; the buffer keeps
    its length. *)
Definition pack_into (codes : list code) (buffer : list Z) (offset : nat)
  (vals : list value) : result (list Z) :=
  if (offset + calcsize codes <=? length buffer)%nat
  then let* bs := pack codes vals in OK (list_inserts offset bs buffer)
  else Raise StructError.

End Struct.

(** ** Loops *)

(** [for a in l: s = body(a, s)], stopping at the first exception. *)
Fixpoint for_each {A S : Type} (l : list A) (s : S) (body : A -> S -> result S)
  : result S :=
  match l with
  | [] => OK s
  | a :: l' => let* s' := body a s in for_each l' s' body
  end.

(** [range(n)]. *)
Definition range (n : nat) : list nat := seq 0 n.

(** ** Insertion-ordered dictionaries with string keys

    [d[k] = v] replaces the value of a key that is present, keeping its
    place, and appends a key that is not. *)
Definition dict (V : Type) : Type := list (string * V).

Fixpoint dict_set {V : Type} (d : dict V) (k : string) (v : V) : dict V :=
  match d with
  | [] => [(k, v)]
  | (k', v') :: d' =>
      if decide (k = k') then (k, v) :: d' else (k', v') :: dict_set d' k v
  end.

Fixpoint dict_get {V : Type} (d : dict V) (k : string) : option V :=
  match d with
  | [] => None
  | (k', v') :: d' => if decide (k = k') then Some v' else dict_get d' k
  end.

(** ** The enumeration registry ([__CONSTANTS__], [cnstname], [cnstval]) *)

Module Cat.
(** The categories of [constants.json], as the source lists them. *)
Inductive category : Set :=
| pokemon | moves | types | abilities | items | egg_groups | growth_types
| dex_colors | tms | trs | move_tutors | armor_tutors | evolution_types
| genders.
End Cat.

(** The registry: the ordered names of each category. *)
Definition Constants : Type := Cat.category -> list string.

(** [l[i]] on a Python list: a negative index counts from the end. *)
Definition py_getitem {A : Type} (l : list A) (i : Z) : result A :=
  let j := if i <? 0 then i + Z.of_nat (length l) else i in
  if j <? 0 then Raise IndexError
  else match l !! Z.to_nat j with
       | Some a => OK a
       | None => Raise IndexError
       end.

(** [l.index(x)]: the first position of [x]. *)
Fixpoint list_index (l : list string) (x : string) : option nat :=
  match l with
  | [] => None
  | y :: l' => if decide (x = y) then Some O else S <$> list_index l' x
  end.

Definition cnstname (CONSTANTS : Constants) (category : Cat.category) (cval : Z)
  : result string :=
  py_getitem (CONSTANTS category) cval.

Definition cnstval (CONSTANTS : Constants) (category : Cat.category)
  (cname : string) : result Z :=
  match list_index (CONSTANTS category) cname with
  | Some i => OK (Z.of_nat i)
  | None => Raise ValueError
  end.

(** ** Level-up learnsets (wazaoboe_total.bin) *)
Module Wazaoboe.

Record MoveEntry : Type := { level : Z; move : string }.

Definition ENTRY : list Struct.code := [Struct.fH; Struct.fH].   (* "<2H" *)

(** The body of [for j in range(65)]: the state is [(offset, moves_list)]. *)
Definition unpack_slot (CONSTANTS : Constants) (buffer : list Z) (j : nat)
  (st : nat * list MoveEntry) : result (nat * list MoveEntry) :=
  let '(offset, moves_list) := st in
  let* vals := Struct.unpack_from ENTRY buffer offset in
  match vals with
  | [Struct.VInt move; Struct.VInt level] =>
      let offset := (offset + 4)%nat in
      if negb (move =? 65535) && negb (level =? 65535) then
        let* name := cnstname CONSTANTS Cat.moves move in
        OK (offset, moves_list ++ [{| level := level; move := name |}])
      else OK (offset, moves_list)
  | _ => Raise StructError
  end.

(** The moves of creature [i]: the 65 slots from offset [i * 0x104]. *)
Definition unpack_moves (CONSTANTS : Constants) (buffer : list Z) (i : nat)
  : result (list MoveEntry) :=
  let* st :=
    for_each (range 65) ((i * 0x104)%nat, []) (unpack_slot CONSTANTS buffer) in
  OK (snd st).

Definition unpack_wazaoboe (CONSTANTS : Constants) (buffer : list Z)
  : result (dict (list MoveEntry)) :=
  for_each (range (length buffer / 0x104)) []
    (fun i entries =>
       let* moves_list := unpack_moves CONSTANTS buffer i in
       let* name := py_getitem (CONSTANTS Cat.pokemon) (Z.of_nat i) in
       OK (dict_set entries name moves_list)).

Definition warning (pokemon_name : string) : string :=
  ("Warning! You can have up to 65 level-up moves for " ++ pokemon_name
   ++ ", remaining ones will be dropped!")%string.

(** The body of [for i in range(num_entries)]: the state is
    [(buffer, offset)]. *)
Definition pack_slot (CONSTANTS : Constants) (move_list : list MoveEntry)
  (i : nat) (st : list Z * nat) : result (list Z * nat) :=
  let '(buffer, offset) := st in
  match move_list !! i with
  | None => Raise IndexError
  | Some entry =>
      let* m := cnstval CONSTANTS Cat.moves (move entry) in
      let* buffer :=
        Struct.pack_into ENTRY buffer offset
          [Struct.VInt m; Struct.VInt (level entry)] in
      OK (buffer, (offset + 4)%nat)
  end.

(** The body of [for pokemon_name, move_list in entries.items()]: the state
    is the buffer and what was printed so far. *)
Definition pack_moves (CONSTANTS : Constants) (item : string * list MoveEntry)
  (st : list Z * list string) : result (list Z * list string) :=
  let '(pokemon_name, move_list) := item in
  let '(buffer, stdout) := st in
  let* index := cnstval CONSTANTS Cat.pokemon pokemon_name in
  let offset := (Z.to_nat index * 0x104)%nat in
  let num_entries := length move_list in
  let '(num_entries, stdout) :=
    if (65 <? num_entries)%nat then (65%nat, stdout ++ [warning pokemon_name])
    else (num_entries, stdout) in
  let* st :=
    for_each (range num_entries) (buffer, offset)
      (pack_slot CONSTANTS move_list) in
  OK (fst st, stdout).

(** The result is the buffer written to [out_file] and the lines printed. *)
Definition pack_wazaoboe (CONSTANTS : Constants)
  (entries : dict (list MoveEntry)) : result (list Z * list string) :=
  let buffer := replicate (length (CONSTANTS Cat.pokemon) * 0x104) 0xFF in
  for_each entries (buffer, []) (pack_moves CONSTANTS).

End Wazaoboe.

(** ** Hexadecimal text ([bytes.hex], [bytes.fromhex]) *)

Definition hex_digit (n : Z) : ascii :=
  nth (Z.to_nat n) (list_ascii_of_string "0123456789abcdef") "0"%char.

(** [bs.hex()]: two lowercase digits per byte. *)
Fixpoint hex (bs : list Z) : string :=
  match bs with
  | [] => EmptyString
  | b :: bs' => String (hex_digit (b / 16)) (String (hex_digit (b mod 16)) (hex bs'))
  end.

Definition hex_value (c : ascii) : option Z :=
  let n := Z.of_nat (nat_of_ascii c) in
  if (48 <=? n) && (n <=? 57) then Some (n - 48)
  else if (97 <=? n) && (n <=? 102) then Some (n - 87)
  else if (65 <=? n) && (n <=? 70) then Some (n - 55)
  else None.

Definition is_space (c : ascii) : bool :=
  let n := Z.of_nat (nat_of_ascii c) in
  ((9 <=? n) && (n <=? 13)) || (n =? 32).

(** [bytes.fromhex(s)]: two hexadecimal digits of either case per byte,
    ASCII whitespace skipped between bytes, [ValueError] otherwise. *)
Fixpoint fromhex (s : string) : result (list Z) :=
  match s with
  | EmptyString => OK []
  | String c s' =>
      if is_space c then fromhex s'
      else match s' with
           | EmptyString => Raise ValueError
           | String d s'' =>
               match hex_value c, hex_value d with
               | Some hi, Some lo =>
                   let* rest := fromhex s'' in OK (16 * hi + lo :: rest)
               | _, _ => Raise ValueError
               end
           end
  end.

(** ** pokecaplist.bin: the icon list *)
Module Pokecaplist.

Record IconEntry : Type :=
  { icon_id : Z; form_id : Z; gender_type : string; is_gigantamax : bool }.

(** ["<3Hx?"] *)
Definition POKECAPLIST_ENTRY_STRUCT : list Struct.code :=
  replicate 3 Struct.fH ++ [Struct.fx; Struct.fq].

(** [while offset < len_buffer]: every turn moves [offset] by 8, so
    [length buffer] turns are always enough; [None] is a loop cut short by
    [fuel]. *)
Fixpoint unpack_while (fuel : nat) (CONSTANTS : Constants) (buffer : list Z)
  (offset : nat) (entries : list IconEntry) : option (result (list IconEntry)) :=
  if (offset <? length buffer)%nat then
    match fuel with
    | O => None
    | S fuel' =>
        match Struct.unpack_from POKECAPLIST_ENTRY_STRUCT buffer offset with
        | Raise e => Some (Raise e)
        | OK [Struct.VInt icon; Struct.VInt form; Struct.VInt gender;
              Struct.VBool gigantamax] =>
            match cnstname CONSTANTS Cat.genders gender with
            | Raise e => Some (Raise e)
            | OK name =>
                unpack_while fuel' CONSTANTS buffer (offset + 8)%nat
                  (entries ++ [{| icon_id := icon; form_id := form;
                                  gender_type := name;
                                  is_gigantamax := gigantamax |}])
            end
        | OK _ => Some (Raise StructError)
        end
    end
  else Some (OK entries).

Definition unpack_pokecaplist (CONSTANTS : Constants) (buffer : list Z)
  : option (result (list IconEntry)) :=
  unpack_while (length buffer) CONSTANTS buffer 0%nat [].

(** The body of [for entry in entries]: the state is [(buffer, offset)]. *)
Definition pack_entry (CONSTANTS : Constants) (entry : IconEntry)
  (st : list Z * nat) : result (list Z * nat) :=
  let '(buffer, offset) := st in
  let* gender := cnstval CONSTANTS Cat.genders (gender_type entry) in
  let* buffer :=
    Struct.pack_into POKECAPLIST_ENTRY_STRUCT buffer offset
      [Struct.VInt (icon_id entry); Struct.VInt (form_id entry);
       Struct.VInt gender; Struct.VBool (is_gigantamax entry)] in
  OK (buffer, (offset + 8)%nat).

Definition pack_pokecaplist (CONSTANTS : Constants) (entries : list IconEntry)
  : result (list Z) :=
  let buffer := replicate (length entries * 8) 0 in
  let* st := for_each entries (buffer, 0%nat) (pack_entry CONSTANTS) in
  OK (fst st).

End Pokecaplist.

(** ** Pokémon base stats (personal_total.bin) *)
Module Personal.

Import Struct.

Definition BLANK_PRSNL_ENTRY : list Z :=
  Eval vm_compute in
  match fromhex
          ("000000000000000000000000000000000000FF0000000000000000000000000000400000000000"
           ++ "000000000000000000000000000000000000000000000000000000000000000000000000000000"
           ++ "000000000000000000000000000000000000010001000100010001000000000000000000000000"
           ++ "000000000000000000000000000001010101010101010101010101010100000000000000000000"
           ++ "0000000000000000000000000000000000000000")%string with
  | OK bs => bs
  | Raise _ => []
  end.

(** ["<10B4H6B4H2B3H16s4s16sI8H72s4s2H"] *)
Definition PERSONAL_ENTRY_STRUCT : list code :=
  replicate 10 fB ++ replicate 4 fH ++ replicate 6 fB ++ replicate 4 fH
  ++ replicate 2 fB ++ replicate 3 fH ++ [fs 16; fs 4; fs 16; fI]
  ++ replicate 8 fH ++ [fs 72; fs 4] ++ replicate 2 fH.

(** One JSON entry, its keys in the order [unpack_personal] creates them. *)
Record Entry : Type := {
  type_1 : string;
  type_2 : string;
  base_hp : Z;
  base_atk : Z;
  base_def : Z;
  base_sp_atk : Z;
  base_sp_def : Z;
  base_spd : Z;
  ability_1 : string;
  ability_2 : string;
  hidden_ability : string;
  height : Z;
  weight : Z;
  evs_hp : Z;
  evs_atk : Z;
  evs_def : Z;
  evs_sp_atk : Z;
  evs_sp_def : Z;
  evs_spd : Z;
  fail_telekinesis : bool;
  catch_rate : Z;
  gender_rate : Z;
  base_exp : Z;
  growth_type : string;
  special_z_item : string;
  special_z_base_move : string;
  special_z_move : string;
  egg_group_1 : string;
  egg_group_2 : string;
  evolution_stage : Z;
  egg_species : string;
  egg_form : Z;
  hatch_cycles : Z;
  base_friendship : Z;
  common_item : string;
  rare_item : string;
  very_rare_item : string;
  first_form_index : string;
  form_count : Z;
  icon_id : Z;
  pokedex_number : Z;
  armor_dex_number : Z;
  crown_dex_number : Z;
  dex_color : string;
  has_dex_entry : bool;
  is_visual_form : bool;
  is_regional_form : bool;
  can_not_dynamax : bool;
  tms : list string;
  trs : list string;
  move_tutors : list string;
  armor_tutors : list string;
  unk5E : Z;
  unk60 : string
}.

(** [bool(n)] of an integer. *)
Definition truthy (n : Z) : bool := negb (n =? 0).

(** [enumerate(l)], counting from [i]. *)
Fixpoint enumerate_from {A : Type} (i : Z) (l : list A) : list (Z * A) :=
  match l with
  | [] => []
  | a :: l' => (i, a) :: enumerate_from (i + 1) l'
  end.

Definition enumerate {A : Type} (l : list A) : list (Z * A) := enumerate_from 0 l.

(** The body of the loop of [parse_learnset_bits]; the state is
    [entry[consts_name]]. *)
Definition parse_bit (bits : list Z) (item : Z * string) (learnset : list string)
  : result (list string) :=
  let '(index, move) := item in
  let* b := py_getitem bits (Z.shiftr index 3) in
  if truthy (Z.land b (Z.shiftl 1 (Z.land index 7)))
  then OK (learnset ++ [move])
  else OK learnset.

Definition parse_learnset_bits (CONSTANTS : Constants) (consts_name : Cat.category)
  (bits : list Z) : result (list string) :=
  for_each (enumerate (CONSTANTS consts_name)) [] (parse_bit bits).

(** The body of the loop of [pack_learnset_bits]; the state is [bits]. *)
Definition pack_bit (learnset : list string) (item : Z * string) (bits : list Z)
  : result (list Z) :=
  let '(index, move) := item in
  if bool_decide (move ∈ learnset) then
    let* b := py_getitem bits (Z.shiftr index 3) in
    OK (<[Z.to_nat (Z.shiftr index 3) := Z.lor b (Z.shiftl 1 (Z.land index 7))]> bits)
  else OK bits.

Definition pack_learnset_bits (CONSTANTS : Constants) (consts_name : Cat.category)
  (learnset : list string) (size : nat) : result (list Z) :=
  for_each (enumerate (CONSTANTS consts_name)) (replicate size 0) (pack_bit learnset).

(** The EV-yield word as [pack_personal] builds it. *)
Definition pack_ev_yield (entry : Entry) : Z :=
  let ev_yield := Z.land (evs_hp entry) 3 in
  let ev_yield := Z.lor ev_yield (Z.shiftl (Z.land (evs_atk entry) 3) 2) in
  let ev_yield := Z.lor ev_yield (Z.shiftl (Z.land (evs_def entry) 3) 4) in
  let ev_yield := Z.lor ev_yield (Z.shiftl (Z.land (evs_spd entry) 3) 6) in
  let ev_yield := Z.lor ev_yield (Z.shiftl (Z.land (evs_sp_atk entry) 3) 8) in
  let ev_yield := Z.lor ev_yield (Z.shiftl (Z.land (evs_sp_def entry) 3) 10) in
  Z.lor ev_yield (Z.shiftl (if fail_telekinesis entry then 1 else 0) 12).

(** The entry of the record at [offset]: the body of the loop of
    [unpack_personal] up to the store into [entries]. *)
Definition unpack_entry (CONSTANTS : Constants) (buffer : list Z) (offset : nat)
  : result Entry :=
  let* vals := unpack_from PERSONAL_ENTRY_STRUCT buffer offset in
  match vals with
  | [VInt base_hp; VInt base_atk; VInt base_def; VInt base_spd; VInt base_sp_atk;
     VInt base_sp_def; VInt type_1; VInt type_2; VInt catch_rate;
     VInt evolution_stage;
     VInt ev_yield; VInt common_item; VInt rare_item; VInt very_rare_item;
     VInt gender_rate; VInt hatch_cycles; VInt base_friendship; VInt growth_type;
     VInt egg_group_1; VInt egg_group_2;
     VInt ability_1; VInt ability_2; VInt hidden_ability; VInt first_form_index;
     VInt form_count; VInt pokedex_bits;
     VInt base_exp; VInt height; VInt weight;
     VBytes tm_bits; VBytes move_tutors_bits; VBytes tr_bits; VInt icon_id;
     VInt special_z_item; VInt special_z_base_move; VInt special_z_move;
     VInt egg_species; VInt egg_form; VInt special_species_flags;
     VInt pokedex_number; VInt unk5E;
     VBytes unk60; VBytes armor_tutors_bits;
     VInt armor_dex_number; VInt crown_dex_number] =>
      let* e_type_1 := cnstname CONSTANTS Cat.types type_1 in
      let* e_type_2 := cnstname CONSTANTS Cat.types type_2 in
      let* e_ability_1 := cnstname CONSTANTS Cat.abilities ability_1 in
      let* e_ability_2 := cnstname CONSTANTS Cat.abilities ability_2 in
      let* e_hidden_ability := cnstname CONSTANTS Cat.abilities hidden_ability in
      let* e_growth_type := cnstname CONSTANTS Cat.growth_types growth_type in
      let* e_special_z_item := cnstname CONSTANTS Cat.items special_z_item in
      let* e_special_z_base_move :=
        cnstname CONSTANTS Cat.moves special_z_base_move in
      let* e_special_z_move := cnstname CONSTANTS Cat.moves special_z_move in
      let* e_egg_group_1 := cnstname CONSTANTS Cat.egg_groups egg_group_1 in
      let* e_egg_group_2 := cnstname CONSTANTS Cat.egg_groups egg_group_2 in
      let* e_egg_species := cnstname CONSTANTS Cat.pokemon egg_species in
      let* e_common_item := cnstname CONSTANTS Cat.items common_item in
      let* e_rare_item := cnstname CONSTANTS Cat.items rare_item in
      let* e_very_rare_item := cnstname CONSTANTS Cat.items very_rare_item in
      let* e_first_form_index := cnstname CONSTANTS Cat.pokemon first_form_index in
      let* e_dex_color :=
        cnstname CONSTANTS Cat.dex_colors (Z.land pokedex_bits 0x3F) in
      let* e_tms := parse_learnset_bits CONSTANTS Cat.tms tm_bits in
      let* e_trs := parse_learnset_bits CONSTANTS Cat.trs tr_bits in
      let* e_move_tutors :=
        parse_learnset_bits CONSTANTS Cat.move_tutors move_tutors_bits in
      let* e_armor_tutors :=
        parse_learnset_bits CONSTANTS Cat.armor_tutors armor_tutors_bits in
      OK {| type_1 := e_type_1;
            type_2 := e_type_2;
            base_hp := base_hp;
            base_atk := base_atk;
            base_def := base_def;
            base_sp_atk := base_sp_atk;
            base_sp_def := base_sp_def;
            base_spd := base_spd;
            ability_1 := e_ability_1;
            ability_2 := e_ability_2;
            hidden_ability := e_hidden_ability;
            height := height;
            weight := weight;
            evs_hp := Z.land ev_yield 3;
            evs_atk := Z.land (Z.shiftr ev_yield 2) 3;
            evs_def := Z.land (Z.shiftr ev_yield 4) 3;
            evs_sp_atk := Z.land (Z.shiftr ev_yield 8) 3;
            evs_sp_def := Z.land (Z.shiftr ev_yield 10) 3;
            evs_spd := Z.land (Z.shiftr ev_yield 6) 3;
            fail_telekinesis := truthy (Z.land (Z.shiftr ev_yield 12) 3);
            catch_rate := catch_rate;
            gender_rate := gender_rate;
            base_exp := base_exp;
            growth_type := e_growth_type;
            special_z_item := e_special_z_item;
            special_z_base_move := e_special_z_base_move;
            special_z_move := e_special_z_move;
            egg_group_1 := e_egg_group_1;
            egg_group_2 := e_egg_group_2;
            evolution_stage := evolution_stage;
            egg_species := e_egg_species;
            egg_form := egg_form;
            hatch_cycles := hatch_cycles;
            base_friendship := base_friendship;
            common_item := e_common_item;
            rare_item := e_rare_item;
            very_rare_item := e_very_rare_item;
            first_form_index := e_first_form_index;
            form_count := form_count;
            icon_id := icon_id;
            pokedex_number := pokedex_number;
            armor_dex_number := armor_dex_number;
            crown_dex_number := crown_dex_number;
            dex_color := e_dex_color;
            has_dex_entry := truthy (Z.land pokedex_bits 0x40);
            is_visual_form := truthy (Z.land pokedex_bits 0x80);
            is_regional_form := truthy (Z.land special_species_flags 0x1);
            can_not_dynamax := truthy (Z.land special_species_flags 0x4);
            tms := e_tms;
            trs := e_trs;
            move_tutors := e_move_tutors;
            armor_tutors := e_armor_tutors;
            unk5E := unk5E;
            unk60 := hex unk60 |}
  | _ => Raise StructError
  end.

Definition unpack_personal (CONSTANTS : Constants) (buffer : list Z)
  : result (dict Entry) :=
  for_each (range (length buffer / 0xB0)) []
    (fun i entries =>
       let* entry := unpack_entry CONSTANTS buffer (i * 0xB0)%nat in
       let* name := cnstname CONSTANTS Cat.pokemon (Z.of_nat i) in
       OK (dict_set entries name entry)).

(** The 0xB0 bytes of one entry: the body of the loop of [pack_personal]
    up to [pack_into], in the order the source evaluates it. *)
Definition pack_values (CONSTANTS : Constants) (entry : Entry) : result (list value) :=
  let* tm_bits := pack_learnset_bits CONSTANTS Cat.tms (tms entry) 16 in
  let* move_tutors_bits :=
    pack_learnset_bits CONSTANTS Cat.move_tutors (move_tutors entry) 4 in
  let* tr_bits := pack_learnset_bits CONSTANTS Cat.trs (trs entry) 16 in
  let* armor_tutors_bits :=
    pack_learnset_bits CONSTANTS Cat.armor_tutors (armor_tutors entry) 4 in
  let* v_type_1 := cnstval CONSTANTS Cat.types (type_1 entry) in
  let* v_type_2 := cnstval CONSTANTS Cat.types (type_2 entry) in
  let ev_yield := pack_ev_yield entry in
  let* v_common_item := cnstval CONSTANTS Cat.items (common_item entry) in
  let* v_rare_item := cnstval CONSTANTS Cat.items (rare_item entry) in
  let* v_very_rare_item := cnstval CONSTANTS Cat.items (very_rare_item entry) in
  let* v_growth_type := cnstval CONSTANTS Cat.growth_types (growth_type entry) in
  let* v_egg_group_1 := cnstval CONSTANTS Cat.egg_groups (egg_group_1 entry) in
  let* v_egg_group_2 := cnstval CONSTANTS Cat.egg_groups (egg_group_2 entry) in
  let* v_ability_1 := cnstval CONSTANTS Cat.abilities (ability_1 entry) in
  let* v_ability_2 := cnstval CONSTANTS Cat.abilities (ability_2 entry) in
  let* v_hidden_ability := cnstval CONSTANTS Cat.abilities (hidden_ability entry) in
  let* v_first_form_index :=
    cnstval CONSTANTS Cat.pokemon (first_form_index entry) in
  let* pokedex_bits := cnstval CONSTANTS Cat.dex_colors (dex_color entry) in
  let pokedex_bits := Z.lor pokedex_bits (if has_dex_entry entry then 0x40 else 0) in
  let pokedex_bits := Z.lor pokedex_bits (if is_visual_form entry then 0x80 else 0) in
  let* v_special_z_item := cnstval CONSTANTS Cat.items (special_z_item entry) in
  let* v_special_z_base_move :=
    cnstval CONSTANTS Cat.moves (special_z_base_move entry) in
  let* v_special_z_move := cnstval CONSTANTS Cat.moves (special_z_move entry) in
  let* v_egg_species := cnstval CONSTANTS Cat.pokemon (egg_species entry) in
  let special_species_flags := if is_regional_form entry then 1 else 0 in
  let special_species_flags :=
    Z.lor special_species_flags (if can_not_dynamax entry then 4 else 0) in
  let* v_unk60 := fromhex (unk60 entry) in
  OK [VInt (base_hp entry); VInt (base_atk entry); VInt (base_def entry);
      VInt (base_spd entry); VInt (base_sp_atk entry); VInt (base_sp_def entry);
      VInt v_type_1; VInt v_type_2; VInt (catch_rate entry);
      VInt (evolution_stage entry); VInt ev_yield; VInt v_common_item;
      VInt v_rare_item; VInt v_very_rare_item; VInt (gender_rate entry);
      VInt (hatch_cycles entry); VInt (base_friendship entry); VInt v_growth_type;
      VInt v_egg_group_1; VInt v_egg_group_2; VInt v_ability_1; VInt v_ability_2;
      VInt v_hidden_ability; VInt v_first_form_index; VInt (form_count entry);
      VInt pokedex_bits; VInt (base_exp entry); VInt (height entry);
      VInt (weight entry); VBytes tm_bits; VBytes move_tutors_bits; VBytes tr_bits;
      VInt (icon_id entry); VInt v_special_z_item; VInt v_special_z_base_move;
      VInt v_special_z_move; VInt v_egg_species; VInt (egg_form entry);
      VInt special_species_flags; VInt (pokedex_number entry); VInt (unk5E entry);
      VBytes v_unk60; VBytes armor_tutors_bits; VInt (armor_dex_number entry);
      VInt (crown_dex_number entry)].

(** The body of [for pokemon_name, entry in entries.items()]: the state is
    [(buffer, offset)]; the name is bound and not used. *)
Definition pack_entry (CONSTANTS : Constants) (item : string * Entry)
  (st : list Z * nat) : result (list Z * nat) :=
  let '(pokemon_name, entry) := item in
  let '(buffer, offset) := st in
  let* vals := pack_values CONSTANTS entry in
  let* buffer := pack_into PERSONAL_ENTRY_STRUCT buffer offset vals in
  OK (buffer, (offset + 0xB0)%nat).

Definition pack_personal (CONSTANTS : Constants) (entries : dict Entry)
  : result (list Z) :=
  let buffer :=
    concat (replicate (length (CONSTANTS Cat.pokemon)) BLANK_PRSNL_ENTRY) in
  let* st := for_each entries (buffer, 0%nat) (pack_entry CONSTANTS) in
  OK (fst st).

End Personal.

(** ** A small registry and sample data, for the examples *)
Module Demo.

Local Open Scope string_scope.

Definition constants : Constants := fun category =>
  match category with
  | Cat.pokemon => ["Egg"; "Bulbasaur"; "Ivysaur"]
  | Cat.moves => ["None"; "Pound"; "Karate Chop"]
  | Cat.types => ["Normal"; "Fighting"]
  | Cat.abilities => ["None"; "Stench"]
  | Cat.items => ["None"; "Master Ball"]
  | Cat.egg_groups => ["None"; "Monster"]
  | Cat.growth_types => ["Medium Fast"; "Erratic"]
  | Cat.dex_colors => ["Red"; "Blue"]
  | Cat.tms => ["Mega Punch"; "Mega Kick"; "Pay Day"]
  | Cat.trs => ["Swords Dance"; "Body Slam"]
  | Cat.move_tutors => ["Grass Pledge"; "Fire Pledge"]
  | Cat.armor_tutors => ["Terrain Pulse"; "Burning Jealousy"]
  | Cat.evolution_types => ["None"]
  | Cat.genders => ["Male"; "Female"; "Genderless"]
  end.

(** A creature entry, given its first type. *)
Definition creature (first_type : string) : Personal.Entry :=
  {| Personal.type_1 := first_type; Personal.type_2 := "Normal";
     Personal.base_hp := 45; Personal.base_atk := 49; Personal.base_def := 49;
     Personal.base_sp_atk := 65; Personal.base_sp_def := 65;
     Personal.base_spd := 45;
     Personal.ability_1 := "Stench"; Personal.ability_2 := "Stench";
     Personal.hidden_ability := "None";
     Personal.height := 70; Personal.weight := 690;
     Personal.evs_hp := 0; Personal.evs_atk := 1; Personal.evs_def := 2;
     Personal.evs_sp_atk := 3; Personal.evs_sp_def := 1; Personal.evs_spd := 2;
     Personal.fail_telekinesis := true;
     Personal.catch_rate := 45; Personal.gender_rate := 31;
     Personal.base_exp := 64;
     Personal.growth_type := "Erratic";
     Personal.special_z_item := "None"; Personal.special_z_base_move := "Pound";
     Personal.special_z_move := "Karate Chop";
     Personal.egg_group_1 := "Monster"; Personal.egg_group_2 := "None";
     Personal.evolution_stage := 1;
     Personal.egg_species := "Bulbasaur"; Personal.egg_form := 0;
     Personal.hatch_cycles := 20; Personal.base_friendship := 50;
     Personal.common_item := "None"; Personal.rare_item := "Master Ball";
     Personal.very_rare_item := "None";
     Personal.first_form_index := "Egg"; Personal.form_count := 1;
     Personal.icon_id := 70000; Personal.pokedex_number := 1;
     Personal.armor_dex_number := 68; Personal.crown_dex_number := 0;
     Personal.dex_color := "Blue";
     Personal.has_dex_entry := true; Personal.is_visual_form := false;
     Personal.is_regional_form := false; Personal.can_not_dynamax := true;
     Personal.tms := ["Mega Kick"; "Pay Day"]; Personal.trs := ["Swords Dance"];
     Personal.move_tutors := []; Personal.armor_tutors := ["Burning Jealousy"];
     Personal.unk5E := 513;
     Personal.unk60 := hex (take 72 (drop 96 Personal.BLANK_PRSNL_ENTRY)) |}.

Definition bulbasaur : Personal.Entry := creature "Fighting".

(** A blob of three records: the entry above, then two blank records. *)
Definition blob : list Z :=
  Eval vm_compute in
  match Personal.pack_personal constants [("Egg", bulbasaur)] with
  | OK buffer => buffer
  | Raise _ => []
  end.

(** Records of zeros but for one byte: byte 0x08 (the catch rate), byte
    0x11 (the high byte of the very rare item) and byte 0x0B (the high
    byte of the EV-yield word, here with bit 13 alone set). *)
Definition byte_0x08_record : list Z := <[0x08%nat := 0xFF]> (replicate 0xB0 0).
Definition byte_0x11_record : list Z := <[0x11%nat := 0xFF]> (replicate 0xB0 0).
Definition bit_13_record : list Z := <[0x0B%nat := 0x20]> (replicate 0xB0 0).


Definition pound (lv : Z) : Wazaoboe.MoveEntry :=
  {| Wazaoboe.level := lv; Wazaoboe.move := "Pound" |}.

(** Two creatures, one of them with 66 moves. *)
Definition learnsets : dict (list Wazaoboe.MoveEntry) :=
  [("Ivysaur", replicate 66 (pound 7)); ("Egg", [pound 5; pound 9])].

(** A record whose slot 1, between two slots in use, is empty. *)
Definition learnset_record : list Z :=
  [1; 0; 3; 0] ++ replicate 4 0xFF ++ [1; 0; 7; 0] ++ replicate 248 0xFF.

Definition icon : Pokecaplist.IconEntry :=
  {| Pokecaplist.icon_id := 3; Pokecaplist.form_id := 1;
     Pokecaplist.gender_type := "Female"; Pokecaplist.is_gigantamax := true |}.

End Demo.
(** ** Auxiliary notions, used to state the properties *)

(** A value that its format code packs without loss. *)
Definition fits (c : Struct.code) (v : Struct.value) : bool :=
  match c, v with
  | Struct.fB, Struct.VInt z => (0 <=? z) && (z <? 256)
  | Struct.fH, Struct.VInt z => (0 <=? z) && (z <? 65536)
  | Struct.fI, Struct.VInt z => (0 <=? z) && (z <? 4294967296)
  | Struct.fs n, Struct.VBytes bs => (length bs =? n)%nat
  | Struct.fq, Struct.VBool _ => true
  | _, _ => false
  end.

Fixpoint all_fit (codes : list Struct.code) (vals : list Struct.value) : bool :=
  match codes with
  | [] => match vals with [] => true | _ :: _ => false end
  | Struct.fx :: cs => all_fit cs vals
  | c :: cs =>
      match vals with
      | [] => false
      | v :: vs => fits c v && all_fit cs vs
      end
  end.

(** Format codes whose bytes all carry a value: no pad byte, no bool. *)
Definition plain (codes : list Struct.code) : bool :=
  forallb (fun c => match c with Struct.fx | Struct.fq => false | _ => true end) codes.

(** The raw [(move, level)] pair of slot [j] of the record at [offset]. *)
Definition raw_slot (buffer : list Z) (offset j : nat) : Z * Z :=
  (from_bytes (take 2 (drop (offset + 4 * j) buffer)),
   from_bytes (take 2 (drop (offset + 4 * j + 2) buffer))).

(** A slot is in use when neither of its codes is the sentinel. *)
Definition is_used (slot : Z * Z) : bool :=
  negb (fst slot =? 65535) && negb (snd slot =? 65535).

(** The entry a slot in use stands for. *)
Definition entry_of (CONSTANTS : Constants) (slot : Z * Z) : Wazaoboe.MoveEntry :=
  {| Wazaoboe.level := snd slot;
     Wazaoboe.move := nth (Z.to_nat (fst slot)) (CONSTANTS Cat.moves) EmptyString |}.

(** The position of a name in the pokemon category (0 when absent). *)
Definition creature_index (CONSTANTS : Constants) (pokemon_name : string) : nat :=
  default O (list_index (CONSTANTS Cat.pokemon) pokemon_name).

(** The code of an entry's move (0 when the name is absent). *)
Definition move_code (CONSTANTS : Constants) (entry : Wazaoboe.MoveEntry) : Z :=
  Z.of_nat (default O (list_index (CONSTANTS Cat.moves) (Wazaoboe.move entry))).

(** The four bytes of one entry: move code, then level. *)
Definition move_bytes (CONSTANTS : Constants) (entry : Wazaoboe.MoveEntry) : list Z :=
  to_bytes 2 (move_code CONSTANTS entry) ++ to_bytes 2 (Wazaoboe.level entry).

(** What [pack_wazaoboe] writes for one creature: its first 65 entries. *)
Definition slot_image (CONSTANTS : Constants) (move_list : list Wazaoboe.MoveEntry)
  : list Z :=
  concat (map (move_bytes CONSTANTS) (take 65 move_list)).

(** An entry [struct] can pack: a known move, both codes within 16 bits. *)
Definition encodable_move (CONSTANTS : Constants) (entry : Wazaoboe.MoveEntry) : bool :=
  bool_decide (Wazaoboe.move entry ∈ CONSTANTS Cat.moves)
  && (move_code CONSTANTS entry <? 65536)
  && (0 <=? Wazaoboe.level entry) && (Wazaoboe.level entry <? 65536).

(** A valid entry: encodable, and neither code is the sentinel 0xFFFF. *)
Definition valid_move (CONSTANTS : Constants) (entry : Wazaoboe.MoveEntry) : bool :=
  encodable_move CONSTANTS entry
  && negb (move_code CONSTANTS entry =? 65535)
  && negb (Wazaoboe.level entry =? 65535).

(** An item of the input of [pack_wazaoboe] that is packed without an
    exception: a known creature; of its moves only the first 65 are read. *)
Definition packable (CONSTANTS : Constants)
  (item : string * list Wazaoboe.MoveEntry) : bool :=
  bool_decide (fst item ∈ CONSTANTS Cat.pokemon)
  && forallb (encodable_move CONSTANTS) (take 65 (snd item)).

Definition valid_item (CONSTANTS : Constants)
  (item : string * list Wazaoboe.MoveEntry) : bool :=
  bool_decide (fst item ∈ CONSTANTS Cat.pokemon)
  && forallb (valid_move CONSTANTS) (take 65 (snd item)).

(** The lines [pack_wazaoboe] prints: one per creature with more than 65
    moves, in input order. *)
Definition warnings (entries : dict (list Wazaoboe.MoveEntry)) : list string :=
  map (fun item => Wazaoboe.warning (fst item))
    (List.filter (fun item => (65 <? length (snd item))%nat) entries).

(** The buffer after the items of [entries] were written in turn. *)
Definition written (CONSTANTS : Constants) (buffer : list Z)
  (entries : dict (list Wazaoboe.MoveEntry)) : list Z :=
  foldl (fun buffer item =>
           list_inserts (creature_index CONSTANTS (fst item) * 0x104)
             (slot_image CONSTANTS (snd item)) buffer)
    buffer entries.

(** Record [k] of a buffer of fixed-size records. *)
Definition record (size : nat) (buffer : list Z) (k : nat) : list Z :=
  take size (drop (k * size) buffer).

(** Flag [i] of a bit buffer: bit [i & 7] of byte [i >> 3]. *)
Definition bit_of (bits : list Z) (i : nat) : bool :=
  Z.testbit (nth (i / 8) bits 0) (Z.of_nat (i mod 8)).

(** The names of [master], numbered from [a], whose flag is set. *)
Fixpoint selected (bits : list Z) (a : nat) (master : list string) : list string :=
  match master with
  | [] => []
  | move :: master' =>
      if bit_of bits a then move :: selected bits (S a) master'
      else selected bits (S a) master'
  end.

(** The names of [master] that are in [learnset], in the order of [master]. *)
Definition members (learnset master : list string) : list string :=
  List.filter (fun move => bool_decide (move ∈ learnset)) master.

(** The unsigned little-endian integer in the [n] bytes at [offset]. *)
Definition int_at (buffer : list Z) (offset n : nat) : Z :=
  from_bytes (take n (drop offset buffer)).

(** The [n] bytes at [offset]. *)
Definition bytes_at (buffer : list Z) (offset n : nat) : list Z :=
  take n (drop offset buffer).

(** The EV-yield word of six masked sub-fields and the flag, as
    [pack_personal] assembles it. *)
Definition ev_word (hp atk def spd sp_atk sp_def : Z) (flag : bool) : Z :=
  Z.lor (Z.lor (Z.lor (Z.lor (Z.lor (Z.lor hp (Z.shiftl atk 2)) (Z.shiftl def 4))
                         (Z.shiftl spd 6)) (Z.shiftl sp_atk 8)) (Z.shiftl sp_def 10))
    (Z.shiftl (if flag then 1 else 0) 12).

(** The sub-fields [unpack_personal] reads from an EV-yield word, in the
    order hp, atk, def, spd, sp_atk, sp_def, and the flag. *)
Definition ev_fields (ev_yield : Z) : list Z * bool :=
  ([Z.land ev_yield 3; Z.land (Z.shiftr ev_yield 2) 3;
    Z.land (Z.shiftr ev_yield 4) 3; Z.land (Z.shiftr ev_yield 6) 3;
    Z.land (Z.shiftr ev_yield 8) 3; Z.land (Z.shiftr ev_yield 10) 3],
   Personal.truthy (Z.land (Z.shiftr ev_yield 12) 3)).

(** The integers [0, n), for exhaustive checks. *)
Definition upto (n : Z) : list Z := map Z.of_nat (seq 0 (Z.to_nat n)).

(** The dex-bits byte of a colour index and the two flags. *)
Definition dex_byte (color : Z) (has_dex_entry is_visual_form : bool) : Z :=
  Z.lor (Z.lor color (if has_dex_entry then 0x40 else 0))
    (if is_visual_form then 0x80 else 0).

(** The species-flags word of the two flags. *)
Definition species_word (is_regional_form can_not_dynamax : bool) : Z :=
  Z.lor (if is_regional_form then 1 else 0) (if can_not_dynamax then 4 else 0).

(** A lowercase hexadecimal digit. *)
Definition is_lower_hex (c : ascii) : bool :=
  let n := Z.of_nat (nat_of_ascii c) in
  ((48 <=? n) && (n <=? 57)) || ((97 <=? n) && (n <=? 102)).

(** The text [bytes.hex] gives for [n] bytes: [2 * n] lowercase digits. *)
Definition is_hex_of (n : nat) (s : string) : bool :=
  (String.length s =? 2 * n)%nat && forallb is_lower_hex (list_ascii_of_string s).

(** The code [cnstval] gives a name (0 when the name is absent). *)
Definition code_of (CONSTANTS : Constants) (category : Cat.category)
  (cname : string) : Z :=
  Z.of_nat (default O (list_index (CONSTANTS category) cname)).

(** A name of the category whose code is below [bound]. *)
Definition known_below (CONSTANTS : Constants) (category : Cat.category)
  (bound : Z) (cname : string) : bool :=
  match list_index (CONSTANTS category) cname with
  | Some i => Z.of_nat i <? bound
  | None => false
  end.

Definition in_range (bound z : Z) : bool := (0 <=? z) && (z <? bound).

(** The four learnset tables fit the widths of their bit buffers. *)
Definition registry_fits (CONSTANTS : Constants) : bool :=
  (length (CONSTANTS Cat.tms) <=? 8 * 16)%nat
  && (length (CONSTANTS Cat.trs) <=? 8 * 16)%nat
  && (length (CONSTANTS Cat.move_tutors) <=? 8 * 4)%nat
  && (length (CONSTANTS Cat.armor_tutors) <=? 8 * 4)%nat.

(** Every name of the learnset is in the master list. *)
Definition subset_of (learnset master : list string) : bool :=
  forallb (fun move => bool_decide (move ∈ master)) learnset.

(** A valid creature entry: every name is in its category with a code
    that fits the field, every number fits its field, the learnsets hold
    names of their master lists, and [unk60] is the text of 72 bytes. *)
Definition valid_entry (CONSTANTS : Constants) (e : Personal.Entry) : bool :=
  known_below CONSTANTS Cat.types 256 (Personal.type_1 e)
  && known_below CONSTANTS Cat.types 256 (Personal.type_2 e)
  && in_range 256 (Personal.base_hp e)
  && in_range 256 (Personal.base_atk e)
  && in_range 256 (Personal.base_def e)
  && in_range 256 (Personal.base_sp_atk e)
  && in_range 256 (Personal.base_sp_def e)
  && in_range 256 (Personal.base_spd e)
  && known_below CONSTANTS Cat.abilities 65536 (Personal.ability_1 e)
  && known_below CONSTANTS Cat.abilities 65536 (Personal.ability_2 e)
  && known_below CONSTANTS Cat.abilities 65536 (Personal.hidden_ability e)
  && in_range 65536 (Personal.height e)
  && in_range 65536 (Personal.weight e)
  && in_range 4 (Personal.evs_hp e)
  && in_range 4 (Personal.evs_atk e)
  && in_range 4 (Personal.evs_def e)
  && in_range 4 (Personal.evs_sp_atk e)
  && in_range 4 (Personal.evs_sp_def e)
  && in_range 4 (Personal.evs_spd e)
  && in_range 256 (Personal.catch_rate e)
  && in_range 256 (Personal.gender_rate e)
  && in_range 65536 (Personal.base_exp e)
  && known_below CONSTANTS Cat.growth_types 256 (Personal.growth_type e)
  && known_below CONSTANTS Cat.items 65536 (Personal.special_z_item e)
  && known_below CONSTANTS Cat.moves 65536 (Personal.special_z_base_move e)
  && known_below CONSTANTS Cat.moves 65536 (Personal.special_z_move e)
  && known_below CONSTANTS Cat.egg_groups 256 (Personal.egg_group_1 e)
  && known_below CONSTANTS Cat.egg_groups 256 (Personal.egg_group_2 e)
  && in_range 256 (Personal.evolution_stage e)
  && known_below CONSTANTS Cat.pokemon 65536 (Personal.egg_species e)
  && in_range 65536 (Personal.egg_form e)
  && in_range 256 (Personal.hatch_cycles e)
  && in_range 256 (Personal.base_friendship e)
  && known_below CONSTANTS Cat.items 65536 (Personal.common_item e)
  && known_below CONSTANTS Cat.items 65536 (Personal.rare_item e)
  && known_below CONSTANTS Cat.items 65536 (Personal.very_rare_item e)
  && known_below CONSTANTS Cat.pokemon 65536 (Personal.first_form_index e)
  && in_range 256 (Personal.form_count e)
  && in_range 4294967296 (Personal.icon_id e)
  && in_range 65536 (Personal.pokedex_number e)
  && in_range 65536 (Personal.armor_dex_number e)
  && in_range 65536 (Personal.crown_dex_number e)
  && known_below CONSTANTS Cat.dex_colors 64 (Personal.dex_color e)
  && subset_of (Personal.tms e) (CONSTANTS Cat.tms)
  && subset_of (Personal.trs e) (CONSTANTS Cat.trs)
  && subset_of (Personal.move_tutors e) (CONSTANTS Cat.move_tutors)
  && subset_of (Personal.armor_tutors e) (CONSTANTS Cat.armor_tutors)
  && in_range 65536 (Personal.unk5E e)
  && is_hex_of 72 (Personal.unk60 e).

(** [e] with its four learnsets replaced. *)
Definition set_learnsets (e : Personal.Entry)
  (new_tms new_trs new_move_tutors new_armor_tutors : list string) : Personal.Entry :=
  {| Personal.type_1 := Personal.type_1 e;
     Personal.type_2 := Personal.type_2 e;
     Personal.base_hp := Personal.base_hp e;
     Personal.base_atk := Personal.base_atk e;
     Personal.base_def := Personal.base_def e;
     Personal.base_sp_atk := Personal.base_sp_atk e;
     Personal.base_sp_def := Personal.base_sp_def e;
     Personal.base_spd := Personal.base_spd e;
     Personal.ability_1 := Personal.ability_1 e;
     Personal.ability_2 := Personal.ability_2 e;
     Personal.hidden_ability := Personal.hidden_ability e;
     Personal.height := Personal.height e;
     Personal.weight := Personal.weight e;
     Personal.evs_hp := Personal.evs_hp e;
     Personal.evs_atk := Personal.evs_atk e;
     Personal.evs_def := Personal.evs_def e;
     Personal.evs_sp_atk := Personal.evs_sp_atk e;
     Personal.evs_sp_def := Personal.evs_sp_def e;
     Personal.evs_spd := Personal.evs_spd e;
     Personal.fail_telekinesis := Personal.fail_telekinesis e;
     Personal.catch_rate := Personal.catch_rate e;
     Personal.gender_rate := Personal.gender_rate e;
     Personal.base_exp := Personal.base_exp e;
     Personal.growth_type := Personal.growth_type e;
     Personal.special_z_item := Personal.special_z_item e;
     Personal.special_z_base_move := Personal.special_z_base_move e;
     Personal.special_z_move := Personal.special_z_move e;
     Personal.egg_group_1 := Personal.egg_group_1 e;
     Personal.egg_group_2 := Personal.egg_group_2 e;
     Personal.evolution_stage := Personal.evolution_stage e;
     Personal.egg_species := Personal.egg_species e;
     Personal.egg_form := Personal.egg_form e;
     Personal.hatch_cycles := Personal.hatch_cycles e;
     Personal.base_friendship := Personal.base_friendship e;
     Personal.common_item := Personal.common_item e;
     Personal.rare_item := Personal.rare_item e;
     Personal.very_rare_item := Personal.very_rare_item e;
     Personal.first_form_index := Personal.first_form_index e;
     Personal.form_count := Personal.form_count e;
     Personal.icon_id := Personal.icon_id e;
     Personal.pokedex_number := Personal.pokedex_number e;
     Personal.armor_dex_number := Personal.armor_dex_number e;
     Personal.crown_dex_number := Personal.crown_dex_number e;
     Personal.dex_color := Personal.dex_color e;
     Personal.has_dex_entry := Personal.has_dex_entry e;
     Personal.is_visual_form := Personal.is_visual_form e;
     Personal.is_regional_form := Personal.is_regional_form e;
     Personal.can_not_dynamax := Personal.can_not_dynamax e;
     Personal.tms := new_tms;
     Personal.trs := new_trs;
     Personal.move_tutors := new_move_tutors;
     Personal.armor_tutors := new_armor_tutors;
     Personal.unk5E := Personal.unk5E e;
     Personal.unk60 := Personal.unk60 e |}.

(** [e] with each learnset listed in the order of its master list. *)
Definition normalize (CONSTANTS : Constants) (e : Personal.Entry) : Personal.Entry :=
  set_learnsets e
    (members (Personal.tms e) (CONSTANTS Cat.tms))
    (members (Personal.trs e) (CONSTANTS Cat.trs))
    (members (Personal.move_tutors e) (CONSTANTS Cat.move_tutors))
    (members (Personal.armor_tutors e) (CONSTANTS Cat.armor_tutors)).

(** The same entry, its learnsets read as sets. *)
Definition same_entry (e1 e2 : Personal.Entry) : Prop :=
  set_learnsets e1 [] [] [] [] = set_learnsets e2 [] [] [] []
  /\ (forall move, move ∈ Personal.tms e1 <-> move ∈ Personal.tms e2)
  /\ (forall move, move ∈ Personal.trs e1 <-> move ∈ Personal.trs e2)
  /\ (forall move, move ∈ Personal.move_tutors e1 <-> move ∈ Personal.move_tutors e2)
  /\ (forall move, move ∈ Personal.armor_tutors e1
                   <-> move ∈ Personal.armor_tutors e2).

(** The learnsets of [e] are already in the order of their master lists. *)
Definition in_master_order (CONSTANTS : Constants) (e : Personal.Entry) : Prop :=
  normalize CONSTANTS e = e.

(** The bit buffer of a learnset (empty if packing raises). *)
Definition learnset_bits (CONSTANTS : Constants) (consts_name : Cat.category)
  (learnset : list string) (size : nat) : list Z :=
  match Personal.pack_learnset_bits CONSTANTS consts_name learnset size with
  | OK bits => bits
  | Raise _ => []
  end.

(** The bytes of a hexadecimal text (none if it is malformed). *)
Definition hex_bytes (s : string) : list Z :=
  match fromhex s with OK bs => bs | Raise _ => [] end.

(** The 45 values [pack_personal] hands to [pack_into] for a valid entry. *)
Definition entry_values (CONSTANTS : Constants) (e : Personal.Entry)
  : list Struct.value :=
  [Struct.VInt (Personal.base_hp e); Struct.VInt (Personal.base_atk e);
   Struct.VInt (Personal.base_def e); Struct.VInt (Personal.base_spd e);
   Struct.VInt (Personal.base_sp_atk e); Struct.VInt (Personal.base_sp_def e);
   Struct.VInt (code_of CONSTANTS Cat.types (Personal.type_1 e));
   Struct.VInt (code_of CONSTANTS Cat.types (Personal.type_2 e));
   Struct.VInt (Personal.catch_rate e); Struct.VInt (Personal.evolution_stage e);
   Struct.VInt (Personal.pack_ev_yield e);
   Struct.VInt (code_of CONSTANTS Cat.items (Personal.common_item e));
   Struct.VInt (code_of CONSTANTS Cat.items (Personal.rare_item e));
   Struct.VInt (code_of CONSTANTS Cat.items (Personal.very_rare_item e));
   Struct.VInt (Personal.gender_rate e); Struct.VInt (Personal.hatch_cycles e);
   Struct.VInt (Personal.base_friendship e);
   Struct.VInt (code_of CONSTANTS Cat.growth_types (Personal.growth_type e));
   Struct.VInt (code_of CONSTANTS Cat.egg_groups (Personal.egg_group_1 e));
   Struct.VInt (code_of CONSTANTS Cat.egg_groups (Personal.egg_group_2 e));
   Struct.VInt (code_of CONSTANTS Cat.abilities (Personal.ability_1 e));
   Struct.VInt (code_of CONSTANTS Cat.abilities (Personal.ability_2 e));
   Struct.VInt (code_of CONSTANTS Cat.abilities (Personal.hidden_ability e));
   Struct.VInt (code_of CONSTANTS Cat.pokemon (Personal.first_form_index e));
   Struct.VInt (Personal.form_count e);
   Struct.VInt (dex_byte (code_of CONSTANTS Cat.dex_colors (Personal.dex_color e))
                  (Personal.has_dex_entry e) (Personal.is_visual_form e));
   Struct.VInt (Personal.base_exp e); Struct.VInt (Personal.height e);
   Struct.VInt (Personal.weight e);
   Struct.VBytes (learnset_bits CONSTANTS Cat.tms (Personal.tms e) 16);
   Struct.VBytes (learnset_bits CONSTANTS Cat.move_tutors (Personal.move_tutors e) 4);
   Struct.VBytes (learnset_bits CONSTANTS Cat.trs (Personal.trs e) 16);
   Struct.VInt (Personal.icon_id e);
   Struct.VInt (code_of CONSTANTS Cat.items (Personal.special_z_item e));
   Struct.VInt (code_of CONSTANTS Cat.moves (Personal.special_z_base_move e));
   Struct.VInt (code_of CONSTANTS Cat.moves (Personal.special_z_move e));
   Struct.VInt (code_of CONSTANTS Cat.pokemon (Personal.egg_species e));
   Struct.VInt (Personal.egg_form e);
   Struct.VInt (species_word (Personal.is_regional_form e)
                  (Personal.can_not_dynamax e));
   Struct.VInt (Personal.pokedex_number e); Struct.VInt (Personal.unk5E e);
   Struct.VBytes (hex_bytes (Personal.unk60 e));
   Struct.VBytes (learnset_bits CONSTANTS Cat.armor_tutors
                    (Personal.armor_tutors e) 4);
   Struct.VInt (Personal.armor_dex_number e);
   Struct.VInt (Personal.crown_dex_number e)].

(** A valid icon entry: both ids fit 16 bits and the gender is known. *)
Definition valid_icon (CONSTANTS : Constants) (e : Pokecaplist.IconEntry) : bool :=
  in_range 65536 (Pokecaplist.icon_id e)
  && in_range 65536 (Pokecaplist.form_id e)
  && known_below CONSTANTS Cat.genders 65536 (Pokecaplist.gender_type e).

(** The values [pack_pokecaplist] hands to [pack_into] for an entry. *)
Definition icon_values (CONSTANTS : Constants) (e : Pokecaplist.IconEntry)
  : list Struct.value :=
  [Struct.VInt (Pokecaplist.icon_id e); Struct.VInt (Pokecaplist.form_id e);
   Struct.VInt (code_of CONSTANTS Cat.genders (Pokecaplist.gender_type e));
   Struct.VBool (Pokecaplist.is_gigantamax e)].

(** The eight bytes of an icon entry. *)
Definition icon_bytes (CONSTANTS : Constants) (e : Pokecaplist.IconEntry) : list Z :=
  to_bytes 2 (Pokecaplist.icon_id e) ++ to_bytes 2 (Pokecaplist.form_id e)
  ++ to_bytes 2 (code_of CONSTANTS Cat.genders (Pokecaplist.gender_type e))
  ++ [0; if Pokecaplist.is_gigantamax e then 1 else 0].

(** The flags of a bit buffer beyond the end of its master list are clear. *)
Definition spare_clear (master : list string) (bits : list Z) : bool :=
  forallb (fun j => negb (bit_of bits j))
    (seq (length master) (8 * length bits - length master)).

(** A code that has a name in its category. *)
Definition has_name (CONSTANTS : Constants) (category : Cat.category) (code : Z)
  : bool :=
  code <? Z.of_nat (length (CONSTANTS category)).

(** A record (the bytes from its first one on) that [unpack_personal]
    decodes and that holds zeros where the format specifies nothing: each
    enum code has a name; bits 13 to 15 of the EV-yield word, the bits of
    the species-flags word other than bits 0 and 2, and the learnset flags
    beyond the master lists are clear, as in [BLANK_PRSNL_ENTRY]. *)
Definition record_ok (CONSTANTS : Constants) (r : list Z) : bool :=
  has_name CONSTANTS Cat.types (int_at r 6 1)
  && has_name CONSTANTS Cat.types (int_at r 7 1)
  && has_name CONSTANTS Cat.abilities (int_at r 24 2)
  && has_name CONSTANTS Cat.abilities (int_at r 26 2)
  && has_name CONSTANTS Cat.abilities (int_at r 28 2)
  && has_name CONSTANTS Cat.growth_types (int_at r 21 1)
  && has_name CONSTANTS Cat.items (int_at r 80 2)
  && has_name CONSTANTS Cat.moves (int_at r 82 2)
  && has_name CONSTANTS Cat.moves (int_at r 84 2)
  && has_name CONSTANTS Cat.egg_groups (int_at r 22 1)
  && has_name CONSTANTS Cat.egg_groups (int_at r 23 1)
  && has_name CONSTANTS Cat.pokemon (int_at r 86 2)
  && has_name CONSTANTS Cat.items (int_at r 12 2)
  && has_name CONSTANTS Cat.items (int_at r 14 2)
  && has_name CONSTANTS Cat.items (int_at r 16 2)
  && has_name CONSTANTS Cat.pokemon (int_at r 30 2)
  && has_name CONSTANTS Cat.dex_colors (Z.land (int_at r 33 1) 0x3F)
  && (Z.land (int_at r 10 2) 0xE000 =? 0)
  && (Z.land (int_at r 90 2) 0xFFFA =? 0)
  && spare_clear (CONSTANTS Cat.tms) (bytes_at r 40 16)
  && spare_clear (CONSTANTS Cat.move_tutors) (bytes_at r 56 4)
  && spare_clear (CONSTANTS Cat.trs) (bytes_at r 60 16)
  && spare_clear (CONSTANTS Cat.armor_tutors) (bytes_at r 168 4).

(** A well-formed blob for a registry: bytes, one record per creature of
    the pokemon category, every record decodable with zeros in its
    unspecified bits. *)
Definition well_formed (CONSTANTS : Constants) (blob : list Z) : bool :=
  all_bytes blob
  && (length blob =? length (CONSTANTS Cat.pokemon) * 0xB0)%nat
  && forallb (fun k => record_ok CONSTANTS (drop (k * 0xB0) blob))
       (seq 0 (length (CONSTANTS Cat.pokemon))).

(** Code 0 has a name in every category a creature record refers to. *)
Definition names_code_0 (CONSTANTS : Constants) : bool :=
  has_name CONSTANTS Cat.types 0 && has_name CONSTANTS Cat.abilities 0
  && has_name CONSTANTS Cat.growth_types 0 && has_name CONSTANTS Cat.items 0
  && has_name CONSTANTS Cat.moves 0 && has_name CONSTANTS Cat.egg_groups 0
  && has_name CONSTANTS Cat.pokemon 0 && has_name CONSTANTS Cat.dex_colors 0.

(** ** Further notions, for the further properties *)

(** The 0xB0 bytes of a valid entry (empty if packing raises). *)
Definition record_bytes (CONSTANTS : Constants) (e : Personal.Entry) : list Z :=
  match Struct.pack Personal.PERSONAL_ENTRY_STRUCT (entry_values CONSTANTS e) with
  | OK bytes => bytes
  | Raise _ => []
  end.

(** Every entry of the input of [pack_personal] is valid. *)
Definition valid_entries (CONSTANTS : Constants) (entries : dict Personal.Entry)
  : bool :=
  forallb (fun item => valid_entry CONSTANTS (snd item)) entries.

(** An entry that [unpack_wazaoboe] reads back after [pack_wazaoboe] wrote
    it: neither its move code nor its level is the sentinel 0xFFFF. *)
Definition decoded_back (CONSTANTS : Constants) (entry : Wazaoboe.MoveEntry)
  : bool :=
  is_used (move_code CONSTANTS entry, Wazaoboe.level entry).

(** The icon entry that [unpack_pokecaplist] reads from the eight bytes at
    the front of [r]. *)
Definition icon_of (CONSTANTS : Constants) (r : list Z) : Pokecaplist.IconEntry :=
  {| Pokecaplist.icon_id := int_at r 0 2;
     Pokecaplist.form_id := int_at r 2 2;
     Pokecaplist.gender_type :=
       nth (Z.to_nat (int_at r 4 2)) (CONSTANTS Cat.genders) EmptyString;
     Pokecaplist.is_gigantamax := negb (int_at r 7 1 =? 0) |}.

(** An icon record as [pack_pokecaplist] writes them: the gender code has
    a name, the pad byte is zero, the flag byte is 0 or 1. *)
Definition icon_record_ok (CONSTANTS : Constants) (r : list Z) : bool :=
  has_name CONSTANTS Cat.genders (int_at r 4 2)
  && (int_at r 6 1 =? 0) && (int_at r 7 1 <? 2).

(** An icon file of whole records, each as [pack_pokecaplist] writes
    them. *)
Definition icon_file_ok (CONSTANTS : Constants) (buffer : list Z) : bool :=
  all_bytes buffer
  && (length buffer mod 8 =? 0)%nat
  && forallb (fun k => icon_record_ok CONSTANTS (drop (k * 8) buffer))
       (seq 0 (length buffer / 8)).

(** The raw slots of the learnset record at the front of [r]. *)
Definition raw_slots (r : list Z) : list (Z * Z) :=
  map (raw_slot r 0) (seq 0 65).

(** A learnset record as [pack_wazaoboe] writes them: the slots in use
    come first and hold move codes that have names, every other slot is
    0xFFFF, 0xFFFF. *)
Definition learnset_record_ok (CONSTANTS : Constants) (r : list Z) : bool :=
  let used := length (List.filter is_used (raw_slots r)) in
  forallb (fun j =>
             let slot := raw_slot r 0 j in
             if (j <? used)%nat
             then is_used slot && has_name CONSTANTS Cat.moves (fst slot)
             else (fst slot =? 65535) && (snd slot =? 65535))
    (seq 0 65).

(** A learnset file of one record per creature of the pokemon category,
    each as [pack_wazaoboe] writes them. *)
Definition learnset_file_ok (CONSTANTS : Constants) (buffer : list Z) : bool :=
  all_bytes buffer
  && (length buffer =? length (CONSTANTS Cat.pokemon) * 0x104)%nat
  && forallb (fun k => learnset_record_ok CONSTANTS (drop (k * 0x104) buffer))
       (seq 0 (length (CONSTANTS Cat.pokemon))).

(** [e] with its [unk60] text replaced. *)
Definition set_unk60 (e : Personal.Entry) (text : string) : Personal.Entry :=
  {| Personal.type_1 := Personal.type_1 e;
     Personal.type_2 := Personal.type_2 e;
     Personal.base_hp := Personal.base_hp e;
     Personal.base_atk := Personal.base_atk e;
     Personal.base_def := Personal.base_def e;
     Personal.base_sp_atk := Personal.base_sp_atk e;
     Personal.base_sp_def := Personal.base_sp_def e;
     Personal.base_spd := Personal.base_spd e;
     Personal.ability_1 := Personal.ability_1 e;
     Personal.ability_2 := Personal.ability_2 e;
     Personal.hidden_ability := Personal.hidden_ability e;
     Personal.height := Personal.height e;
     Personal.weight := Personal.weight e;
     Personal.evs_hp := Personal.evs_hp e;
     Personal.evs_atk := Personal.evs_atk e;
     Personal.evs_def := Personal.evs_def e;
     Personal.evs_sp_atk := Personal.evs_sp_atk e;
     Personal.evs_sp_def := Personal.evs_sp_def e;
     Personal.evs_spd := Personal.evs_spd e;
     Personal.fail_telekinesis := Personal.fail_telekinesis e;
     Personal.catch_rate := Personal.catch_rate e;
     Personal.gender_rate := Personal.gender_rate e;
     Personal.base_exp := Personal.base_exp e;
     Personal.growth_type := Personal.growth_type e;
     Personal.special_z_item := Personal.special_z_item e;
     Personal.special_z_base_move := Personal.special_z_base_move e;
     Personal.special_z_move := Personal.special_z_move e;
     Personal.egg_group_1 := Personal.egg_group_1 e;
     Personal.egg_group_2 := Personal.egg_group_2 e;
     Personal.evolution_stage := Personal.evolution_stage e;
     Personal.egg_species := Personal.egg_species e;
     Personal.egg_form := Personal.egg_form e;
     Personal.hatch_cycles := Personal.hatch_cycles e;
     Personal.base_friendship := Personal.base_friendship e;
     Personal.common_item := Personal.common_item e;
     Personal.rare_item := Personal.rare_item e;
     Personal.very_rare_item := Personal.very_rare_item e;
     Personal.first_form_index := Personal.first_form_index e;
     Personal.form_count := Personal.form_count e;
     Personal.icon_id := Personal.icon_id e;
     Personal.pokedex_number := Personal.pokedex_number e;
     Personal.armor_dex_number := Personal.armor_dex_number e;
     Personal.crown_dex_number := Personal.crown_dex_number e;
     Personal.dex_color := Personal.dex_color e;
     Personal.has_dex_entry := Personal.has_dex_entry e;
     Personal.is_visual_form := Personal.is_visual_form e;
     Personal.is_regional_form := Personal.is_regional_form e;
     Personal.can_not_dynamax := Personal.can_not_dynamax e;
     Personal.tms := Personal.tms e;
     Personal.trs := Personal.trs e;
     Personal.move_tutors := Personal.move_tutors e;
     Personal.armor_tutors := Personal.armor_tutors e;
     Personal.unk5E := Personal.unk5E e;
     Personal.unk60 := text |}.

(** The values as [struct] writes them: the bytes of an ["<n>s"] field cut
    or padded with zeros to [n] bytes. *)
Fixpoint pad_values (codes : list Struct.code) (vals : list Struct.value)
  : list Struct.value :=
  match codes with
  | [] => vals
  | Struct.fx :: cs => pad_values cs vals
  | c :: cs =>
      match vals with
      | [] => []
      | v :: vs =>
          match c, v with
          | Struct.fs n, Struct.VBytes bs => Struct.VBytes (Struct.pack_bytes n bs)
          | _, _ => v
          end :: pad_values cs vs
      end
  end.
(** * Properties *)

(** ** Results *)

Lemma bind_OK {A B : Type} (m : result A) (k : A -> result B) (b : B) :
  bind m k = OK b -> exists a, m = OK a /\ k a = OK b.
Proof. destruct m as [a|e]; simpl; [eauto | discriminate]. Qed.

Ltac inv_bind H :=
  let a := fresh "a" in
  let Ha := fresh "Ha" in
  apply bind_OK in H; destruct H as (a & Ha & H).

Lemma for_each_app {A S : Type} (l1 l2 : list A) (s : S) (body : A -> S -> result S) :
  for_each (l1 ++ l2) s body = let* s' := for_each l1 s body in for_each l2 s' body.
Proof.
  revert s; induction l1 as [|a l1 IH]; intros s; simpl; [done|].
  destruct (body a s); simpl; auto.
Qed.

(** ** Bytes *)

Lemma is_byte_spec (b : Z) : is_byte b = true <-> 0 <= b < 256.
Proof. unfold is_byte. rewrite andb_true_iff, Z.leb_le, Z.ltb_lt. tauto. Qed.

Lemma all_bytes_Forall (bs : list Z) :
  all_bytes bs = true <-> Forall (fun b => 0 <= b < 256) bs.
Proof.
  unfold all_bytes. rewrite forallb_forall, Forall_forall.
  split; intros H b Hb.
  - apply is_byte_spec, H. by apply list_elem_of_In.
  - apply is_byte_spec, H. by apply list_elem_of_In.
Qed.

Lemma all_bytes_cons (b : Z) (bs : list Z) :
  all_bytes (b :: bs) = true <-> 0 <= b < 256 /\ all_bytes bs = true.
Proof. unfold all_bytes; simpl. rewrite andb_true_iff, is_byte_spec. tauto. Qed.

Lemma all_bytes_app (bs1 bs2 : list Z) :
  all_bytes (bs1 ++ bs2) = true <-> all_bytes bs1 = true /\ all_bytes bs2 = true.
Proof. unfold all_bytes. rewrite forallb_app, andb_true_iff. tauto. Qed.

Lemma all_bytes_take (n : nat) (bs : list Z) :
  all_bytes bs = true -> all_bytes (take n bs) = true.
Proof. rewrite !all_bytes_Forall. apply Forall_take. Qed.

Lemma all_bytes_drop (n : nat) (bs : list Z) :
  all_bytes bs = true -> all_bytes (drop n bs) = true.
Proof. rewrite !all_bytes_Forall. apply Forall_drop. Qed.

Lemma all_bytes_replicate (n : nat) (b : Z) :
  0 <= b < 256 -> all_bytes (replicate n b) = true.
Proof. intros Hb. apply all_bytes_Forall, Forall_replicate, Hb. Qed.

Lemma all_bytes_lookup (bs : list Z) (i : nat) (b : Z) :
  all_bytes bs = true -> bs !! i = Some b -> 0 <= b < 256.
Proof.
  rewrite all_bytes_Forall, Forall_lookup. intros H Hi. exact (H i b Hi).
Qed.

Lemma length_to_bytes (n : nat) (z : Z) : length (to_bytes n z) = n.
Proof. revert z; induction n as [|n IH]; intros z; simpl; auto. Qed.

Lemma all_bytes_to_bytes (n : nat) (z : Z) : all_bytes (to_bytes n z) = true.
Proof.
  revert z; induction n as [|n IH]; intros z; [done|].
  simpl to_bytes. apply all_bytes_cons. split; [|apply IH].
  apply Z.mod_pos_bound; lia.
Qed.

Lemma from_bytes_bound (bs : list Z) :
  all_bytes bs = true -> 0 <= from_bytes bs < 256 ^ Z.of_nat (length bs).
Proof.
  induction bs as [|b bs IH]; intros H; simpl from_bytes; simpl length.
  - simpl. lia.
  - apply all_bytes_cons in H as [Hb Hbs]. specialize (IH Hbs).
    rewrite Nat2Z.inj_succ, Z.pow_succ_r by lia. lia.
Qed.

Lemma from_bytes_to_bytes (n : nat) (z : Z) :
  0 <= z < 256 ^ Z.of_nat n -> from_bytes (to_bytes n z) = z.
Proof.
  revert z; induction n as [|n IH]; intros z Hz; simpl.
  - simpl in Hz. lia.
  - rewrite Nat2Z.inj_succ, Z.pow_succ_r in Hz by lia.
    rewrite IH.
    + pose proof (Z.div_mod z 256). lia.
    + split; [apply Z.div_pos; lia | apply Z.div_lt_upper_bound; lia].
Qed.

Lemma to_bytes_from_bytes (bs : list Z) :
  all_bytes bs = true -> to_bytes (length bs) (from_bytes bs) = bs.
Proof.
  induction bs as [|b bs IH]; intros H; [done|].
  apply all_bytes_cons in H as [Hb Hbs]. simpl.
  rewrite <- (Z.mod_unique_pos (b + 256 * from_bytes bs) 256 (from_bytes bs) b)
    by lia.
  rewrite <- (Z.div_unique_pos (b + 256 * from_bytes bs) 256 (from_bytes bs) b)
    by lia.
  by rewrite IH.
Qed.

(** ** [struct]: packing and unpacking are inverse *)

Lemma list_inserts_take_drop {A : Type} (i : nat) (k l : list A) :
  (i + length k <= length l)%nat ->
  list_inserts i k l = take i l ++ k ++ drop (i + length k) l.
Proof.
  intros Hlen.
  rewrite <- (take_drop i l) at 1.
  rewrite <- (take_drop (length k) (drop i l)) at 1.
  rewrite drop_drop.
  replace i with (length (take i l) + 0)%nat at 1
    by (rewrite length_take; lia).
  rewrite list_inserts_app_r, list_inserts_0_r; [done|].
  rewrite length_take, length_drop. lia.
Qed.

Lemma pack_int_OK (n : nat) (z : Z) :
  0 <= z < 256 ^ Z.of_nat n -> Struct.pack_int n z = OK (to_bytes n z).
Proof.
  intros Hz. unfold Struct.pack_int.
  destruct (Z.leb_spec 0 z); [|lia].
  destruct (Z.ltb_spec z (256 ^ Z.of_nat n)); [done|lia].
Qed.

Lemma pack_value_fits (c : Struct.code) (v : Struct.value) :
  fits c v = true ->
  exists bs, Struct.pack_value c v = OK bs /\ length bs = Struct.size c
             /\ forall rest, Struct.unpack_codes [c] (bs ++ rest) = [v].
Proof.
  destruct c, v; simpl; try discriminate; intros H.
  - apply andb_true_iff in H as [H1%Z.leb_le H2%Z.ltb_lt].
    exists (to_bytes 1 z). rewrite pack_int_OK by (simpl; lia).
    split; [done|]. split; [done|]. intros rest. simpl.
    rewrite Z.mod_small by lia. do 2 f_equal. lia.
  - apply andb_true_iff in H as [H1%Z.leb_le H2%Z.ltb_lt].
    exists (to_bytes 2 z). rewrite pack_int_OK by (simpl; lia).
    split; [done|]. split; [done|]. intros rest.
    cbn [Struct.unpack_codes Struct.size].
    rewrite take_app_length' by (by rewrite length_to_bytes).
    rewrite from_bytes_to_bytes by (simpl; lia). done.
  - apply andb_true_iff in H as [H1%Z.leb_le H2%Z.ltb_lt].
    exists (to_bytes 4 z). rewrite pack_int_OK by (simpl; lia).
    split; [done|]. split; [done|]. intros rest.
    cbn [Struct.unpack_codes Struct.size].
    rewrite take_app_length' by (by rewrite length_to_bytes).
    rewrite from_bytes_to_bytes by (simpl; lia). done.
  - apply Nat.eqb_eq in H. exists bs. unfold Struct.pack_bytes.
    rewrite <- H, take_ge, Nat.sub_diag, app_nil_r by lia.
    split; [done|]. split; [done|]. intros rest. simpl.
    by rewrite take_app_length.
  - exists [if b then 1 else 0]. split; [done|]. split; [done|].
    intros rest. simpl. by destruct b.
Qed.

Lemma unpack_codes_cons (c : Struct.code) (cs : list Struct.code) (bs : list Z) :
  Struct.unpack_codes (c :: cs) bs
  = Struct.unpack_codes [c] bs ++ Struct.unpack_codes cs (drop (Struct.size c) bs).
Proof. destruct c; reflexivity. Qed.

Lemma pack_cons (c : Struct.code) (cs : list Struct.code) (v : Struct.value)
  (vs : list Struct.value) :
  c <> Struct.fx ->
  Struct.pack (c :: cs) (v :: vs)
  = let* bs := Struct.pack_value c v in
    let* rest := Struct.pack cs vs in OK (bs ++ rest).
Proof. destruct c; done. Qed.

(** Values that fit are packed, and unpacking the packed bytes, whatever
    follows them, gives the values back. *)
Lemma pack_all_fit (codes : list Struct.code) (vals : list Struct.value) :
  all_fit codes vals = true ->
  exists bs, Struct.pack codes vals = OK bs
             /\ length bs = Struct.calcsize codes
             /\ forall rest, Struct.unpack_codes codes (bs ++ rest) = vals.
Proof.
  revert vals; induction codes as [|c cs IH]; intros vals H.
  - destruct vals; [|discriminate]. exists []. done.
  - assert (Hx : c = Struct.fx \/ c <> Struct.fx) by (destruct c; auto).
    destruct Hx as [->|Hc].
    + simpl in H. destruct (IH vals H) as (bs & Hp & Hl & Hu).
      exists (0 :: bs). simpl. rewrite Hp. simpl. rewrite Hl.
      split; [done|]. split; [done|]. intros rest. apply Hu.
    + assert (Hv : exists v vs, vals = v :: vs /\ fits c v = true
                                /\ all_fit cs vs = true).
      { destruct c, vals as [|v vs]; simpl in H; try discriminate; try done;
          apply andb_true_iff in H as [? ?]; eauto. }
      destruct Hv as (v & vs & -> & Hf & Hfs).
      destruct (pack_value_fits c v Hf) as (b1 & Hp1 & Hl1 & Hu1).
      destruct (IH vs Hfs) as (b2 & Hp2 & Hl2 & Hu2).
      exists (b1 ++ b2).
      rewrite pack_cons, Hp1 by done. cbn [bind]. rewrite Hp2. cbn [bind].
      split; [done|]. split; [rewrite length_app; simpl; lia|].
      intros rest. rewrite unpack_codes_cons, <- app_assoc, Hu1, <- Hl1.
      rewrite drop_app_length, Hu2. done.
Qed.

(** Conversely, for plain codes the values read from bytes pack to the
    same bytes. *)
Lemma pack_unpack_codes (codes : list Struct.code) (bs : list Z) :
  plain codes = true -> all_bytes bs = true ->
  (Struct.calcsize codes <= length bs)%nat ->
  Struct.pack codes (Struct.unpack_codes codes bs)
  = OK (take (Struct.calcsize codes) bs).
Proof.
  revert bs; induction codes as [|c cs IH]; intros bs Hp Hb Hl.
  - done.
  - simpl in Hp. apply andb_true_iff in Hp as [Hc Hcs].
    simpl in Hl.
    assert (Hd : all_bytes (drop (Struct.size c) bs) = true)
      by by apply all_bytes_drop.
    assert (Hld : (Struct.calcsize cs <= length (drop (Struct.size c) bs))%nat)
      by (rewrite length_drop; lia).
    specialize (IH _ Hcs Hd Hld).
    assert (Hhead : Struct.pack_value c
                      (match c with
                       | Struct.fs n => Struct.VBytes (take n bs)
                       | _ => Struct.VInt (from_bytes (take (Struct.size c) bs))
                       end) = OK (take (Struct.size c) bs)).
    { assert (Ht : all_bytes (take (Struct.size c) bs) = true)
        by by apply all_bytes_take.
      assert (Hlt : length (take (Struct.size c) bs) = Struct.size c)
        by (rewrite length_take; lia).
      pose proof (from_bytes_bound _ Ht) as Hbd. rewrite Hlt in Hbd.
      destruct c; try discriminate; simpl in *.
      - rewrite pack_int_OK by done. rewrite <- Hlt at 1.
        by rewrite to_bytes_from_bytes.
      - rewrite pack_int_OK by done. rewrite <- Hlt at 1.
        by rewrite to_bytes_from_bytes.
      - rewrite pack_int_OK by done. rewrite <- Hlt at 1.
        by rewrite to_bytes_from_bytes.
      - unfold Struct.pack_bytes. rewrite Hlt, Nat.sub_diag, app_nil_r.
        by rewrite take_take, Nat.min_id. }
    simpl Struct.calcsize. rewrite <- take_take_drop.
    assert (Hu : Struct.unpack_codes (c :: cs) bs
                 = match c with
                   | Struct.fs n => Struct.VBytes (take n bs)
                   | _ => Struct.VInt (from_bytes (take (Struct.size c) bs))
                   end :: Struct.unpack_codes cs (drop (Struct.size c) bs))
      by (destruct c; done).
    rewrite Hu, pack_cons, Hhead by (destruct c; done).
    cbn [bind]. rewrite IH. done.
Qed.

Lemma unpack_from_OK (codes : list Struct.code) (buffer : list Z) (offset : nat) :
  (offset + Struct.calcsize codes <= length buffer)%nat ->
  Struct.unpack_from codes buffer offset
  = OK (Struct.unpack_codes codes (drop offset buffer)).
Proof.
  intros H. unfold Struct.unpack_from.
  destruct (Nat.leb_spec (offset + Struct.calcsize codes) (length buffer));
    [done|lia].
Qed.

Lemma pack_into_OK (codes : list Struct.code) (buffer : list Z) (offset : nat)
  (vals : list Struct.value) (bs : list Z) :
  (offset + Struct.calcsize codes <= length buffer)%nat ->
  Struct.pack codes vals = OK bs ->
  Struct.pack_into codes buffer offset vals = OK (list_inserts offset bs buffer).
Proof.
  intros H Hp. unfold Struct.pack_into.
  destruct (Nat.leb_spec (offset + Struct.calcsize codes) (length buffer));
    [|lia].
  by rewrite Hp.
Qed.

(** ** The registry *)

Lemma list_index_Some (l : list string) (x : string) (i : nat) :
  list_index l x = Some i -> l !! i = Some x.
Proof.
  revert i; induction l as [|y l IH]; intros i; simpl; [discriminate|].
  destruct (decide (x = y)) as [->|Hne].
  - intros [= <-]. done.
  - destruct (list_index l x) as [j|] eqn:Hj; simpl; [|discriminate].
    intros [= <-]. simpl. by apply IH.
Qed.

Lemma list_index_None (l : list string) (x : string) :
  list_index l x = None <-> x ∉ l.
Proof.
  induction l as [|y l IH]; simpl.
  - split; [intros _; apply not_elem_of_nil | done].
  - rewrite not_elem_of_cons. destruct (decide (x = y)) as [->|Hne].
    + split; [discriminate | tauto].
    + destruct (list_index l x) as [j|] eqn:Hj; simpl.
      * split; [discriminate|]. intros [_ H]. by apply IH in H.
      * split; [|done]. intros _. split; [done|]. by apply IH.
Qed.

Lemma list_index_elem_of (l : list string) (x : string) :
  x ∈ l -> exists i, list_index l x = Some i.
Proof.
  intros Hx. destruct (list_index l x) as [i|] eqn:Hi; [eauto|].
  by apply list_index_None in Hi.
Qed.

Lemma list_index_NoDup (l : list string) (x : string) (i : nat) :
  NoDup l -> l !! i = Some x -> list_index l x = Some i.
Proof.
  intros Hnd Hi.
  destruct (list_index_elem_of l x) as [j Hj].
  { apply list_elem_of_lookup. eauto. }
  apply list_index_Some in Hj as Hj'.
  by rewrite (NoDup_lookup l i j x Hnd Hi Hj').
Qed.

Lemma py_getitem_nat {A : Type} (l : list A) (i : nat) :
  py_getitem l (Z.of_nat i)
  = match l !! i with Some a => OK a | None => Raise IndexError end.
Proof.
  unfold py_getitem. cbv zeta.
  destruct (Z.ltb_spec (Z.of_nat i) 0); [lia|].
  destruct (Z.ltb_spec (Z.of_nat i) 0); [lia|].
  by rewrite Nat2Z.id.
Qed.

Lemma py_getitem_nonneg {A : Type} (l : list A) (i : Z) :
  0 <= i ->
  py_getitem l i
  = match l !! Z.to_nat i with Some a => OK a | None => Raise IndexError end.
Proof. intros H. rewrite <- (Z2Nat.id i) at 1 by done. apply py_getitem_nat. Qed.

Lemma py_getitem_out_of_range {A : Type} (l : list A) (i : Z) :
  Z.of_nat (length l) <= i \/ i < - Z.of_nat (length l) ->
  py_getitem l i = Raise IndexError.
Proof.
  intros [H|H]; unfold py_getitem; cbv zeta.
  - destruct (Z.ltb_spec i 0); [lia|].
    destruct (Z.ltb_spec i 0); [lia|].
    rewrite lookup_ge_None_2; [done|lia].
  - destruct (Z.ltb_spec i 0); [|lia].
    destruct (Z.ltb_spec (i + Z.of_nat (length l)) 0); [done|lia].
Qed.

Lemma py_getitem_error {A : Type} (l : list A) (i : Z) (e : exn) :
  py_getitem l i = Raise e -> e = IndexError.
Proof.
  unfold py_getitem. cbv zeta.
  destruct (_ <? 0); [congruence|]. destruct (l !! _); congruence.
Qed.

Lemma py_getitem_OK_nonneg {A : Type} (l : list A) (i : Z) (a : A) :
  0 <= i -> py_getitem l i = OK a -> l !! Z.to_nat i = Some a.
Proof.
  intros Hi. rewrite py_getitem_nonneg by done.
  destruct (l !! Z.to_nat i); congruence.
Qed.

Lemma cnstval_OK (CONSTANTS : Constants) (category : Cat.category)
  (cname : string) (i : Z) :
  cnstval CONSTANTS category cname = OK i ->
  0 <= i < Z.of_nat (length (CONSTANTS category))
  /\ CONSTANTS category !! Z.to_nat i = Some cname.
Proof.
  unfold cnstval.
  destruct (list_index _ cname) as [j|] eqn:Hj; [|discriminate].
  intros [= <-]. apply list_index_Some in Hj.
  rewrite Nat2Z.id. split; [|done].
  apply lookup_lt_Some in Hj. lia.
Qed.

Lemma cnstval_elem_of (CONSTANTS : Constants) (category : Cat.category)
  (cname : string) :
  cname ∈ CONSTANTS category ->
  exists i, cnstval CONSTANTS category cname = OK i.
Proof.
  intros H. unfold cnstval.
  destruct (list_index_elem_of _ _ H) as [j ->]. eauto.
Qed.

Lemma cnstval_absent (CONSTANTS : Constants) (category : Cat.category)
  (cname : string) :
  cname ∉ CONSTANTS category ->
  cnstval CONSTANTS category cname = Raise ValueError.
Proof.
  intros H. unfold cnstval. apply list_index_None in H. by rewrite H.
Qed.

(** What [cnstval] finds is what [cnstname] gives back. *)
Lemma cnstname_cnstval (CONSTANTS : Constants) (category : Cat.category)
  (cname : string) (i : Z) :
  cnstval CONSTANTS category cname = OK i ->
  cnstname CONSTANTS category i = OK cname.
Proof.
  intros H. apply cnstval_OK in H as [Hi Hl].
  unfold cnstname. rewrite py_getitem_nonneg by lia. by rewrite Hl.
Qed.

(** In a category without repeated names, [cnstval] undoes [cnstname]. *)
Lemma cnstval_cnstname (CONSTANTS : Constants) (category : Cat.category)
  (cname : string) (i : Z) :
  NoDup (CONSTANTS category) -> 0 <= i ->
  cnstname CONSTANTS category i = OK cname ->
  cnstval CONSTANTS category cname = OK i.
Proof.
  intros Hnd Hi H. unfold cnstname in H.
  apply py_getitem_OK_nonneg in H; [|done].
  unfold cnstval. rewrite (list_index_NoDup _ _ _ Hnd H).
  f_equal. lia.
Qed.

Lemma cnstname_in_range (CONSTANTS : Constants) (category : Cat.category) (i : Z) :
  0 <= i < Z.of_nat (length (CONSTANTS category)) ->
  exists cname, cnstname CONSTANTS category i = OK cname
                /\ CONSTANTS category !! Z.to_nat i = Some cname.
Proof.
  intros Hi. unfold cnstname. rewrite py_getitem_nonneg by lia.
  destruct (lookup_lt_is_Some_2 (CONSTANTS category) (Z.to_nat i)) as [s Hs];
    [lia|].
  rewrite Hs. eauto.
Qed.

(** ** Level-up learnsets: decoding *)

Lemma unpack_from_ENTRY (buffer : list Z) (offset j : nat) :
  (offset + 4 * j + 4 <= length buffer)%nat ->
  Struct.unpack_from Wazaoboe.ENTRY buffer (offset + 4 * j)
  = OK [Struct.VInt (fst (raw_slot buffer offset j));
        Struct.VInt (snd (raw_slot buffer offset j))].
Proof.
  intros H. rewrite unpack_from_OK by (simpl; lia).
  unfold raw_slot. simpl. by rewrite drop_drop.
Qed.

Lemma raw_slot_bounds (buffer : list Z) (offset j : nat) :
  all_bytes buffer = true ->
  (offset + 4 * j + 4 <= length buffer)%nat ->
  0 <= fst (raw_slot buffer offset j) < 65536
  /\ 0 <= snd (raw_slot buffer offset j) < 65536.
Proof.
  intros Hb Hl. unfold raw_slot; simpl.
  split.
  - pose proof (from_bytes_bound (take 2 (drop (offset + 4 * j) buffer))) as H.
    rewrite length_take, length_drop in H.
    replace (Z.of_nat (2 `min` (length buffer - (offset + 4 * j)))) with 2 in H
      by lia.
    apply H. by apply all_bytes_take, all_bytes_drop.
  - pose proof (from_bytes_bound (take 2 (drop (offset + 4 * j + 2) buffer))) as H.
    rewrite length_take, length_drop in H.
    replace (Z.of_nat (2 `min` (length buffer - (offset + 4 * j + 2)))) with 2 in H
      by lia.
    apply H. by apply all_bytes_take, all_bytes_drop.
Qed.

Lemma unpack_slot_step (CONSTANTS : Constants) (buffer : list Z) (offset j : nat)
  (acc : list Wazaoboe.MoveEntry) :
  all_bytes buffer = true ->
  (offset + 4 * j + 4 <= length buffer)%nat ->
  (is_used (raw_slot buffer offset j) = true ->
   fst (raw_slot buffer offset j) < Z.of_nat (length (CONSTANTS Cat.moves))) ->
  Wazaoboe.unpack_slot CONSTANTS buffer j ((offset + 4 * j)%nat, acc)
  = OK ((offset + 4 * S j)%nat,
        acc ++ map (entry_of CONSTANTS)
                 (List.filter is_used [raw_slot buffer offset j])).
Proof.
  intros Hb Hl Hm. unfold Wazaoboe.unpack_slot.
  rewrite unpack_from_ENTRY by done. cbn [bind].
  destruct (raw_slot_bounds buffer offset j Hb Hl) as [Hmv _].
  cbn [List.filter]. fold (is_used (raw_slot buffer offset j)).
  replace (negb (fst (raw_slot buffer offset j) =? 65535)
           && negb (snd (raw_slot buffer offset j) =? 65535))
    with (is_used (raw_slot buffer offset j)) by done.
  replace (offset + 4 * j + 4)%nat with (offset + 4 * S j)%nat by lia.
  destruct (is_used (raw_slot buffer offset j)) eqn:Hu.
  - specialize (Hm eq_refl).
    destruct (cnstname_in_range CONSTANTS Cat.moves
                (fst (raw_slot buffer offset j))) as (name & Hn & Hlk); [lia|].
    rewrite Hn. cbn [bind map]. unfold entry_of.
    by rewrite nth_lookup, Hlk.
  - cbn [map]. by rewrite app_nil_r.
Qed.

Lemma unpack_slots (CONSTANTS : Constants) (buffer : list Z) (offset : nat)
  (n a : nat) (acc : list Wazaoboe.MoveEntry) :
  all_bytes buffer = true ->
  (offset + 4 * (a + n) <= length buffer)%nat ->
  (forall j, (a <= j < a + n)%nat -> is_used (raw_slot buffer offset j) = true ->
     fst (raw_slot buffer offset j) < Z.of_nat (length (CONSTANTS Cat.moves))) ->
  for_each (seq a n) ((offset + 4 * a)%nat, acc)
    (Wazaoboe.unpack_slot CONSTANTS buffer)
  = OK ((offset + 4 * (a + n))%nat,
        acc ++ map (entry_of CONSTANTS)
                 (List.filter is_used (map (raw_slot buffer offset) (seq a n)))).
Proof.
  revert a acc; induction n as [|n IH]; intros a acc Hb Hl Hm.
  - cbn [seq for_each map List.filter]. rewrite app_nil_r, Nat.add_0_r. done.
  - cbn [seq for_each].
    rewrite unpack_slot_step by first [done | lia | apply Hm; lia].
    cbn [bind].
    rewrite IH by first [done | lia | intros; apply Hm; [lia|done]].
    replace (S a + n)%nat with (a + S n)%nat by lia.
    rewrite <- app_assoc, <- map_app.
    change (map (raw_slot buffer offset) (a :: seq (S a) n))
      with ([raw_slot buffer offset a] ++ map (raw_slot buffer offset) (seq (S a) n)).
    by rewrite List.filter_app.
Qed.

Lemma unpack_moves_spec (CONSTANTS : Constants) (buffer : list Z) (i : nat) :
  all_bytes buffer = true ->
  ((i + 1) * 0x104 <= length buffer)%nat ->
  (forall j, (j < 65)%nat -> is_used (raw_slot buffer (i * 0x104) j) = true ->
     fst (raw_slot buffer (i * 0x104) j) < Z.of_nat (length (CONSTANTS Cat.moves))) ->
  Wazaoboe.unpack_moves CONSTANTS buffer i
  = OK (map (entry_of CONSTANTS)
          (List.filter is_used (map (raw_slot buffer (i * 0x104)) (seq 0 65)))).
Proof.
  intros Hb Hl Hm. unfold Wazaoboe.unpack_moves, range.
  pose proof (unpack_slots CONSTANTS buffer (i * 0x104) 65 0 [] Hb) as H.
  replace (i * 0x104 + 4 * 0)%nat with (i * 0x104)%nat in H by lia.
  rewrite H; [done|lia|]. intros j Hj. apply Hm. lia.
Qed.

(** C6: [unpack_wazaoboe] reads all 65 slots of a creature's record and
    keeps, in slot order, exactly the slots neither of whose raw codes is
    0xFFFF; a slot holding 0xFFFF, 0xFFFF is left out wherever it stands
    and the scan goes on after it. (The names of the slots kept have to
    exist in the moves category, or the decoder raises.) *)
Theorem unpack_moves_keeps_used_slots (CONSTANTS : Constants) (buffer : list Z)
  (i : nat) :
  all_bytes buffer = true ->
  ((i + 1) * 0x104 <= length buffer)%nat ->
  (forall j, (j < 65)%nat -> is_used (raw_slot buffer (i * 0x104) j) = true ->
     fst (raw_slot buffer (i * 0x104) j) < Z.of_nat (length (CONSTANTS Cat.moves))) ->
  Wazaoboe.unpack_moves CONSTANTS buffer i
  = OK (map (entry_of CONSTANTS)
          (List.filter is_used (map (raw_slot buffer (i * 0x104)) (seq 0 65))))
  /\ forall j, (j < 65)%nat ->
       raw_slot buffer (i * 0x104) j = (65535, 65535) ->
       List.filter is_used (map (raw_slot buffer (i * 0x104)) (seq 0 65))
       = List.filter is_used (map (raw_slot buffer (i * 0x104)) (seq 0 j))
         ++ List.filter is_used
              (map (raw_slot buffer (i * 0x104)) (seq (S j) (65 - S j))).
Proof.
  intros Hb Hl Hm. split.
  - by apply unpack_moves_spec.
  - intros j Hj Hs.
    assert (Hseq : seq 0 65 = seq 0 j ++ j :: seq (S j) (65 - S j)).
    { replace (seq 0 65) with (seq 0 (j + S (65 - S j))) by (f_equal; lia).
      by rewrite seq_app. }
    rewrite Hseq at 1. rewrite map_app, List.filter_app. f_equal.
    cbn [map List.filter]. rewrite Hs. done.
Qed.

(** ** Level-up learnsets: encoding *)

Lemma encodable_move_spec (CONSTANTS : Constants) (entry : Wazaoboe.MoveEntry) :
  encodable_move CONSTANTS entry = true ->
  cnstval CONSTANTS Cat.moves (Wazaoboe.move entry) = OK (move_code CONSTANTS entry)
  /\ 0 <= move_code CONSTANTS entry < 65536
  /\ 0 <= Wazaoboe.level entry < 65536.
Proof.
  unfold encodable_move. rewrite !andb_true_iff.
  intros [[[Hin%bool_decide_eq_true Hc%Z.ltb_lt] Hl0%Z.leb_le] Hl1%Z.ltb_lt].
  unfold cnstval, move_code in *.
  destruct (list_index_elem_of _ _ Hin) as [i Hi]. rewrite Hi in *.
  simpl in *. split; [done|lia].
Qed.

Lemma length_move_bytes (CONSTANTS : Constants) (entry : Wazaoboe.MoveEntry) :
  length (move_bytes CONSTANTS entry) = 4%nat.
Proof. done. Qed.

Lemma length_concat_move_bytes (CONSTANTS : Constants)
  (es : list Wazaoboe.MoveEntry) :
  length (concat (map (move_bytes CONSTANTS) es)) = (4 * length es)%nat.
Proof.
  induction es as [|e es IH]; [done|].
  cbn [map concat]. rewrite length_app, IH, length_move_bytes. simpl. lia.
Qed.

Lemma length_slot_image (CONSTANTS : Constants) (ml : list Wazaoboe.MoveEntry) :
  length (slot_image CONSTANTS ml) = (4 * (65 `min` length ml))%nat.
Proof. unfold slot_image. by rewrite length_concat_move_bytes, length_take. Qed.

Lemma pack_slot_step (CONSTANTS : Constants) (ml : list Wazaoboe.MoveEntry)
  (i : nat) (entry : Wazaoboe.MoveEntry) (buffer : list Z) (offset : nat) :
  ml !! i = Some entry ->
  encodable_move CONSTANTS entry = true ->
  (offset + 4 <= length buffer)%nat ->
  Wazaoboe.pack_slot CONSTANTS ml i (buffer, offset)
  = OK (list_inserts offset (move_bytes CONSTANTS entry) buffer, (offset + 4)%nat).
Proof.
  intros Hi He Hl. unfold Wazaoboe.pack_slot. rewrite Hi.
  destruct (encodable_move_spec _ _ He) as (Hc & Hm & Hlv).
  rewrite Hc. cbn [bind].
  rewrite (pack_into_OK _ _ _ _ (move_bytes CONSTANTS entry)); [done|simpl; lia|].
  unfold Wazaoboe.ENTRY. rewrite pack_cons by done.
  unfold Struct.pack_value at 1. rewrite pack_int_OK by (simpl; lia).
  cbn [bind]. rewrite pack_cons by done.
  unfold Struct.pack_value at 1. rewrite pack_int_OK by (simpl; lia).
  cbn [bind Struct.pack]. by rewrite app_nil_r.
Qed.

Lemma pack_slots (CONSTANTS : Constants) (ml : list Wazaoboe.MoveEntry)
  (n a : nat) (buffer : list Z) (offset : nat) :
  (a + n <= length ml)%nat ->
  forallb (encodable_move CONSTANTS) (take n (drop a ml)) = true ->
  (offset + 4 * n <= length buffer)%nat ->
  for_each (seq a n) (buffer, offset) (Wazaoboe.pack_slot CONSTANTS ml)
  = OK (list_inserts offset
          (concat (map (move_bytes CONSTANTS) (take n (drop a ml)))) buffer,
        (offset + 4 * n)%nat).
Proof.
  revert a buffer offset; induction n as [|n IH]; intros a buffer offset Ha He Hl.
  - cbn [seq for_each take map concat list_inserts]. do 2 f_equal. lia.
  - destruct (lookup_lt_is_Some_2 ml a) as [e Hea]; [lia|].
    rewrite (drop_S _ _ _ Hea) in *. cbn [take forallb map concat] in *.
    apply andb_true_iff in He as [He1 He2].
    cbn [seq for_each]. rewrite (pack_slot_step _ _ _ e) by (done || lia).
    cbn [bind]. rewrite IH by (rewrite ?length_inserts; done || lia).
    rewrite list_inserts_app_l, length_move_bytes.
    replace (4 + offset)%nat with (offset + 4)%nat by lia.
    do 2 f_equal. lia.
Qed.

Lemma creature_index_spec (CONSTANTS : Constants) (name : string) :
  name ∈ CONSTANTS Cat.pokemon ->
  cnstval CONSTANTS Cat.pokemon name = OK (Z.of_nat (creature_index CONSTANTS name))
  /\ CONSTANTS Cat.pokemon !! creature_index CONSTANTS name = Some name
  /\ (creature_index CONSTANTS name < length (CONSTANTS Cat.pokemon))%nat.
Proof.
  intros Hin. unfold cnstval, creature_index.
  destruct (list_index_elem_of _ _ Hin) as [i Hi]. rewrite Hi. simpl.
  apply list_index_Some in Hi. split; [done|]. split; [done|].
  by apply lookup_lt_Some in Hi.
Qed.

Lemma pack_moves_OK (CONSTANTS : Constants)
  (item : string * list Wazaoboe.MoveEntry) (buffer : list Z) (stdout : list string) :
  packable CONSTANTS item = true ->
  length buffer = (length (CONSTANTS Cat.pokemon) * 0x104)%nat ->
  Wazaoboe.pack_moves CONSTANTS item (buffer, stdout)
  = OK (written CONSTANTS buffer [item], stdout ++ warnings [item]).
Proof.
  destruct item as [name ml]. unfold packable. cbn [fst snd].
  intros [Hin%bool_decide_eq_true He]%andb_true_iff Hl.
  destruct (creature_index_spec _ _ Hin) as (Hc & _ & Hlt).
  unfold Wazaoboe.pack_moves. rewrite Hc. cbn [bind]. rewrite Nat2Z.id.
  unfold written, warnings, range. cbn [foldl List.filter map fst snd].
  assert (Hfit : (creature_index CONSTANTS name * 0x104 + 4 * 65
                  <= length buffer)%nat) by (rewrite Hl; lia).
  destruct (Nat.ltb_spec 65 (length ml)) as [Hlong|Hshort].
  - rewrite (pack_slots _ _ 65 0) by (done || lia).
    cbn [bind fst map]. by rewrite drop_0.
  - rewrite (pack_slots _ _ (length ml) 0);
      try lia; rewrite drop_0, ?firstn_all; cbn [bind fst map].
    + unfold slot_image. rewrite (take_ge ml 65) by lia.
      by rewrite app_nil_r.
    + by rewrite (take_ge ml 65) in He by lia.
Qed.

Lemma length_written (CONSTANTS : Constants) (entries : dict (list Wazaoboe.MoveEntry))
  (buffer : list Z) :
  length (written CONSTANTS buffer entries) = length buffer.
Proof.
  revert buffer; induction entries as [|item entries IH]; intros buffer; [done|].
  unfold written in *. cbn [foldl]. by rewrite IH, length_inserts.
Qed.

Lemma written_cons (CONSTANTS : Constants) (item : string * list Wazaoboe.MoveEntry)
  (entries : dict (list Wazaoboe.MoveEntry)) (buffer : list Z) :
  written CONSTANTS buffer (item :: entries)
  = written CONSTANTS (written CONSTANTS buffer [item]) entries.
Proof. done. Qed.

Lemma warnings_cons (item : string * list Wazaoboe.MoveEntry)
  (entries : dict (list Wazaoboe.MoveEntry)) :
  warnings (item :: entries) = warnings [item] ++ warnings entries.
Proof.
  unfold warnings. cbn [List.filter].
  destruct (65 <? length (snd item))%nat; done.
Qed.

(** Packing never fails on packable items: the buffer is the initial one
    with each creature's image written in turn, and one line is printed
    per creature with more than 65 moves. *)
Lemma pack_items_OK (CONSTANTS : Constants) (entries : dict (list Wazaoboe.MoveEntry))
  (buffer : list Z) (stdout : list string) :
  forallb (packable CONSTANTS) entries = true ->
  length buffer = (length (CONSTANTS Cat.pokemon) * 0x104)%nat ->
  for_each entries (buffer, stdout) (Wazaoboe.pack_moves CONSTANTS)
  = OK (written CONSTANTS buffer entries, stdout ++ warnings entries).
Proof.
  revert buffer stdout; induction entries as [|item entries IH];
    intros buffer stdout Hp Hl.
  - cbn [for_each]. unfold warnings. cbn. by rewrite app_nil_r.
  - cbn [forallb] in Hp. apply andb_true_iff in Hp as [Hp1 Hp2].
    cbn [for_each]. rewrite pack_moves_OK by done. cbn [bind].
    rewrite IH by (rewrite ?length_written; done).
    by rewrite (written_cons _ item entries), (warnings_cons item entries),
      app_assoc.
Qed.

Lemma packable_elem_of (CONSTANTS : Constants)
  (entries : dict (list Wazaoboe.MoveEntry)) (item : string * list Wazaoboe.MoveEntry) :
  forallb (packable CONSTANTS) entries = true -> item ∈ entries ->
  fst item ∈ CONSTANTS Cat.pokemon.
Proof.
  rewrite forallb_forall. intros H Hin%list_elem_of_In.
  specialize (H _ Hin). unfold packable in H.
  apply andb_true_iff in H as [H _]. by apply bool_decide_eq_true in H.
Qed.

Lemma creature_index_inj (CONSTANTS : Constants) (n1 n2 : string) :
  n1 ∈ CONSTANTS Cat.pokemon -> n2 ∈ CONSTANTS Cat.pokemon ->
  creature_index CONSTANTS n1 = creature_index CONSTANTS n2 -> n1 = n2.
Proof.
  intros (_ & H1 & _)%creature_index_spec (_ & H2 & _)%creature_index_spec Heq.
  rewrite Heq in H1. congruence.
Qed.

(** A byte outside the records of the creatures written is not touched. *)
Lemma written_lookup_outside (CONSTANTS : Constants)
  (entries : dict (list Wazaoboe.MoveEntry)) (buffer : list Z) (p : nat) :
  (forall item, item ∈ entries ->
     ~ (creature_index CONSTANTS (fst item) * 0x104 <= p
        < creature_index CONSTANTS (fst item) * 0x104 + 0x104)%nat) ->
  written CONSTANTS buffer entries !! p = buffer !! p.
Proof.
  revert buffer; induction entries as [|item entries IH]; intros buffer H; [done|].
  rewrite written_cons, IH by (intros; apply H; by right).
  unfold written. cbn [foldl].
  pose proof (H item (list_elem_of_here _ _)) as Hp.
  pose proof (length_slot_image CONSTANTS (snd item)) as Hlen.
  destruct (Nat.lt_ge_cases p (creature_index CONSTANTS (fst item) * 0x104)).
  - by rewrite list_lookup_inserts_lt.
  - rewrite list_lookup_inserts_ge; [done|]. lia.
Qed.

(** Inside the record of a creature of the input, the bytes are those its
    own item wrote. *)
Lemma written_lookup_inside (CONSTANTS : Constants)
  (entries : dict (list Wazaoboe.MoveEntry)) (buffer : list Z)
  (name : string) (ml : list Wazaoboe.MoveEntry) (p : nat) :
  NoDup entries.*1 ->
  forallb (packable CONSTANTS) entries = true ->
  (name, ml) ∈ entries ->
  (creature_index CONSTANTS name * 0x104 <= p
   < creature_index CONSTANTS name * 0x104 + 0x104)%nat ->
  written CONSTANTS buffer entries !! p
  = list_inserts (creature_index CONSTANTS name * 0x104)
      (slot_image CONSTANTS ml) buffer !! p.
Proof.
  revert buffer; induction entries as [|item entries IH];
    intros buffer Hnd Hp Hin Hr.
  - by apply elem_of_nil in Hin.
  - rewrite fmap_cons in Hnd. apply NoDup_cons in Hnd as [Hfresh Hnd].
    pose proof (fun it => packable_elem_of _ _ it Hp) as Hpok.
    cbn [forallb] in Hp. apply andb_true_iff in Hp as [Hp1 Hp2].
    rewrite written_cons.
    assert (Hother : forall other, other ∈ entries -> fst other <> name ->
              ~ (creature_index CONSTANTS (fst other) * 0x104 <= p
                 < creature_index CONSTANTS (fst other) * 0x104 + 0x104)%nat).
    { intros other Ho Hne Hrange. apply Hne.
      apply (creature_index_inj CONSTANTS).
      - apply Hpok. by right.
      - apply (Hpok (name, ml)), Hin.
      - lia. }
    apply elem_of_cons in Hin as [<-|Hin].
    + rewrite written_lookup_outside; [done|].
      intros other Ho. apply Hother; [done|].
      intros Heq. apply Hfresh. cbn [fst]. rewrite <- Heq.
      by apply (list_elem_of_fmap_2 fst).
    + rewrite IH by done.
      assert (Hne : creature_index CONSTANTS (fst item)
                    <> creature_index CONSTANTS name).
      { intros Heq. apply Hfresh.
        apply (creature_index_inj CONSTANTS) in Heq.
        - rewrite Heq. by apply (list_elem_of_fmap_2 fst _ (name, ml)).
        - apply Hpok. by left.
        - apply (Hpok (name, ml)). by right. }
      unfold written. cbn [foldl].
      pose proof (length_slot_image CONSTANTS ml) as Hlen.
      pose proof (length_slot_image CONSTANTS (snd item)) as Hlen'.
      destruct (lookup_lt_is_Some buffer p) as [_ Hsome].
      destruct (Nat.lt_ge_cases p (length buffer)) as [Hlt|Hge].
      * destruct (Nat.lt_ge_cases p
                    (creature_index CONSTANTS name * 0x104
                     + length (slot_image CONSTANTS ml))) as [Hin'|Hout].
        -- rewrite !list_lookup_inserts; rewrite ?length_inserts; done || lia.
        -- rewrite !(list_lookup_inserts_ge _ (creature_index CONSTANTS name * 260))
             by lia.
           destruct (Nat.lt_ge_cases p
                       (creature_index CONSTANTS (fst item) * 0x104)).
           ++ by rewrite list_lookup_inserts_lt.
           ++ rewrite list_lookup_inserts_ge; [done|]. lia.
      * rewrite !lookup_ge_None_2; rewrite ?length_inserts; done.
Qed.

Lemma lookup_record (size : nat) (buffer : list Z) (k q : nat) :
  record size buffer k !! q
  = if decide (q < size)%nat then buffer !! (k * size + q)%nat else None.
Proof. unfold record. by rewrite lookup_take, lookup_drop. Qed.

(** The record of a creature of the input: its image, then 0xFF bytes. *)
Lemma record_written (CONSTANTS : Constants)
  (entries : dict (list Wazaoboe.MoveEntry)) (name : string)
  (ml : list Wazaoboe.MoveEntry) :
  NoDup entries.*1 ->
  forallb (packable CONSTANTS) entries = true ->
  (name, ml) ∈ entries ->
  record 0x104
    (written CONSTANTS (replicate (length (CONSTANTS Cat.pokemon) * 0x104) 0xFF)
       entries)
    (creature_index CONSTANTS name)
  = slot_image CONSTANTS ml
    ++ replicate (0x104 - length (slot_image CONSTANTS ml)) 0xFF.
Proof.
  intros Hnd Hp Hin. apply list_eq. intros q.
  rewrite lookup_record.
  pose proof (length_slot_image CONSTANTS ml) as Hlen.
  pose proof (packable_elem_of _ _ _ Hp Hin) as Hpok. cbn [fst] in Hpok.
  destruct (creature_index_spec _ _ Hpok) as (_ & _ & Hlt).
  case_decide as Hq.
  - rewrite (written_lookup_inside _ _ _ name ml) by (done || lia).
    destruct (Nat.lt_ge_cases q (length (slot_image CONSTANTS ml))) as [Hq'|Hq'].
    + rewrite list_lookup_inserts by (rewrite ?length_replicate; lia).
      rewrite lookup_app_l by done. f_equal. lia.
    + rewrite list_lookup_inserts_ge by lia.
      rewrite lookup_app_r by done.
      rewrite !lookup_replicate_2; [done|lia|lia].
  - rewrite lookup_ge_None_2; [done|].
    rewrite length_app, length_replicate. lia.
Qed.

(** The record of a creature no item of the input names stays 0xFF. *)
Lemma record_untouched (CONSTANTS : Constants)
  (entries : dict (list Wazaoboe.MoveEntry)) (k : nat) :
  (k < length (CONSTANTS Cat.pokemon))%nat ->
  (forall item, item ∈ entries -> creature_index CONSTANTS (fst item) <> k) ->
  record 0x104
    (written CONSTANTS (replicate (length (CONSTANTS Cat.pokemon) * 0x104) 0xFF)
       entries) k
  = replicate 0x104 0xFF.
Proof.
  intros Hk Hne. apply list_eq. intros q. rewrite lookup_record.
  case_decide as Hq.
  - rewrite written_lookup_outside by (intros item Hi; specialize (Hne _ Hi); lia).
    rewrite !lookup_replicate_2; [done|lia|lia].
  - symmetry. apply lookup_replicate_None. lia.
Qed.

(** ** Level-up learnsets: decoding what was encoded *)

Lemma raw_slot_record (buffer : list Z) (k j : nat) :
  (j < 65)%nat ->
  raw_slot buffer (k * 0x104) j = raw_slot (record 0x104 buffer k) 0 j.
Proof.
  intros Hj. unfold raw_slot, record. rewrite !Nat.add_0_l.
  assert (Hcut : forall m, (m + 2 <= 0x104)%nat ->
            take 2 (drop m (take 0x104 (drop (k * 0x104) buffer)))
            = take 2 (drop (k * 0x104 + m) buffer)).
  { intros m Hm.
    replace 0x104%nat with (m + (0x104 - m))%nat at 1 by lia.
    rewrite <- take_drop_commute, take_take, drop_drop.
    f_equal. lia. }
  rewrite !Hcut by lia. by rewrite Nat.add_assoc.
Qed.

Lemma raw_slot_skip (e : list Z) (rest : list Z) (j : nat) :
  length e = 4%nat -> raw_slot (e ++ rest) 0 (S j) = raw_slot rest 0 j.
Proof.
  intros He. unfold raw_slot. rewrite !Nat.add_0_l.
  replace (4 * S j)%nat with (length e + 4 * j)%nat by lia.
  rewrite <- !Nat.add_assoc, <- !drop_drop, !drop_app_length. done.
Qed.

Lemma raw_slot_head (CONSTANTS : Constants) (e : Wazaoboe.MoveEntry)
  (rest : list Z) :
  encodable_move CONSTANTS e = true ->
  raw_slot (move_bytes CONSTANTS e ++ rest) 0 0
  = (move_code CONSTANTS e, Wazaoboe.level e).
Proof.
  intros (_ & Hc & Hl)%encodable_move_spec.
  unfold raw_slot, move_bytes. cbn [Nat.add Nat.mul]. rewrite drop_0.
  rewrite <- app_assoc, take_app_length' by done.
  rewrite drop_app_length' by done.
  rewrite take_app_length' by done.
  rewrite !from_bytes_to_bytes by (simpl; lia). done.
Qed.

Lemma raw_slots_image (CONSTANTS : Constants) (es : list Wazaoboe.MoveEntry)
  (rest : list Z) :
  forallb (encodable_move CONSTANTS) es = true ->
  map (raw_slot (concat (map (move_bytes CONSTANTS) es) ++ rest) 0)
    (seq 0 (length es))
  = map (fun e => (move_code CONSTANTS e, Wazaoboe.level e)) es.
Proof.
  induction es as [|e es IH]; intros He; [done|].
  cbn [forallb] in He. apply andb_true_iff in He as [He1 He2].
  cbn [length seq map concat]. rewrite <- app_assoc.
  rewrite raw_slot_head by done. f_equal.
  rewrite <- seq_shift, map_map.
  rewrite <- IH by done. apply map_ext. intros j.
  by apply raw_slot_skip.
Qed.

Lemma raw_slot_padding (prefix : list Z) (n m j : nat) :
  length prefix = (4 * n)%nat -> (n <= j)%nat -> (4 * j + 4 <= 4 * n + m)%nat ->
  raw_slot (prefix ++ replicate m 0xFF) 0 j = (65535, 65535).
Proof.
  intros Hp Hj Hm. unfold raw_slot. rewrite !Nat.add_0_l.
  rewrite !drop_app_ge, !drop_replicate, !take_replicate by lia.
  rewrite Hp.
  replace (2 `min` (m - (4 * j - 4 * n)))%nat with 2%nat by lia.
  replace (2 `min` (m - (4 * j + 2 - 4 * n)))%nat with 2%nat by lia.
  done.
Qed.

Lemma valid_move_spec (CONSTANTS : Constants) (e : Wazaoboe.MoveEntry) :
  valid_move CONSTANTS e = true ->
  encodable_move CONSTANTS e = true
  /\ is_used (move_code CONSTANTS e, Wazaoboe.level e) = true
  /\ entry_of CONSTANTS (move_code CONSTANTS e, Wazaoboe.level e) = e
  /\ move_code CONSTANTS e < Z.of_nat (length (CONSTANTS Cat.moves)).
Proof.
  unfold valid_move. rewrite !andb_true_iff. intros [[He Hm] Hl].
  split; [done|]. split; [unfold is_used; cbn [fst snd]; by rewrite Hm, Hl|].
  destruct (encodable_move_spec _ _ He) as (Hc & _ & _).
  apply cnstval_OK in Hc as [Hr Hlk].
  split; [|lia]. unfold entry_of. cbn [fst snd].
  rewrite nth_lookup, Hlk. by destruct e.
Qed.

Lemma valid_moves_encodable (CONSTANTS : Constants) (es : list Wazaoboe.MoveEntry) :
  forallb (valid_move CONSTANTS) es = true ->
  forallb (encodable_move CONSTANTS) es = true.
Proof.
  rewrite !forallb_forall. intros H e He. by apply valid_move_spec, H.
Qed.

Lemma valid_items_packable (CONSTANTS : Constants)
  (entries : dict (list Wazaoboe.MoveEntry)) :
  forallb (valid_item CONSTANTS) entries = true ->
  forallb (packable CONSTANTS) entries = true.
Proof.
  rewrite !forallb_forall. intros H item Hi. specialize (H item Hi).
  unfold valid_item, packable in *.
  apply andb_true_iff in H as [H1 H2].
  by rewrite H1, valid_moves_encodable.
Qed.

Lemma filter_none {A : Type} (f : A -> bool) (l : list A) :
  (forall a, In a l -> f a = false) -> List.filter f l = [].
Proof.
  induction l as [|a l IH]; intros H; [done|].
  cbn [List.filter]. rewrite (H a) by by left.
  apply IH. intros b Hb. apply H. by right.
Qed.

(** The slots in use of an image followed by 0xFF bytes are the entries
    of the image, in order. *)
Lemma used_slots_image (CONSTANTS : Constants) (es : list Wazaoboe.MoveEntry) :
  (length es <= 65)%nat ->
  forallb (valid_move CONSTANTS) es = true ->
  let R := concat (map (move_bytes CONSTANTS) es)
           ++ replicate (0x104 - 4 * length es) 0xFF in
  List.filter is_used (map (raw_slot R 0) (seq 0 65))
  = map (fun e => (move_code CONSTANTS e, Wazaoboe.level e)) es
  /\ map (entry_of CONSTANTS)
       (List.filter is_used (map (raw_slot R 0) (seq 0 65))) = es.
Proof.
  intros Hlen Hv R.
  assert (Hsplit : seq 0 65 = seq 0 (length es) ++ seq (length es) (65 - length es)).
  { replace (seq 0 65) with (seq 0 (length es + (65 - length es)))
      by (f_equal; lia).
    by rewrite seq_app. }
  assert (Hfirst : List.filter is_used (map (raw_slot R 0) (seq 0 65))
                   = map (fun e => (move_code CONSTANTS e, Wazaoboe.level e)) es).
  { rewrite Hsplit, map_app, List.filter_app.
    unfold R. rewrite raw_slots_image by by apply valid_moves_encodable.
    assert (Hpad : List.filter is_used
                     (map (raw_slot
                             (concat (map (move_bytes CONSTANTS) es)
                              ++ replicate (0x104 - 4 * length es) 0xFF) 0)
                        (seq (length es) (65 - length es))) = []).
    { apply filter_none. intros s Hs.
      apply in_map_iff in Hs as (j & <- & Hj). apply in_seq in Hj.
      rewrite (raw_slot_padding _ (length es)); [done| |lia|lia].
      apply length_concat_move_bytes. }
    rewrite Hpad, app_nil_r.
    clear Hsplit Hpad. induction es as [|e es IH]; [done|].
    cbn [forallb] in Hv. apply andb_true_iff in Hv as [Hv1 Hv2].
    cbn [map List.filter].
    destruct (valid_move_spec _ _ Hv1) as (_ & -> & _).
    f_equal. apply IH; [simpl in Hlen; lia|done]. }
  split; [done|]. rewrite Hfirst, map_map.
  clear Hsplit Hfirst. induction es as [|e es IH]; [done|].
  cbn [forallb] in Hv. apply andb_true_iff in Hv as [Hv1 Hv2].
  cbn [map]. destruct (valid_move_spec _ _ Hv1) as (_ & _ & -> & _).
  f_equal. apply IH; [simpl in Hlen; lia|done].
Qed.

Lemma all_bytes_inserts (i : nat) (k l : list Z) :
  all_bytes k = true -> all_bytes l = true ->
  all_bytes (list_inserts i k l) = true.
Proof.
  rewrite !all_bytes_Forall. intros Hk Hl.
  revert i; induction Hk as [|b k Hb Hk IH]; intros i; [done|].
  cbn [list_inserts]. apply Forall_insert; [apply IH|done].
Qed.

Lemma all_bytes_slot_image (CONSTANTS : Constants) (ml : list Wazaoboe.MoveEntry) :
  all_bytes (slot_image CONSTANTS ml) = true.
Proof.
  unfold slot_image. induction (take 65 ml) as [|e es IH]; [done|].
  cbn [map concat]. apply all_bytes_app. split; [|done].
  apply all_bytes_app; split; apply all_bytes_to_bytes.
Qed.

Lemma all_bytes_written (CONSTANTS : Constants)
  (entries : dict (list Wazaoboe.MoveEntry)) (buffer : list Z) :
  all_bytes buffer = true -> all_bytes (written CONSTANTS buffer entries) = true.
Proof.
  revert buffer; induction entries as [|item entries IH]; intros buffer Hb; [done|].
  rewrite written_cons. apply IH. unfold written. cbn [foldl].
  apply all_bytes_inserts; [apply all_bytes_slot_image|done].
Qed.

(** Decoding the record of a creature of a valid input gives back its
    first 65 moves. *)
Lemma unpack_written (CONSTANTS : Constants)
  (entries : dict (list Wazaoboe.MoveEntry)) (name : string)
  (ml : list Wazaoboe.MoveEntry) :
  NoDup entries.*1 ->
  forallb (valid_item CONSTANTS) entries = true ->
  (name, ml) ∈ entries ->
  Wazaoboe.unpack_moves CONSTANTS
    (written CONSTANTS (replicate (length (CONSTANTS Cat.pokemon) * 0x104) 0xFF)
       entries)
    (creature_index CONSTANTS name)
  = OK (take 65 ml).
Proof.
  intros Hnd Hv Hin.
  pose proof (valid_items_packable _ _ Hv) as Hp.
  pose proof (packable_elem_of _ _ _ Hp Hin) as Hpok. cbn [fst] in Hpok.
  destruct (creature_index_spec _ _ Hpok) as (_ & _ & Hlt).
  assert (Hvm : forallb (valid_move CONSTANTS) (take 65 ml) = true).
  { rewrite forallb_forall in Hv. apply list_elem_of_In in Hin.
    specialize (Hv _ Hin). unfold valid_item in Hv.
    by apply andb_true_iff in Hv as [_ Hv]. }
  pose proof (record_written _ _ _ _ Hnd Hp Hin) as Hrec.
  unfold slot_image in Hrec at 2. rewrite length_concat_move_bytes in Hrec.
  unfold slot_image in Hrec.
  destruct (used_slots_image CONSTANTS (take 65 ml)) as [Hused Hdec];
    [rewrite length_take; lia|done|].
  rewrite <- Hrec in Hused, Hdec.
  assert (Hraw : map (raw_slot
                        (written CONSTANTS
                           (replicate (length (CONSTANTS Cat.pokemon) * 0x104) 0xFF)
                           entries)
                        (creature_index CONSTANTS name * 0x104)) (seq 0 65)
                 = map (raw_slot
                          (record 0x104
                             (written CONSTANTS
                                (replicate (length (CONSTANTS Cat.pokemon) * 0x104) 0xFF)
                                entries)
                             (creature_index CONSTANTS name)) 0) (seq 0 65)).
  { apply map_ext_in. intros j Hj%in_seq. apply raw_slot_record. lia. }
  rewrite unpack_moves_spec.
  - by rewrite Hraw, Hdec.
  - apply all_bytes_written, all_bytes_replicate. lia.
  - rewrite length_written, length_replicate. lia.
  - intros j Hj Hu.
    assert (Hmem : In (raw_slot
                         (written CONSTANTS
                            (replicate (length (CONSTANTS Cat.pokemon) * 0x104) 0xFF)
                            entries)
                         (creature_index CONSTANTS name * 0x104) j)
                     (map (fun e => (move_code CONSTANTS e, Wazaoboe.level e))
                        (take 65 ml))).
    { rewrite <- Hused, <- Hraw. apply filter_In. split; [|done].
      apply in_map, in_seq. lia. }
    apply in_map_iff in Hmem as (e & <- & He). cbn [fst].
    rewrite forallb_forall in Hvm. by apply valid_move_spec, Hvm.
Qed.

(** C10: [pack_wazaoboe] always writes [len(pokemon) * 0x104] bytes,
    however many creatures the input names; the moves of a creature are
    written from offset [index * 0x104], where [index] is the position of
    its name in the pokemon category; the record of a creature the input
    does not name is 0x104 bytes of 0xFF. (An item is packable when its
    creature and its first 65 moves are known and fit 16 bits; the keys
    of a dictionary are distinct.) *)
Theorem pack_wazaoboe_layout (CONSTANTS : Constants)
  (entries : dict (list Wazaoboe.MoveEntry)) :
  NoDup entries.*1 ->
  forallb (packable CONSTANTS) entries = true ->
  exists buffer stdout,
    Wazaoboe.pack_wazaoboe CONSTANTS entries = OK (buffer, stdout)
    /\ length buffer = (length (CONSTANTS Cat.pokemon) * 0x104)%nat
    /\ (forall name ml, (name, ml) ∈ entries ->
          record 0x104 buffer (creature_index CONSTANTS name)
          = slot_image CONSTANTS ml
            ++ replicate (0x104 - length (slot_image CONSTANTS ml)) 0xFF)
    /\ (forall k name, CONSTANTS Cat.pokemon !! k = Some name ->
          name ∉ entries.*1 ->
          record 0x104 buffer k = replicate 0x104 0xFF).
Proof.
  intros Hnd Hp. eexists _, _. split.
  { unfold Wazaoboe.pack_wazaoboe. apply pack_items_OK; [done|].
    apply length_replicate. }
  split; [by rewrite length_written, length_replicate|].
  split.
  - intros name ml Hin. by apply record_written.
  - intros k name Hk Hout. apply record_untouched.
    + by apply lookup_lt_Some in Hk.
    + intros item Hi Heq. apply Hout.
      pose proof (packable_elem_of _ _ _ Hp Hi) as Hpok.
      destruct (creature_index_spec _ _ Hpok) as (_ & Hlk & _).
      rewrite Heq, Hk in Hlk. injection Hlk as ->.
      by apply (list_elem_of_fmap_2 fst).
Qed.

Lemma pack_wazaoboe_layout_witness :
  exists buffer stdout,
    Wazaoboe.pack_wazaoboe Demo.constants Demo.learnsets = OK (buffer, stdout)
    /\ length buffer = (length (Demo.constants Cat.pokemon) * 0x104)%nat
    /\ (forall name ml, (name, ml) ∈ Demo.learnsets ->
          record 0x104 buffer (creature_index Demo.constants name)
          = slot_image Demo.constants ml
            ++ replicate (0x104 - length (slot_image Demo.constants ml)) 0xFF)
    /\ (forall k name, Demo.constants Cat.pokemon !! k = Some name ->
          name ∉ Demo.learnsets.*1 ->
          record 0x104 buffer k = replicate 0x104 0xFF).
Proof.
  apply (pack_wazaoboe_layout Demo.constants Demo.learnsets).
  - apply (bool_decide_unpack _). vm_compute. exact I.
  - vm_compute. reflexivity.
Defined.

(** C7: [pack_wazaoboe] starts from a buffer of 0xFF bytes and writes the
    entries of a creature in input order, four bytes each, from the start
    of its record; 65 entries or fewer are decoded back unchanged; of more
    than 65 the first 65 are written, a warning is printed, packing goes
    on with the next creature, and decoding gives back the first 65. (A
    valid entry names a known move and holds no 0xFFFF code.) *)
Theorem pack_wazaoboe_truncates (CONSTANTS : Constants)
  (entries : dict (list Wazaoboe.MoveEntry)) :
  NoDup entries.*1 ->
  forallb (valid_item CONSTANTS) entries = true ->
  exists buffer stdout,
    Wazaoboe.pack_wazaoboe CONSTANTS entries = OK (buffer, stdout)
    /\ stdout = warnings entries
    /\ forall name ml, (name, ml) ∈ entries ->
         record 0x104 buffer (creature_index CONSTANTS name)
         = slot_image CONSTANTS ml
           ++ replicate (0x104 - length (slot_image CONSTANTS ml)) 0xFF
         /\ Wazaoboe.unpack_moves CONSTANTS buffer (creature_index CONSTANTS name)
            = OK (take 65 ml)
         /\ ((length ml <= 65)%nat ->
             Wazaoboe.unpack_moves CONSTANTS buffer (creature_index CONSTANTS name)
             = OK ml)
         /\ ((65 < length ml)%nat -> Wazaoboe.warning name ∈ stdout).
Proof.
  intros Hnd Hv. pose proof (valid_items_packable _ _ Hv) as Hp.
  eexists _, _. split.
  { unfold Wazaoboe.pack_wazaoboe. apply pack_items_OK; [done|].
    apply length_replicate. }
  split; [done|]. intros name ml Hin.
  split; [by apply record_written|].
  split; [by apply unpack_written|].
  split.
  - intros Hlen. rewrite <- (take_ge ml 65) by lia.
    by apply unpack_written.
  - intros Hlen. cbn [app]. unfold warnings.
    apply list_elem_of_In.
    apply (in_map (fun item => Wazaoboe.warning (fst item)) _ (name, ml)).
    apply filter_In. split; [by apply list_elem_of_In|].
    cbn [snd]. by apply Nat.ltb_lt.
Qed.

Lemma pack_wazaoboe_truncates_witness :
  exists buffer stdout,
    Wazaoboe.pack_wazaoboe Demo.constants Demo.learnsets = OK (buffer, stdout)
    /\ stdout = warnings Demo.learnsets
    /\ forall name ml, (name, ml) ∈ Demo.learnsets ->
         record 0x104 buffer (creature_index Demo.constants name)
         = slot_image Demo.constants ml
           ++ replicate (0x104 - length (slot_image Demo.constants ml)) 0xFF
         /\ Wazaoboe.unpack_moves Demo.constants buffer
              (creature_index Demo.constants name)
            = OK (take 65 ml)
         /\ ((length ml <= 65)%nat ->
             Wazaoboe.unpack_moves Demo.constants buffer
               (creature_index Demo.constants name)
             = OK ml)
         /\ ((65 < length ml)%nat -> Wazaoboe.warning name ∈ stdout).
Proof.
  apply (pack_wazaoboe_truncates Demo.constants Demo.learnsets).
  - apply (bool_decide_unpack _). vm_compute. exact I.
  - vm_compute. reflexivity.
Defined.

Lemma unpack_moves_keeps_used_slots_witness :
  Wazaoboe.unpack_moves Demo.constants Demo.learnset_record 0
  = OK [Demo.pound 3; Demo.pound 7].
Proof.
  destruct (unpack_moves_keeps_used_slots Demo.constants Demo.learnset_record 0)
    as [H _].
  - vm_compute. reflexivity.
  - vm_compute. lia.
  - intros j Hj Hu.
    do 65 (destruct j as [|j];
           [vm_compute in Hu; vm_compute; (reflexivity || discriminate)|]).
    lia.
  - exact H.
Defined.

(** ** The bit-flag learnsets *)

Lemma shiftr_3_nat (i : nat) : Z.shiftr (Z.of_nat i) 3 = Z.of_nat (i / 8).
Proof. rewrite Z.shiftr_div_pow2 by lia. by rewrite Nat2Z.inj_div. Qed.

Lemma land_7_nat (i : nat) : Z.land (Z.of_nat i) 7 = Z.of_nat (i mod 8).
Proof.
  change 7 with (Z.ones 3). rewrite Z.land_ones by lia.
  by rewrite Nat2Z.inj_mod.
Qed.

Lemma testbit_byte_high (b n : Z) : 0 <= b < 256 -> 8 <= n -> Z.testbit b n = false.
Proof.
  intros Hb Hn. destruct (Z.eq_dec b 0) as [->|Hnz]; [apply Z.bits_0|].
  apply Z.bits_above_log2; [lia|].
  assert (Z.log2 b < 8); [|lia]. apply Z.log2_lt_pow2; lia.
Qed.

Lemma byte_ext (b c : Z) :
  0 <= b < 256 -> 0 <= c < 256 ->
  (forall k, (k < 8)%nat -> Z.testbit b (Z.of_nat k) = Z.testbit c (Z.of_nat k)) ->
  b = c.
Proof.
  intros Hb Hc H. apply Z.bits_inj'. intros n Hn.
  destruct (Z.lt_ge_cases n 8).
  - rewrite <- (Z2Nat.id n) by done. apply H. lia.
  - by rewrite !testbit_byte_high.
Qed.

Lemma truthy_land_bit (b : Z) (k : nat) :
  Personal.truthy (Z.land b (Z.shiftl 1 (Z.of_nat k))) = Z.testbit b (Z.of_nat k).
Proof.
  unfold Personal.truthy. rewrite Z.shiftl_1_l.
  destruct (Z.testbit b (Z.of_nat k)) eqn:Hk.
  - apply negb_true_iff, Z.eqb_neq. intros H0.
    pose proof (Z.land_spec b (2 ^ Z.of_nat k) (Z.of_nat k)) as Hs.
    rewrite H0, Z.bits_0, Hk, Z.pow2_bits_true in Hs by lia. done.
  - apply negb_false_iff, Z.eqb_eq. apply Z.bits_inj'. intros n Hn.
    rewrite Z.land_spec, Z.bits_0, Z.pow2_bits_eqb by lia.
    destruct (Z.eqb_spec (Z.of_nat k) n) as [<-|]; [by rewrite Hk|].
    apply andb_false_r.
Qed.

Lemma testbit_lor_bit (b : Z) (k n : nat) :
  Z.testbit (Z.lor b (Z.shiftl 1 (Z.of_nat k))) (Z.of_nat n)
  = Z.testbit b (Z.of_nat n) || (n =? k)%nat.
Proof.
  rewrite Z.lor_spec, Z.shiftl_1_l, Z.pow2_bits_eqb by lia. f_equal.
  destruct (Nat.eqb_spec n k) as [->|Hne]; [apply Z.eqb_refl|].
  apply Z.eqb_neq. lia.
Qed.

Lemma lor_bit_byte (b : Z) (k : nat) :
  0 <= b < 256 -> (k < 8)%nat -> 0 <= Z.lor b (Z.shiftl 1 (Z.of_nat k)) < 256.
Proof.
  intros Hb Hk.
  assert (H0 : 0 <= Z.lor b (Z.shiftl 1 (Z.of_nat k))).
  { apply Z.lor_nonneg. split; [lia|]. rewrite Z.shiftl_1_l.
    apply Z.pow_nonneg. lia. }
  split; [done|].
  destruct (Z.eq_dec (Z.lor b (Z.shiftl 1 (Z.of_nat k))) 0) as [->|Hnz]; [lia|].
  change 256 with (2 ^ 8). apply Z.log2_lt_pow2; [lia|].
  rewrite Z.log2_lor by (try lia; rewrite Z.shiftl_1_l; apply Z.pow_nonneg; lia).
  rewrite Z.shiftl_1_l, Z.log2_pow2 by lia.
  destruct (Z.eq_dec b 0) as [->|Hbnz]; [simpl; lia|].
  assert (Z.log2 b < 8) by (apply Z.log2_lt_pow2; lia). lia.
Qed.

Lemma bit_of_replicate_0 (size i : nat) : bit_of (replicate size 0) i = false.
Proof.
  unfold bit_of. rewrite nth_lookup.
  destruct (replicate size 0 !! (i / 8)%nat) as [b|] eqn:Hb; simpl.
  - apply lookup_replicate_1 in Hb as [-> _]. apply Z.bits_0.
  - apply Z.bits_0.
Qed.

(** Two bit buffers of the same length with the same flags are equal. *)
Lemma bits_ext (bits1 bits2 : list Z) :
  length bits1 = length bits2 ->
  all_bytes bits1 = true -> all_bytes bits2 = true ->
  (forall i, (i < 8 * length bits1)%nat -> bit_of bits1 i = bit_of bits2 i) ->
  bits1 = bits2.
Proof.
  intros Hlen Hb1 Hb2 H. apply list_eq_same_length with (length bits1); try done.
  intros q b c Hq Hb Hc.
  apply byte_ext;
    [apply (all_bytes_lookup bits1 q b Hb1 Hb)
    |apply (all_bytes_lookup bits2 q c Hb2 Hc)|].
  intros k Hk. specialize (H (8 * q + k)%nat). unfold bit_of in H.
  replace ((8 * q + k) / 8)%nat with q in H
    by (apply (Nat.div_unique _ 8 q k); lia).
  replace ((8 * q + k) mod 8)%nat with k in H
    by (apply (Nat.mod_unique _ 8 q k); lia).
  rewrite !nth_lookup, Hb, Hc in H. apply H. lia.
Qed.

Lemma pack_bit_spec (learnset : list string) (i : nat) (move : string)
  (bits : list Z) :
  (i < 8 * length bits)%nat -> all_bytes bits = true ->
  exists bits',
    Personal.pack_bit learnset (Z.of_nat i, move) bits = OK bits'
    /\ length bits' = length bits
    /\ all_bytes bits' = true
    /\ forall j, bit_of bits' j
                 = bit_of bits j || ((j =? i)%nat && bool_decide (move ∈ learnset)).
Proof.
  intros Hi Hb. unfold Personal.pack_bit.
  destruct (bool_decide (move ∈ learnset)).
  - rewrite shiftr_3_nat, land_7_nat, py_getitem_nat, Nat2Z.id.
    assert (Hq : (i / 8 < length bits)%nat)
      by (apply Nat.Div0.div_lt_upper_bound; lia).
    destruct (lookup_lt_is_Some_2 bits (i / 8)%nat Hq) as [b Hlk].
    rewrite Hlk. cbn [bind]. eexists. split; [done|].
    pose proof (all_bytes_lookup _ _ _ Hb Hlk) as Hbyte.
    split; [apply length_insert|]. split.
    + apply all_bytes_Forall, Forall_insert; [by apply all_bytes_Forall|].
      apply lor_bit_byte; [done|]. apply Nat.mod_upper_bound. lia.
    + intros j. unfold bit_of. rewrite !nth_lookup.
      destruct (Nat.eq_dec (j / 8)%nat (i / 8)%nat) as [Heq|Hne].
      * rewrite Heq, list_lookup_insert_eq, Hlk by done. cbn [default from_option id].
        rewrite testbit_lor_bit, andb_true_r. f_equal.
        destruct (Nat.eqb_spec j i) as [->|Hji]; [apply Nat.eqb_refl|].
        apply Nat.eqb_neq. intros Hm. apply Hji.
        rewrite (Nat.div_mod_eq j 8), (Nat.div_mod_eq i 8). lia.
      * rewrite list_lookup_insert_ne by done.
        destruct (Nat.eqb_spec j i) as [->|Hji]; [done|].
        by rewrite orb_false_r.
  - exists bits. split; [done|]. split; [done|]. split; [done|].
    intros j. by rewrite andb_false_r, orb_false_r.
Qed.

Lemma pack_bits_loop (learnset master : list string) (a : nat) (bits : list Z) :
  (a + length master <= 8 * length bits)%nat -> all_bytes bits = true ->
  exists bits',
    for_each (Personal.enumerate_from (Z.of_nat a) master) bits
      (Personal.pack_bit learnset) = OK bits'
    /\ length bits' = length bits
    /\ all_bytes bits' = true
    /\ forall j, bit_of bits' j
                 = bit_of bits j
                   || match master !! (j - a)%nat with
                      | Some move => (a <=? j)%nat && bool_decide (move ∈ learnset)
                      | None => false
                      end.
Proof.
  revert a bits; induction master as [|move master IH]; intros a bits Hl Hb.
  - exists bits. split; [done|]. split; [done|]. split; [done|].
    intros j. by rewrite lookup_nil, orb_false_r.
  - cbn [length] in Hl. cbn [Personal.enumerate_from for_each].
    destruct (pack_bit_spec learnset a move bits) as (b1 & H1 & Hl1 & Hb1 & Hs1);
      [lia|done|].
    rewrite H1. cbn [bind].
    replace (Z.of_nat a + 1) with (Z.of_nat (S a)) by lia.
    destruct (IH (S a) b1) as (b2 & H2 & Hl2 & Hb2 & Hs2); [lia|done|].
    exists b2. split; [done|]. split; [congruence|]. split; [done|].
    intros j. rewrite Hs2, Hs1, <- orb_assoc. f_equal.
    destruct (Nat.eqb_spec j a) as [->|Hja].
    + rewrite Nat.sub_diag. cbn [lookup list_lookup]. rewrite Nat.leb_refl.
      destruct (master !! (a - S a)%nat);
        [destruct (Nat.leb_spec (S a) a); [lia|]|];
        cbn [andb]; by rewrite orb_false_r.
    + destruct (Nat.le_gt_cases a j) as [Hle|Hgt].
      * replace (j - a)%nat with (S (j - S a)) by lia. cbn [lookup list_lookup].
        destruct (master !! (j - S a)%nat); [|done].
        destruct (Nat.leb_spec (S a) j), (Nat.leb_spec a j); try lia. done.
      * replace (j - a)%nat with 0%nat by lia.
        replace (j - S a)%nat with 0%nat by lia. cbn [lookup list_lookup].
        destruct master as [|m' ?]; cbn [lookup list_lookup];
          destruct (Nat.leb_spec (S a) j), (Nat.leb_spec a j); try lia; done.
Qed.

Lemma parse_bit_spec (bits : list Z) (i : nat) (move : string)
  (learnset : list string) :
  (i < 8 * length bits)%nat ->
  Personal.parse_bit bits (Z.of_nat i, move) learnset
  = OK (if bit_of bits i then learnset ++ [move] else learnset).
Proof.
  intros Hi. unfold Personal.parse_bit.
  rewrite shiftr_3_nat, land_7_nat, py_getitem_nat.
  assert (Hq : (i / 8 < length bits)%nat)
    by (apply Nat.Div0.div_lt_upper_bound; lia).
  destruct (lookup_lt_is_Some_2 bits (i / 8)%nat Hq) as [b Hlk].
  rewrite Hlk. cbn [bind]. rewrite truthy_land_bit.
  unfold bit_of. rewrite nth_lookup, Hlk. cbn [default from_option id].
  by destruct (Z.testbit b _).
Qed.

Lemma parse_bits_loop (bits : list Z) (master : list string) (a : nat)
  (learnset : list string) :
  (a + length master <= 8 * length bits)%nat ->
  for_each (Personal.enumerate_from (Z.of_nat a) master) learnset
    (Personal.parse_bit bits)
  = OK (learnset ++ selected bits a master).
Proof.
  revert a learnset; induction master as [|move master IH]; intros a learnset Hl.
  - cbn. by rewrite app_nil_r.
  - cbn [length] in Hl. cbn [Personal.enumerate_from for_each selected].
    rewrite parse_bit_spec by lia. cbn [bind].
    replace (Z.of_nat a + 1) with (Z.of_nat (S a)) by lia.
    rewrite IH by lia.
    destruct (bit_of bits a); [by rewrite <- app_assoc|done].
Qed.

Lemma selected_members (bits : list Z) (learnset master : list string) (a : nat) :
  (forall j move, master !! j = Some move ->
     bit_of bits (a + j) = bool_decide (move ∈ learnset)) ->
  selected bits a master = members learnset master.
Proof.
  revert a; induction master as [|move master IH]; intros a H; [done|].
  cbn [selected members List.filter].
  rewrite <- (Nat.add_0_r a) at 1. rewrite (H 0%nat move) by done.
  fold (members learnset master).
  rewrite (IH (S a)); [done|]. intros j m Hj.
  rewrite <- (H (S j) m) by done. f_equal. lia.
Qed.

Lemma for_each_ext {A S : Type} (l : list A) (s : S) (f g : A -> S -> result S) :
  (forall a s', f a s' = g a s') -> for_each l s f = for_each l s g.
Proof.
  intros H. revert s; induction l as [|a l IH]; intros s; [done|].
  cbn [for_each]. rewrite H. destruct (g a s); cbn [bind]; auto.
Qed.

(** [pack_learnset_bits] on a master list that fits the width: flag [j] is
    set exactly when name [j] of the master list is in the learnset. *)
Lemma pack_learnset_bits_spec (CONSTANTS : Constants) (consts_name : Cat.category)
  (learnset : list string) (size : nat) :
  (length (CONSTANTS consts_name) <= 8 * size)%nat ->
  exists bits,
    Personal.pack_learnset_bits CONSTANTS consts_name learnset size = OK bits
    /\ length bits = size
    /\ all_bytes bits = true
    /\ forall j, bit_of bits j
                 = match CONSTANTS consts_name !! j with
                   | Some move => bool_decide (move ∈ learnset)
                   | None => false
                   end.
Proof.
  intros Hfit. unfold Personal.pack_learnset_bits, Personal.enumerate.
  destruct (pack_bits_loop learnset (CONSTANTS consts_name) 0 (replicate size 0))
    as (bits & Hp & Hl & Hb & Hs).
  { rewrite length_replicate. lia. }
  { apply all_bytes_replicate. lia. }
  exists bits. split; [done|]. split; [by rewrite Hl, length_replicate|].
  split; [done|]. intros j.
  rewrite Hs, bit_of_replicate_0, Nat.sub_0_r. cbn [orb].
  by destruct (CONSTANTS consts_name !! j).
Qed.

Lemma parse_learnset_bits_spec (CONSTANTS : Constants) (consts_name : Cat.category)
  (bits : list Z) :
  (length (CONSTANTS consts_name) <= 8 * length bits)%nat ->
  Personal.parse_learnset_bits CONSTANTS consts_name bits
  = OK (selected bits 0 (CONSTANTS consts_name)).
Proof.
  intros Hfit. unfold Personal.parse_learnset_bits, Personal.enumerate.
  by rewrite (parse_bits_loop bits _ 0 []) by lia.
Qed.

(** Decoding what [pack_learnset_bits] wrote gives the names of the master
    list that are in the learnset, in the order of the master list. *)
Lemma parse_pack_learnset_bits (CONSTANTS : Constants) (consts_name : Cat.category)
  (learnset : list string) (size : nat) (bits : list Z) :
  (length (CONSTANTS consts_name) <= 8 * size)%nat ->
  Personal.pack_learnset_bits CONSTANTS consts_name learnset size = OK bits ->
  Personal.parse_learnset_bits CONSTANTS consts_name bits
  = OK (members learnset (CONSTANTS consts_name)).
Proof.
  intros Hfit Hp.
  destruct (pack_learnset_bits_spec CONSTANTS consts_name learnset size Hfit)
    as (bits' & Hp' & Hl & _ & Hs).
  rewrite Hp in Hp'. injection Hp' as <-.
  rewrite parse_learnset_bits_spec by lia. f_equal.
  apply selected_members. intros j move Hj. cbn [Nat.add]. by rewrite Hs, Hj.
Qed.

Lemma elem_of_members (learnset master : list string) (move : string) :
  move ∈ members learnset master <-> move ∈ learnset /\ move ∈ master.
Proof.
  unfold members. rewrite !list_elem_of_In, filter_In, bool_decide_eq_true.
  rewrite !list_elem_of_In. tauto.
Qed.

(** C3: for a master list that fits the width (8 flags a byte) and a
    learnset [S] of names of the master list, [pack_learnset_bits] sets bit
    [i & 7] of byte [i >> 3] exactly when name [i] is in [S], and
    [parse_learnset_bits] of the buffer yields the names of [S], each
    once, in the order of the master list; a learnset with the same
    members in any other order or multiplicity gives the same buffer. *)
Theorem learnset_bits_roundtrip (CONSTANTS : Constants) (consts_name : Cat.category)
  (S : list string) (size : nat) :
  (length (CONSTANTS consts_name) <= 8 * size)%nat ->
  (forall move, move ∈ S -> move ∈ CONSTANTS consts_name) ->
  exists bits decoded,
    Personal.pack_learnset_bits CONSTANTS consts_name S size = OK bits
    /\ length bits = size
    /\ (forall i move, CONSTANTS consts_name !! i = Some move ->
          bit_of bits i = bool_decide (move ∈ S))
    /\ Personal.parse_learnset_bits CONSTANTS consts_name bits = OK decoded
    /\ (forall move, move ∈ decoded <-> move ∈ S)
    /\ decoded = members S (CONSTANTS consts_name)
    /\ (forall S', (forall move, move ∈ S' <-> move ∈ S) ->
          Personal.pack_learnset_bits CONSTANTS consts_name S' size = OK bits).
Proof.
  intros Hfit Hsub.
  destruct (pack_learnset_bits_spec CONSTANTS consts_name S size Hfit)
    as (bits & Hp & Hl & _ & Hs).
  exists bits, (members S (CONSTANTS consts_name)).
  split; [done|]. split; [done|].
  split; [intros i move Hi; by rewrite Hs, Hi|].
  split; [by apply (parse_pack_learnset_bits _ _ _ size)|].
  split; [intros move; rewrite elem_of_members; split; [tauto|auto]|].
  split; [done|].
  intros S' Hsame. rewrite <- Hp.
  unfold Personal.pack_learnset_bits. apply for_each_ext.
  intros [index move] bits'. unfold Personal.pack_bit.
  by rewrite (bool_decide_ext _ _ (Hsame move)).
Qed.

Lemma learnset_bits_roundtrip_witness :
  exists bits decoded,
    Personal.pack_learnset_bits Demo.constants Cat.tms
      (Personal.tms Demo.bulbasaur) 16 = OK bits
    /\ length bits = 16%nat
    /\ (forall i move, Demo.constants Cat.tms !! i = Some move ->
          bit_of bits i = bool_decide (move ∈ Personal.tms Demo.bulbasaur))
    /\ Personal.parse_learnset_bits Demo.constants Cat.tms bits = OK decoded
    /\ (forall move, move ∈ decoded <-> move ∈ Personal.tms Demo.bulbasaur)
    /\ decoded = members (Personal.tms Demo.bulbasaur) (Demo.constants Cat.tms)
    /\ (forall S', (forall move, move ∈ S' <-> move ∈ Personal.tms Demo.bulbasaur) ->
          Personal.pack_learnset_bits Demo.constants Cat.tms S' 16 = OK bits).
Proof.
  apply (learnset_bits_roundtrip Demo.constants Cat.tms
           (Personal.tms Demo.bulbasaur) 16).
  - vm_compute. lia.
  - intros move Hm. cbn in Hm.
    apply elem_of_cons in Hm as [->|Hm];
      [apply (bool_decide_unpack _); vm_compute; exact I|].
    apply elem_of_cons in Hm as [->|Hm];
      [apply (bool_decide_unpack _); vm_compute; exact I|].
    by apply elem_of_nil in Hm.
Defined.

(** ** Creature records: the fields and their offsets *)

(** The values [PERSONAL_ENTRY_STRUCT] reads from a record, by offset. *)
Lemma unpack_codes_personal (r : list Z) :
  Struct.unpack_codes Personal.PERSONAL_ENTRY_STRUCT r
  = [Struct.VInt (int_at r 0 1); Struct.VInt (int_at r 1 1);
     Struct.VInt (int_at r 2 1); Struct.VInt (int_at r 3 1);
     Struct.VInt (int_at r 4 1); Struct.VInt (int_at r 5 1);
     Struct.VInt (int_at r 6 1); Struct.VInt (int_at r 7 1);
     Struct.VInt (int_at r 8 1); Struct.VInt (int_at r 9 1);
     Struct.VInt (int_at r 10 2); Struct.VInt (int_at r 12 2);
     Struct.VInt (int_at r 14 2); Struct.VInt (int_at r 16 2);
     Struct.VInt (int_at r 18 1); Struct.VInt (int_at r 19 1);
     Struct.VInt (int_at r 20 1); Struct.VInt (int_at r 21 1);
     Struct.VInt (int_at r 22 1); Struct.VInt (int_at r 23 1);
     Struct.VInt (int_at r 24 2); Struct.VInt (int_at r 26 2);
     Struct.VInt (int_at r 28 2); Struct.VInt (int_at r 30 2);
     Struct.VInt (int_at r 32 1); Struct.VInt (int_at r 33 1);
     Struct.VInt (int_at r 34 2); Struct.VInt (int_at r 36 2);
     Struct.VInt (int_at r 38 2);
     Struct.VBytes (bytes_at r 40 16); Struct.VBytes (bytes_at r 56 4);
     Struct.VBytes (bytes_at r 60 16); Struct.VInt (int_at r 76 4);
     Struct.VInt (int_at r 80 2); Struct.VInt (int_at r 82 2);
     Struct.VInt (int_at r 84 2); Struct.VInt (int_at r 86 2);
     Struct.VInt (int_at r 88 2); Struct.VInt (int_at r 90 2);
     Struct.VInt (int_at r 92 2); Struct.VInt (int_at r 94 2);
     Struct.VBytes (bytes_at r 96 72); Struct.VBytes (bytes_at r 168 4);
     Struct.VInt (int_at r 172 2); Struct.VInt (int_at r 174 2)].
Proof.
  unfold int_at, bytes_at.
  cbn [Personal.PERSONAL_ENTRY_STRUCT replicate app Struct.unpack_codes Struct.size].
  rewrite !drop_drop. cbn [Nat.add]. by rewrite drop_0.
Qed.

Lemma int_at_drop (buffer : list Z) (offset off n : nat) :
  int_at (drop offset buffer) off n = int_at buffer (offset + off) n.
Proof. unfold int_at. by rewrite drop_drop. Qed.

Lemma bytes_at_drop (buffer : list Z) (offset off n : nat) :
  bytes_at (drop offset buffer) off n = bytes_at buffer (offset + off) n.
Proof. unfold bytes_at. by rewrite drop_drop. Qed.

Lemma int_at_1 (buffer : list Z) (offset : nat) (b : Z) :
  buffer !! offset = Some b -> int_at buffer offset 1 = b.
Proof.
  intros H. unfold int_at. rewrite (drop_S _ _ _ H).
  cbn [take firstn from_bytes]. rewrite take_0. cbn [from_bytes]. lia.
Qed.

(** ** Failing lookups *)

Lemma pack_bit_error (learnset : list string) (item : Z * string) (bits : list Z)
  (e : exn) :
  Personal.pack_bit learnset item bits = Raise e -> e = IndexError.
Proof.
  destruct item as [index move]. unfold Personal.pack_bit.
  destruct (bool_decide _); [|discriminate].
  destruct (py_getitem bits _) eqn:Hg; cbn [bind]; [discriminate|].
  intros [= <-]. by apply py_getitem_error in Hg.
Qed.

Lemma pack_learnset_bits_error (CONSTANTS : Constants) (consts_name : Cat.category)
  (learnset : list string) (size : nat) (e : exn) :
  Personal.pack_learnset_bits CONSTANTS consts_name learnset size = Raise e ->
  e = IndexError.
Proof.
  unfold Personal.pack_learnset_bits.
  generalize (replicate size 0), (Personal.enumerate (CONSTANTS consts_name)).
  intros bits l; revert bits; induction l as [|item l IH]; intros bits;
    cbn [for_each]; [discriminate|].
  destruct (Personal.pack_bit learnset item bits) eqn:Hb; cbn [bind].
  - apply IH.
  - intros [= <-]. by apply pack_bit_error in Hb.
Qed.



(** ** Packed sub-fields *)

Lemma In_upto (n : Z) (z : Z) : 0 <= z < n -> In z (upto n).
Proof.
  intros Hz. unfold upto. apply in_map_iff. exists (Z.to_nat z).
  split; [lia|]. apply in_seq. lia.
Qed.

Lemma land_3_upto (x : Z) : In (Z.land x 3) (upto 4).
Proof.
  apply In_upto. change 3 with (Z.ones 2). rewrite Z.land_ones by lia.
  apply Z.mod_pos_bound. lia.
Qed.

Lemma ev_fields_ev_word_upto :
  forallb (fun hp => forallb (fun atk => forallb (fun def =>
    forallb (fun spd => forallb (fun sp_atk => forallb (fun sp_def =>
      forallb (fun flag =>
        let w := ev_word hp atk def spd sp_atk sp_def flag in
        (0 <=? w) && (w <? 8192)
        && bool_decide (ev_fields w = ([hp; atk; def; spd; sp_atk; sp_def], flag)))
        [true; false])
      (upto 4)) (upto 4)) (upto 4)) (upto 4)) (upto 4)) (upto 4) = true.
Proof. vm_compute. reflexivity. Qed.

(** Unpacking the EV-yield word of values within two bits gives them back. *)
Lemma ev_fields_ev_word (hp atk def spd sp_atk sp_def : Z) (flag : bool) :
  In hp (upto 4) -> In atk (upto 4) -> In def (upto 4) -> In spd (upto 4) ->
  In sp_atk (upto 4) -> In sp_def (upto 4) ->
  0 <= ev_word hp atk def spd sp_atk sp_def flag < 8192
  /\ ev_fields (ev_word hp atk def spd sp_atk sp_def flag)
     = ([hp; atk; def; spd; sp_atk; sp_def], flag).
Proof.
  intros H1 H2 H3 H4 H5 H6.
  pose proof ev_fields_ev_word_upto as H.
  rewrite forallb_forall in H. specialize (H _ H1).
  rewrite forallb_forall in H. specialize (H _ H2).
  rewrite forallb_forall in H. specialize (H _ H3).
  rewrite forallb_forall in H. specialize (H _ H4).
  rewrite forallb_forall in H. specialize (H _ H5).
  rewrite forallb_forall in H. specialize (H _ H6).
  rewrite forallb_forall in H.
  assert (Hf : In flag [true; false]) by (destruct flag; cbn; auto).
  specialize (H _ Hf). cbv zeta in H.
  apply andb_true_iff in H as [[Hlo%Z.leb_le Hhi%Z.ltb_lt]%andb_true_iff
                                 Heq%bool_decide_eq_true].
  split; [lia|done].
Qed.

Lemma ev_word_ev_fields_upto :
  forallb (fun w =>
             let '(fields, flag) := ev_fields w in
             match fields with
             | [hp; atk; def; spd; sp_atk; sp_def] =>
                 ev_word hp atk def spd sp_atk sp_def flag =? w
             | _ => false
             end) (upto 8192) = true.
Proof. vm_compute. reflexivity. Qed.

Lemma land_high_zero (w mask : Z) (n : nat) :
  0 <= w < 2 ^ 16 -> Z.lor (Z.ones (Z.of_nat n)) mask = Z.ones 16 ->
  Z.land w mask = 0 -> 0 <= w < 2 ^ Z.of_nat n.
Proof.
  intros Hw Hmask Hz.
  assert (Hsplit : w = Z.land w (Z.ones (Z.of_nat n))).
  { rewrite <- (Z.lor_0_r (Z.land w (Z.ones (Z.of_nat n)))), <- Hz.
    rewrite <- Z.land_lor_distr_r, Hmask, Z.land_ones by lia.
    symmetry. apply Z.mod_small. lia. }
  rewrite Hsplit, Z.land_ones by lia. apply Z.mod_pos_bound. lia.
Qed.

(** A 16-bit word whose three top bits are clear is the EV-yield word of
    its own sub-fields. *)
Lemma ev_word_ev_fields (w : Z) :
  0 <= w < 65536 -> Z.land w 0xE000 = 0 ->
  ev_word (Z.land w 3) (Z.land (Z.shiftr w 2) 3) (Z.land (Z.shiftr w 4) 3)
    (Z.land (Z.shiftr w 6) 3) (Z.land (Z.shiftr w 8) 3)
    (Z.land (Z.shiftr w 10) 3) (Personal.truthy (Z.land (Z.shiftr w 12) 3))
  = w.
Proof.
  intros Hw Hz.
  assert (Hsmall : 0 <= w < 2 ^ Z.of_nat 13)
    by (apply (land_high_zero w 0xE000 13); done).
  pose proof ev_word_ev_fields_upto as H. rewrite forallb_forall in H.
  change (2 ^ Z.of_nat 13) with 8192 in Hsmall.
  specialize (H w (In_upto 8192 w Hsmall)). unfold ev_fields in H.
  by apply Z.eqb_eq in H.
Qed.

Lemma dex_byte_upto :
  forallb (fun color => forallb (fun h => forallb (fun v =>
    let b := dex_byte color h v in
    (0 <=? b) && (b <? 256) && (Z.land b 0x3F =? color)
    && eqb (Personal.truthy (Z.land b 0x40)) h
    && eqb (Personal.truthy (Z.land b 0x80)) v)
    [true; false]) [true; false]) (upto 64) = true.
Proof. vm_compute. reflexivity. Qed.

(** The dex-bits byte of a colour below 64 and two flags unpacks to them. *)
Lemma dex_byte_fields (color : Z) (h v : bool) :
  0 <= color < 64 ->
  0 <= dex_byte color h v < 256
  /\ Z.land (dex_byte color h v) 0x3F = color
  /\ Personal.truthy (Z.land (dex_byte color h v) 0x40) = h
  /\ Personal.truthy (Z.land (dex_byte color h v) 0x80) = v.
Proof.
  intros Hc. pose proof dex_byte_upto as H.
  rewrite forallb_forall in H. specialize (H color (In_upto 64 color Hc)).
  rewrite forallb_forall in H.
  assert (Hh : In h [true; false]) by (destruct h; cbn; auto).
  assert (Hv : In v [true; false]) by (destruct v; cbn; auto).
  specialize (H h Hh). rewrite forallb_forall in H. specialize (H v Hv).
  cbv zeta in H. rewrite !andb_true_iff in H.
  destruct H as [[[[Hlo%Z.leb_le Hhi%Z.ltb_lt] Hcol%Z.eqb_eq] H1%eqb_prop]
                   H2%eqb_prop].
  auto.
Qed.

Lemma fields_dex_byte_upto :
  forallb (fun b =>
             dex_byte (Z.land b 0x3F) (Personal.truthy (Z.land b 0x40))
               (Personal.truthy (Z.land b 0x80)) =? b) (upto 256) = true.
Proof. vm_compute. reflexivity. Qed.

(** Every byte is the dex-bits byte of its own fields. *)
Lemma fields_dex_byte (b : Z) :
  0 <= b < 256 ->
  dex_byte (Z.land b 0x3F) (Personal.truthy (Z.land b 0x40))
    (Personal.truthy (Z.land b 0x80)) = b.
Proof.
  intros Hb. pose proof fields_dex_byte_upto as H.
  rewrite forallb_forall in H. specialize (H b (In_upto 256 b Hb)).
  by apply Z.eqb_eq in H.
Qed.

Lemma species_word_fields (r d : bool) :
  0 <= species_word r d < 65536
  /\ Personal.truthy (Z.land (species_word r d) 0x1) = r
  /\ Personal.truthy (Z.land (species_word r d) 0x4) = d.
Proof. destruct r, d; vm_compute; repeat split; discriminate. Qed.

(** A 16-bit word with only bits 0 and 2 possibly set is the species-flags
    word of its own flags. *)
Lemma fields_species_word (w : Z) :
  0 <= w < 65536 -> Z.land w 0xFFFA = 0 ->
  species_word (Personal.truthy (Z.land w 0x1)) (Personal.truthy (Z.land w 0x4)) = w.
Proof.
  intros Hw Hz.
  assert (Hsmall : 0 <= w < 2 ^ Z.of_nat 3)
    by (apply (land_high_zero w 0xFFFA 3); done).
  change (2 ^ Z.of_nat 3) with 8 in Hsmall.
  assert (Hc : w = 0 \/ w = 1 \/ w = 2 \/ w = 3 \/ w = 4 \/ w = 5 \/ w = 6 \/ w = 7)
    by lia.
  destruct Hc as [->|[->|[->|[->|[->|[->|[->| ->]]]]]]];
    vm_compute in Hz; try discriminate; reflexivity.
Qed.

(** ** Hexadecimal text *)

Lemma hex_digit_upto :
  forallb (fun n => negb (is_space (hex_digit n))
                    && bool_decide (hex_value (hex_digit n) = Some n)
                    && is_lower_hex (hex_digit n)) (upto 16) = true.
Proof. vm_compute. reflexivity. Qed.

Lemma hex_digit_spec (n : Z) :
  0 <= n < 16 ->
  is_space (hex_digit n) = false /\ hex_value (hex_digit n) = Some n
  /\ is_lower_hex (hex_digit n) = true.
Proof.
  intros Hn. pose proof hex_digit_upto as H. rewrite forallb_forall in H.
  specialize (H n (In_upto 16 n Hn)). rewrite !andb_true_iff in H.
  destruct H as [[H1%negb_true_iff H2%bool_decide_eq_true] H3]. auto.
Qed.

(** [bytes.fromhex(bs.hex()) == bs] *)
Lemma fromhex_hex (bs : list Z) : all_bytes bs = true -> fromhex (hex bs) = OK bs.
Proof.
  induction bs as [|b bs IH]; intros Hb; [done|].
  apply all_bytes_cons in Hb as [Hb Hbs].
  assert (Hhi : 0 <= b / 16 < 16)
    by (split; [apply Z.div_pos; lia | apply Z.div_lt_upper_bound; lia]).
  assert (Hlo : 0 <= b mod 16 < 16) by (apply Z.mod_pos_bound; lia).
  destruct (hex_digit_spec _ Hhi) as (Hs1 & Hv1 & _).
  destruct (hex_digit_spec _ Hlo) as (_ & Hv2 & _).
  cbn [hex fromhex]. rewrite Hs1, Hv1, Hv2, IH by done. cbn [bind].
  do 2 f_equal. pose proof (Z.div_mod b 16). lia.
Qed.

Lemma lower_hex_upto :
  forallb (fun n =>
             let c := ascii_of_nat n in
             implb (is_lower_hex c)
               (match hex_value c with
                | Some v => (0 <=? v) && (v <? 16) && negb (is_space c)
                            && Ascii.eqb (hex_digit v) c
                | None => false
                end)) (seq 0 256) = true.
Proof. vm_compute. reflexivity. Qed.

Lemma lower_hex_spec (c : ascii) :
  is_lower_hex c = true ->
  exists v, hex_value c = Some v /\ 0 <= v < 16 /\ is_space c = false
            /\ hex_digit v = c.
Proof.
  intros Hc. pose proof lower_hex_upto as H. rewrite forallb_forall in H.
  specialize (H (nat_of_ascii c)).
  rewrite ascii_nat_embedding in H. cbv zeta in H. rewrite Hc in H.
  cbn [implb] in H.
  assert (Hin : In (nat_of_ascii c) (seq 0 256))
    by (apply in_seq; pose proof (nat_ascii_bounded c); lia).
  specialize (H Hin). destruct (hex_value c) as [v|]; [|discriminate].
  rewrite !andb_true_iff in H.
  destruct H as [[[H1%Z.leb_le H2%Z.ltb_lt] H3%negb_true_iff] H4%Ascii.eqb_eq].
  exists v. auto with lia.
Qed.

(** A text of [2 * n] lowercase hexadecimal digits is the [hex] of the
    [n] bytes [fromhex] reads from it. *)
Lemma hex_fromhex (n : nat) (s : string) :
  is_hex_of n s = true ->
  exists bs, fromhex s = OK bs /\ length bs = n /\ all_bytes bs = true
             /\ hex bs = s.
Proof.
  unfold is_hex_of. revert s; induction n as [|n IH]; intros s H;
    apply andb_true_iff in H as [Hlen%Nat.eqb_eq Hdig].
  - destruct s; [|cbn [String.length] in Hlen; lia]. exists []. done.
  - destruct s as [|c [|d s]]; cbn [String.length] in Hlen; try lia.
    cbn [list_ascii_of_string forallb] in Hdig.
    apply andb_true_iff in Hdig as [Hc Hdig].
    apply andb_true_iff in Hdig as [Hd Hdig].
    destruct (lower_hex_spec c Hc) as (hi & Hv1 & Hhi & Hs1 & Hd1).
    destruct (lower_hex_spec d Hd) as (lo & Hv2 & Hlo & _ & Hd2).
    destruct (IH s) as (bs & Hf & Hl & Hb & Hh).
    { apply andb_true_iff. split; [|done]. apply Nat.eqb_eq.
      cbn [String.length] in Hlen. lia. }
    exists (16 * hi + lo :: bs). cbn [fromhex]. rewrite Hs1, Hv1, Hv2, Hf.
    split; [done|]. split; [cbn; by rewrite Hl|].
    split; [apply all_bytes_cons; split; [lia|done]|].
    cbn [hex].
    replace ((16 * hi + lo) / 16) with hi
      by (apply (Z.div_unique_pos _ 16 hi lo); lia).
    replace ((16 * hi + lo) mod 16) with lo
      by (apply (Z.mod_unique_pos _ 16 hi lo); lia).
    by rewrite Hd1, Hd2, Hh.
Qed.

(** ** Creature records: encoding a valid entry *)

Lemma known_below_spec (CONSTANTS : Constants) (category : Cat.category)
  (bound : Z) (cname : string) :
  known_below CONSTANTS category bound cname = true ->
  cnstval CONSTANTS category cname = OK (code_of CONSTANTS category cname)
  /\ 0 <= code_of CONSTANTS category cname < bound
  /\ cnstname CONSTANTS category (code_of CONSTANTS category cname) = OK cname.
Proof.
  unfold known_below, code_of.
  destruct (list_index (CONSTANTS category) cname) as [i|] eqn:Hi; [|discriminate].
  intros Hb%Z.ltb_lt. cbn [default from_option id].
  assert (Hv : cnstval CONSTANTS category cname = OK (Z.of_nat i))
    by (unfold cnstval; by rewrite Hi).
  split; [done|]. split; [lia|]. by apply cnstname_cnstval.
Qed.

Lemma known_below_fits (CONSTANTS : Constants) (category : Cat.category)
  (bound : Z) (cname : string) :
  known_below CONSTANTS category bound cname = true ->
  in_range bound (code_of CONSTANTS category cname) = true.
Proof.
  intros (_ & [H1%Z.leb_le H2%Z.ltb_lt] & _)%known_below_spec.
  unfold in_range. by rewrite H1, H2.
Qed.

Lemma in_range_spec (bound z : Z) : in_range bound z = true <-> 0 <= z < bound.
Proof. unfold in_range. rewrite andb_true_iff, Z.leb_le, Z.ltb_lt. tauto. Qed.

Lemma registry_fits_spec (CONSTANTS : Constants) :
  registry_fits CONSTANTS = true ->
  (length (CONSTANTS Cat.tms) <= 8 * 16)%nat
  /\ (length (CONSTANTS Cat.trs) <= 8 * 16)%nat
  /\ (length (CONSTANTS Cat.move_tutors) <= 8 * 4)%nat
  /\ (length (CONSTANTS Cat.armor_tutors) <= 8 * 4)%nat.
Proof.
  unfold registry_fits. rewrite !andb_true_iff, !Nat.leb_le. tauto.
Qed.

Lemma learnset_bits_spec (CONSTANTS : Constants) (consts_name : Cat.category)
  (learnset : list string) (size : nat) :
  (length (CONSTANTS consts_name) <= 8 * size)%nat ->
  Personal.pack_learnset_bits CONSTANTS consts_name learnset size
  = OK (learnset_bits CONSTANTS consts_name learnset size)
  /\ length (learnset_bits CONSTANTS consts_name learnset size) = size
  /\ Personal.parse_learnset_bits CONSTANTS consts_name
       (learnset_bits CONSTANTS consts_name learnset size)
     = OK (members learnset (CONSTANTS consts_name)).
Proof.
  intros Hfit. unfold learnset_bits.
  destruct (pack_learnset_bits_spec CONSTANTS consts_name learnset size Hfit)
    as (bits & Hp & Hl & _ & _).
  rewrite Hp. split; [done|]. split; [done|].
  by apply (parse_pack_learnset_bits _ _ _ size).
Qed.

Lemma pack_ev_yield_ev_word (e : Personal.Entry) :
  Personal.pack_ev_yield e
  = ev_word (Z.land (Personal.evs_hp e) 3) (Z.land (Personal.evs_atk e) 3)
      (Z.land (Personal.evs_def e) 3) (Z.land (Personal.evs_spd e) 3)
      (Z.land (Personal.evs_sp_atk e) 3) (Z.land (Personal.evs_sp_def e) 3)
      (Personal.fail_telekinesis e).
Proof. reflexivity. Qed.

Lemma land_3_small (x : Z) : in_range 4 x = true -> Z.land x 3 = x.
Proof.
  intros H%in_range_spec. change 3 with (Z.ones 2).
  rewrite Z.land_ones by lia. apply Z.mod_small. lia.
Qed.

Ltac split_valid H :=
  repeat match type of H with
         | _ && _ = true =>
             let H' := fresh "Hv" in
             apply andb_true_iff in H as [H H']
         end.

(** A valid entry is packed without an exception, into these values. *)
Lemma pack_values_valid (CONSTANTS : Constants) (e : Personal.Entry) :
  registry_fits CONSTANTS = true -> valid_entry CONSTANTS e = true ->
  Personal.pack_values CONSTANTS e = OK (entry_values CONSTANTS e).
Proof.
  intros (Ht & Hr & Hm & Ha)%registry_fits_spec Hv.
  unfold valid_entry in Hv. split_valid Hv.
  unfold Personal.pack_values.
  rewrite (proj1 (learnset_bits_spec _ Cat.tms _ 16 Ht)). cbn [bind].
  rewrite (proj1 (learnset_bits_spec _ Cat.move_tutors _ 4 Hm)). cbn [bind].
  rewrite (proj1 (learnset_bits_spec _ Cat.trs _ 16 Hr)). cbn [bind].
  rewrite (proj1 (learnset_bits_spec _ Cat.armor_tutors _ 4 Ha)). cbn [bind].
  repeat match goal with
         | |- bind (cnstval ?C ?cat ?n) _ = _ =>
             match goal with
             | H : known_below C cat _ n = true |- _ =>
                 rewrite (proj1 (known_below_spec _ _ _ _ H)); cbn [bind]
             end
         end.
  destruct (hex_fromhex 72 (Personal.unk60 e)) as (bs & Hbs & _); [done|].
  unfold entry_values, hex_bytes. rewrite Hbs. cbn [bind]. reflexivity.
Qed.

Lemma pack_ev_yield_valid (e : Personal.Entry) :
  in_range 4 (Personal.evs_hp e) = true -> in_range 4 (Personal.evs_atk e) = true ->
  in_range 4 (Personal.evs_def e) = true -> in_range 4 (Personal.evs_spd e) = true ->
  in_range 4 (Personal.evs_sp_atk e) = true ->
  in_range 4 (Personal.evs_sp_def e) = true ->
  0 <= Personal.pack_ev_yield e < 8192
  /\ ev_fields (Personal.pack_ev_yield e)
     = ([Personal.evs_hp e; Personal.evs_atk e; Personal.evs_def e;
         Personal.evs_spd e; Personal.evs_sp_atk e; Personal.evs_sp_def e],
        Personal.fail_telekinesis e).
Proof.
  intros H1 H2 H3 H4 H5 H6. rewrite pack_ev_yield_ev_word.
  rewrite !land_3_small by done.
  apply ev_fields_ev_word; apply In_upto; by apply in_range_spec.
Qed.

Lemma all_fit_entry_values (CONSTANTS : Constants) (e : Personal.Entry) :
  registry_fits CONSTANTS = true -> valid_entry CONSTANTS e = true ->
  all_fit Personal.PERSONAL_ENTRY_STRUCT (entry_values CONSTANTS e) = true.
Proof.
  intros (Ht & Hr & Hm & Ha)%registry_fits_spec Hv.
  unfold valid_entry in Hv. split_valid Hv.
  destruct (pack_ev_yield_valid e) as [Hev _]; try done.
  destruct (hex_fromhex 72 (Personal.unk60 e)) as (bs & Hbs & Hlen & _); [done|].
  assert (Hhex : length (hex_bytes (Personal.unk60 e)) = 72%nat)
    by (unfold hex_bytes; by rewrite Hbs).
  pose proof (proj1 (proj2 (learnset_bits_spec CONSTANTS Cat.tms
                              (Personal.tms e) 16 Ht))) as Hl1.
  pose proof (proj1 (proj2 (learnset_bits_spec CONSTANTS Cat.trs
                              (Personal.trs e) 16 Hr))) as Hl2.
  pose proof (proj1 (proj2 (learnset_bits_spec CONSTANTS Cat.move_tutors
                              (Personal.move_tutors e) 4 Hm))) as Hl3.
  pose proof (proj1 (proj2 (learnset_bits_spec CONSTANTS Cat.armor_tutors
                              (Personal.armor_tutors e) 4 Ha))) as Hl4.
  pose proof (species_word_fields (Personal.is_regional_form e)
                (Personal.can_not_dynamax e)) as (Hsp & _).
  assert (Hdex : 0 <= dex_byte (code_of CONSTANTS Cat.dex_colors (Personal.dex_color e))
                        (Personal.has_dex_entry e) (Personal.is_visual_form e) < 256).
  { apply dex_byte_fields. by eapply known_below_spec. }
  repeat match goal with
         | H : known_below _ _ _ _ = true |- _ =>
             apply known_below_fits, in_range_spec in H
         | H : in_range _ _ = true |- _ => apply in_range_spec in H
         end.
  unfold entry_values.
  cbn [all_fit fits Personal.PERSONAL_ENTRY_STRUCT replicate app].
  rewrite Hhex, Hl1, Hl2, Hl3, Hl4, !Nat.eqb_refl.
  repeat (apply andb_true_intro; split);
    first [reflexivity | apply Z.leb_le; lia | apply Z.ltb_lt; lia].
Qed.

(** ** Creature records: decoding the values of a valid entry *)

Lemma unpack_entry_values (CONSTANTS : Constants) (e : Personal.Entry)
  (buffer : list Z) (offset : nat) :
  registry_fits CONSTANTS = true -> valid_entry CONSTANTS e = true ->
  (offset + 0xB0 <= length buffer)%nat ->
  Struct.unpack_codes Personal.PERSONAL_ENTRY_STRUCT (drop offset buffer)
  = entry_values CONSTANTS e ->
  Personal.unpack_entry CONSTANTS buffer offset = OK (normalize CONSTANTS e).
Proof.
  intros (Ht & Hr & Hm & Ha)%registry_fits_spec Hv Hlen Hvals.
  unfold valid_entry in Hv. split_valid Hv.
  destruct (pack_ev_yield_valid e) as [_ Hev]; try done.
  injection Hev as Hev1 Hev2 Hev3 Hev4 Hev5 Hev6 Hev7.
  destruct (hex_fromhex 72 (Personal.unk60 e)) as (bs & Hbs & _ & _ & Hhex);
    [done|].
  assert (Hhex' : hex (hex_bytes (Personal.unk60 e)) = Personal.unk60 e)
    by (unfold hex_bytes; by rewrite Hbs).
  pose proof (species_word_fields (Personal.is_regional_form e)
                (Personal.can_not_dynamax e)) as (_ & Hsp1 & Hsp2).
  destruct (dex_byte_fields (code_of CONSTANTS Cat.dex_colors (Personal.dex_color e))
              (Personal.has_dex_entry e) (Personal.is_visual_form e))
    as (_ & Hdx1 & Hdx2 & Hdx3); [by eapply known_below_spec|].
  unfold Personal.unpack_entry. rewrite unpack_from_OK by done.
  cbn [bind]. rewrite Hvals. unfold entry_values. cbv iota.
  rewrite Hdx1.
  repeat match goal with
         | |- bind (cnstname ?C ?cat (code_of _ _ ?n)) _ = _ =>
             match goal with
             | H : known_below C cat _ n = true |- _ =>
                 rewrite (proj2 (proj2 (known_below_spec _ _ _ _ H))); cbn [bind]
             end
         end.
  rewrite (proj2 (proj2 (learnset_bits_spec _ Cat.tms _ 16 Ht))). cbn [bind].
  rewrite (proj2 (proj2 (learnset_bits_spec _ Cat.trs _ 16 Hr))). cbn [bind].
  rewrite (proj2 (proj2 (learnset_bits_spec _ Cat.move_tutors _ 4 Hm))).
  cbn [bind].
  rewrite (proj2 (proj2 (learnset_bits_spec _ Cat.armor_tutors _ 4 Ha))).
  cbn [bind].
  rewrite Hev1, Hev2, Hev3, Hev4, Hev5, Hev6, Hev7, Hdx2, Hdx3, Hsp1, Hsp2, Hhex'.
  reflexivity.
Qed.

(** ** The icon list *)

Lemma drop_inserts {A : Type} (offset : nat) (k l : list A) :
  (offset + length k <= length l)%nat ->
  drop offset (list_inserts offset k l) = k ++ drop (offset + length k) l.
Proof.
  intros H. rewrite list_inserts_take_drop by done.
  rewrite drop_app_length'; [done|]. rewrite length_take. lia.
Qed.

Lemma pack_icon_values (CONSTANTS : Constants) (e : Pokecaplist.IconEntry) :
  valid_icon CONSTANTS e = true ->
  cnstval CONSTANTS Cat.genders (Pokecaplist.gender_type e)
  = OK (code_of CONSTANTS Cat.genders (Pokecaplist.gender_type e))
  /\ Struct.pack Pokecaplist.POKECAPLIST_ENTRY_STRUCT (icon_values CONSTANTS e)
     = OK (icon_bytes CONSTANTS e)
  /\ forall rest,
       Struct.unpack_codes Pokecaplist.POKECAPLIST_ENTRY_STRUCT
         (icon_bytes CONSTANTS e ++ rest) = icon_values CONSTANTS e.
Proof.
  unfold valid_icon. rewrite !andb_true_iff.
  intros [[H1%in_range_spec H2%in_range_spec] H3].
  destruct (known_below_spec _ _ _ _ H3) as (Hc & Hr & _).
  split; [done|].
  destruct (pack_all_fit Pokecaplist.POKECAPLIST_ENTRY_STRUCT
              (icon_values CONSTANTS e)) as (bs & Hp & _ & Hu).
  { unfold icon_values.
    cbn [all_fit fits Pokecaplist.POKECAPLIST_ENTRY_STRUCT replicate app].
    repeat (apply andb_true_intro; split);
      first [reflexivity | apply Z.leb_le; lia | apply Z.ltb_lt; lia]. }
  assert (Hbs : bs = icon_bytes CONSTANTS e).
  { unfold icon_values in Hp.
    cbn [Struct.pack Pokecaplist.POKECAPLIST_ENTRY_STRUCT replicate app
           Struct.pack_value] in Hp.
    rewrite !pack_int_OK in Hp by (change (256 ^ Z.of_nat 2) with 65536; lia).
    cbn [bind] in Hp. injection Hp as <-. unfold icon_bytes.
    reflexivity. }
  subst bs. done.
Qed.

Lemma length_icon_bytes (CONSTANTS : Constants) (e : Pokecaplist.IconEntry) :
  length (icon_bytes CONSTANTS e) = 8%nat.
Proof. done. Qed.

Lemma length_concat_icon_bytes (CONSTANTS : Constants)
  (es : list Pokecaplist.IconEntry) :
  length (concat (map (icon_bytes CONSTANTS) es)) = (length es * 8)%nat.
Proof.
  induction es as [|e es IH]; [done|].
  cbn [map concat length]. rewrite length_app, IH, length_icon_bytes. lia.
Qed.

Lemma pack_icons (CONSTANTS : Constants) (es : list Pokecaplist.IconEntry)
  (buffer : list Z) (offset : nat) :
  forallb (valid_icon CONSTANTS) es = true ->
  (offset + length es * 8 <= length buffer)%nat ->
  for_each es (buffer, offset) (Pokecaplist.pack_entry CONSTANTS)
  = OK (list_inserts offset (concat (map (icon_bytes CONSTANTS) es)) buffer,
        (offset + length es * 8)%nat).
Proof.
  revert buffer offset; induction es as [|e es IH]; intros buffer offset Hv Hl.
  - cbn. do 2 f_equal. lia.
  - cbn [forallb] in Hv. apply andb_true_iff in Hv as [Hv1 Hv2].
    cbn [length] in Hl.
    destruct (pack_icon_values _ _ Hv1) as (Hc & Hp & _).
    cbn [for_each]. unfold Pokecaplist.pack_entry at 1.
    rewrite Hc. cbn [bind].
    fold (icon_values CONSTANTS e).
    assert (Hfit : (offset + Struct.calcsize Pokecaplist.POKECAPLIST_ENTRY_STRUCT
                    <= length buffer)%nat)
      by (change (Struct.calcsize Pokecaplist.POKECAPLIST_ENTRY_STRUCT) with 8%nat;
          lia).
    rewrite (pack_into_OK _ _ _ _ _ Hfit Hp). cbn [bind].
    rewrite IH by (rewrite ?length_inserts; done || lia).
    cbn [map concat]. rewrite list_inserts_app_l, length_icon_bytes.
    replace (8 + offset)%nat with (offset + 8)%nat by lia.
    do 2 f_equal. cbn [length]. lia.
Qed.

Lemma unpack_icons (CONSTANTS : Constants) (es : list Pokecaplist.IconEntry)
  (fuel : nat) (pre : list Z) (acc : list Pokecaplist.IconEntry) :
  forallb (valid_icon CONSTANTS) es = true ->
  (length es <= fuel)%nat ->
  Pokecaplist.unpack_while fuel CONSTANTS
    (pre ++ concat (map (icon_bytes CONSTANTS) es)) (length pre) acc
  = Some (OK (acc ++ es)).
Proof.
  revert fuel pre acc; induction es as [|e es IH]; intros fuel pre acc Hv Hf.
  - cbn [map concat]. rewrite !app_nil_r.
    destruct fuel; cbn [Pokecaplist.unpack_while];
      by rewrite Nat.ltb_irrefl.
  - cbn [forallb] in Hv. apply andb_true_iff in Hv as [Hv1 Hv2].
    cbn [length] in Hf. destruct fuel as [|fuel]; [lia|].
    cbn [Pokecaplist.unpack_while map concat].
    assert (Hlt : (length pre
                   <? length (pre ++ icon_bytes CONSTANTS e
                                     ++ concat (map (icon_bytes CONSTANTS) es)))%nat
                  = true).
    { apply Nat.ltb_lt. rewrite !length_app, length_icon_bytes. lia. }
    rewrite Hlt.
    rewrite unpack_from_OK
      by (rewrite !length_app, length_icon_bytes; simpl; lia).
    rewrite drop_app_length.
    destruct (pack_icon_values _ _ Hv1) as (_ & _ & Hu). rewrite Hu.
    unfold icon_values. unfold valid_icon in Hv1.
    apply andb_true_iff in Hv1 as [_ Hg].
    rewrite (proj2 (proj2 (known_below_spec _ _ _ _ Hg))).
    replace (length pre + 8)%nat with (length (pre ++ icon_bytes CONSTANTS e))
      by (rewrite length_app, length_icon_bytes; lia).
    rewrite (app_assoc pre).
    rewrite IH by (done || lia). rewrite <- app_assoc.
    do 3 f_equal. by destruct e.
Qed.

(** Packing valid icon entries and unpacking the result gives them back. *)
Lemma pokecaplist_roundtrip (CONSTANTS : Constants)
  (entries : list Pokecaplist.IconEntry) :
  forallb (valid_icon CONSTANTS) entries = true ->
  exists buffer,
    Pokecaplist.pack_pokecaplist CONSTANTS entries = OK buffer
    /\ length buffer = (8 * length entries)%nat
    /\ Pokecaplist.unpack_pokecaplist CONSTANTS buffer = Some (OK entries).
Proof.
  intros Hv. exists (concat (map (icon_bytes CONSTANTS) entries)).
  unfold Pokecaplist.pack_pokecaplist.
  rewrite pack_icons by (rewrite ?length_replicate; done || lia).
  cbn [bind fst].
  assert (Hall : list_inserts 0 (concat (map (icon_bytes CONSTANTS) entries))
                   (replicate (length entries * 8) 0)
                 = concat (map (icon_bytes CONSTANTS) entries)).
  { rewrite <- (app_nil_r (concat _)) at 1.
    apply list_inserts_0_l.
    by rewrite length_concat_icon_bytes, length_replicate. }
  rewrite Hall. split; [done|].
  split; [rewrite length_concat_icon_bytes; lia|].
  unfold Pokecaplist.unpack_pokecaplist.
  apply (unpack_icons CONSTANTS entries _ [] []); [done|].
  rewrite length_concat_icon_bytes. lia.
Qed.

(** ** Round trip of the structured entries *)

Lemma calcsize_personal : Struct.calcsize Personal.PERSONAL_ENTRY_STRUCT = 0xB0%nat.
Proof. reflexivity. Qed.

(** A valid entry is written at [offset] and read back from there. *)
Lemma pack_entry_valid (CONSTANTS : Constants) (name : string) (e : Personal.Entry)
  (buffer : list Z) (offset : nat) :
  registry_fits CONSTANTS = true -> valid_entry CONSTANTS e = true ->
  (offset + 0xB0 <= length buffer)%nat ->
  exists bytes,
    Struct.pack Personal.PERSONAL_ENTRY_STRUCT (entry_values CONSTANTS e) = OK bytes
    /\ length bytes = 0xB0%nat
    /\ Personal.pack_entry CONSTANTS (name, e) (buffer, offset)
       = OK (list_inserts offset bytes buffer, (offset + 0xB0)%nat)
    /\ Personal.unpack_entry CONSTANTS (list_inserts offset bytes buffer) offset
       = OK (normalize CONSTANTS e).
Proof.
  intros Hr Hv Hlen.
  destruct (pack_all_fit _ _ (all_fit_entry_values CONSTANTS e Hr Hv))
    as (bytes & Hp & Hl & Hu).
  rewrite calcsize_personal in Hl.
  exists bytes. split; [done|]. split; [done|]. split.
  - unfold Personal.pack_entry. rewrite pack_values_valid by done. cbn [bind].
    rewrite (pack_into_OK _ _ _ _ bytes); [done| |done].
    by rewrite calcsize_personal.
  - apply unpack_entry_values; try done.
    + by rewrite length_inserts.
    + rewrite drop_inserts by lia. apply Hu.
Qed.

Lemma subset_of_spec (learnset master : list string) (move : string) :
  subset_of learnset master = true -> move ∈ learnset -> move ∈ master.
Proof.
  unfold subset_of. rewrite forallb_forall. intros H Hm%list_elem_of_In.
  apply (bool_decide_eq_true_1 _), H, Hm.
Qed.

Lemma normalize_same_entry (CONSTANTS : Constants) (e : Personal.Entry) :
  valid_entry CONSTANTS e = true -> same_entry (normalize CONSTANTS e) e.
Proof.
  intros Hv. unfold valid_entry in Hv. split_valid Hv.
  unfold same_entry, normalize. cbn [set_learnsets Personal.tms Personal.trs
    Personal.move_tutors Personal.armor_tutors].
  split; [reflexivity|].
  repeat split; rewrite elem_of_members; try tauto;
    intros Hm; (split; [done|]); by eapply subset_of_spec.
Qed.

(** C1: a valid entry that is encoded and decoded comes back unchanged.
    For a creature entry the record [pack_personal] writes at an offset is
    decoded by [unpack_personal] to the same entry, whose learnsets come
    back as the same sets, listed in the order of their master lists (so
    the very same entry when they were listed in that order); a sequence
    of at most 65 valid move entries comes back unchanged from the record
    of its creature; a list of valid icon entries comes back unchanged. *)
Theorem encode_decode_roundtrip (CONSTANTS : Constants) :
  (forall name e buffer offset,
     registry_fits CONSTANTS = true -> valid_entry CONSTANTS e = true ->
     (offset + 0xB0 <= length buffer)%nat ->
     exists buffer' e',
       Personal.pack_entry CONSTANTS (name, e) (buffer, offset)
       = OK (buffer', (offset + 0xB0)%nat)
       /\ Personal.unpack_entry CONSTANTS buffer' offset = OK e'
       /\ same_entry e' e
       /\ e' = normalize CONSTANTS e
       /\ (in_master_order CONSTANTS e -> e' = e))
  /\ (forall entries name ml,
        NoDup entries.*1 -> forallb (valid_item CONSTANTS) entries = true ->
        (name, ml) ∈ entries -> (length ml <= 65)%nat ->
        exists buffer stdout,
          Wazaoboe.pack_wazaoboe CONSTANTS entries = OK (buffer, stdout)
          /\ Wazaoboe.unpack_moves CONSTANTS buffer (creature_index CONSTANTS name)
             = OK ml)
  /\ (forall entries,
        forallb (valid_icon CONSTANTS) entries = true ->
        exists buffer,
          Pokecaplist.pack_pokecaplist CONSTANTS entries = OK buffer
          /\ Pokecaplist.unpack_pokecaplist CONSTANTS buffer = Some (OK entries)).
Proof.
  split; [|split].
  - intros name e buffer offset Hr Hv Hlen.
    destruct (pack_entry_valid CONSTANTS name e buffer offset Hr Hv Hlen)
      as (bytes & _ & _ & Hp & Hu).
    exists (list_inserts offset bytes buffer), (normalize CONSTANTS e).
    split; [done|]. split; [done|].
    split; [by apply normalize_same_entry|]. split; [done|]. auto.
  - intros entries name ml Hnd Hv Hin Hlen.
    pose proof (valid_items_packable _ _ Hv) as Hp.
    eexists _, _. split.
    { unfold Wazaoboe.pack_wazaoboe. apply pack_items_OK; [done|].
      apply length_replicate. }
    rewrite <- (take_ge ml 65) by lia. by apply unpack_written.
  - intros entries Hv.
    destruct (pokecaplist_roundtrip CONSTANTS entries Hv) as (buffer & Hp & _ & Hu).
    eauto.
Qed.

Lemma encode_decode_roundtrip_witness :
  (exists buffer',
     Personal.pack_entry Demo.constants ("Bulbasaur"%string, Demo.bulbasaur)
       (replicate 352 0, 176%nat) = OK (buffer', 352%nat)
     /\ Personal.unpack_entry Demo.constants buffer' 176 = OK Demo.bulbasaur)
  /\ (exists buffer stdout,
        Wazaoboe.pack_wazaoboe Demo.constants Demo.learnsets = OK (buffer, stdout)
        /\ Wazaoboe.unpack_moves Demo.constants buffer 0
           = OK [Demo.pound 5; Demo.pound 9])
  /\ (exists buffer,
        Pokecaplist.pack_pokecaplist Demo.constants [Demo.icon; Demo.icon]
        = OK buffer
        /\ Pokecaplist.unpack_pokecaplist Demo.constants buffer
           = Some (OK [Demo.icon; Demo.icon])).
Proof.
  destruct (encode_decode_roundtrip Demo.constants) as (Hcreature & Hmoves & Hicons).
  split; [|split].
  - destruct (Hcreature "Bulbasaur"%string Demo.bulbasaur (replicate 352 0) 176%nat)
      as (buffer' & e' & Hp & Hu & _ & _ & He).
    + vm_compute. reflexivity.
    + vm_compute. reflexivity.
    + vm_compute. lia.
    + exists buffer'. split; [exact Hp|].
      rewrite Hu, He; [reflexivity|]. vm_compute. reflexivity.
  - apply (Hmoves Demo.learnsets "Egg"%string [Demo.pound 5; Demo.pound 9]).
    + apply (bool_decide_unpack _). vm_compute. exact I.
    + vm_compute. reflexivity.
    + apply list_elem_of_further, list_elem_of_here.
    + vm_compute. lia.
  - apply (Hicons [Demo.icon; Demo.icon]). vm_compute. reflexivity.
Defined.

(** ** Creature records: encoding what was decoded *)

Lemma elem_of_selected (bits : list Z) (a : nat) (master : list string)
  (move : string) :
  move ∈ selected bits a master
  <-> exists i, master !! i = Some move /\ bit_of bits (a + i) = true.
Proof.
  revert a; induction master as [|m master IH]; intros a; cbn [selected].
  - split; [by intros ?%elem_of_nil|]. by intros (i & ? & _).
  - destruct (bit_of bits a) eqn:Ha.
    + rewrite elem_of_cons, IH. split.
      * intros [->|(i & Hi & Hb)].
        -- exists 0%nat. by rewrite Nat.add_0_r.
        -- exists (S i). split; [done|].
           by replace (a + S i)%nat with (S a + i)%nat by lia.
      * intros ([|i] & Hi & Hb).
        -- left. by injection Hi.
        -- right. exists i. split; [done|].
           by replace (S a + i)%nat with (a + S i)%nat by lia.
    + rewrite IH. split.
      * intros (i & Hi & Hb). exists (S i). split; [done|].
        by replace (a + S i)%nat with (S a + i)%nat by lia.
      * intros ([|i] & Hi & Hb).
        -- rewrite Nat.add_0_r in Hb. congruence.
        -- exists i. split; [done|].
           by replace (S a + i)%nat with (a + S i)%nat by lia.
Qed.

(** Packing the names a bit buffer selects gives the buffer back, when
    the master list has no repeated name and the spare flags are clear. *)
Lemma pack_selected (CONSTANTS : Constants) (consts_name : Cat.category)
  (bits : list Z)
  (size : nat) :
  NoDup (CONSTANTS consts_name) ->
  length bits = size ->
  (length (CONSTANTS consts_name) <= 8 * size)%nat ->
  all_bytes bits = true ->
  spare_clear (CONSTANTS consts_name) bits = true ->
  Personal.pack_learnset_bits CONSTANTS consts_name
    (selected bits 0 (CONSTANTS consts_name)) size
  = OK bits.
Proof.
  intros Hnd <- Hfit Hb Hspare.
  destruct (pack_learnset_bits_spec CONSTANTS consts_name
              (selected bits 0 (CONSTANTS consts_name)) (length bits) Hfit)
    as (bits' & Hp & Hl & Hb' & Hs).
  rewrite Hp. f_equal. apply bits_ext; try done.
  intros j Hj. rewrite Hs.
  destruct (CONSTANTS consts_name !! j) as [move|] eqn:Hlk.
  - destruct (bit_of bits j) eqn:Hbit.
    + apply bool_decide_eq_true, elem_of_selected. by exists j.
    + apply bool_decide_eq_false. intros (i & Hi & Hbi)%elem_of_selected.
      rewrite (NoDup_lookup _ _ _ _ Hnd Hi Hlk) in Hbi. cbn in Hbi. congruence.
  - unfold spare_clear in Hspare. rewrite forallb_forall in Hspare.
    apply lookup_ge_None in Hlk. symmetry. apply negb_true_iff, Hspare.
    apply in_seq. lia.
Qed.

Lemma has_name_spec (CONSTANTS : Constants) (category : Cat.category) (code : Z) :
  NoDup (CONSTANTS category) -> 0 <= code ->
  has_name CONSTANTS category code = true ->
  exists cname, cnstname CONSTANTS category code = OK cname
                /\ cnstval CONSTANTS category cname = OK code.
Proof.
  intros Hnd H0 Hlt%Z.ltb_lt.
  destruct (cnstname_in_range CONSTANTS category code) as (cname & Hn & _); [lia|].
  exists cname. split; [done|]. by apply cnstval_cnstname.
Qed.

Lemma int_at_bound (buffer : list Z) (offset n : nat) :
  all_bytes buffer = true -> (offset + n <= length buffer)%nat ->
  0 <= int_at buffer offset n < 256 ^ Z.of_nat n.
Proof.
  intros Hb Hl. unfold int_at.
  pose proof (from_bytes_bound (take n (drop offset buffer))) as H.
  rewrite length_take, length_drop in H.
  replace (n `min` (length buffer - offset))%nat with n in H by lia.
  apply H. by apply all_bytes_take, all_bytes_drop.
Qed.

Lemma length_bytes_at (buffer : list Z) (offset n : nat) :
  (offset + n <= length buffer)%nat -> length (bytes_at buffer offset n) = n.
Proof. intros H. unfold bytes_at. rewrite length_take, length_drop. lia. Qed.

Lemma all_bytes_bytes_at (buffer : list Z) (offset n : nat) :
  all_bytes buffer = true -> all_bytes (bytes_at buffer offset n) = true.
Proof. intros H. by apply all_bytes_take, all_bytes_drop. Qed.

Lemma land_3_idem (x : Z) : Z.land (Z.land x 3) 3 = Z.land x 3.
Proof. by rewrite <- Z.land_assoc, Z.land_diag. Qed.

Ltac entry_simpl :=
  cbn [Personal.type_1 Personal.type_2 Personal.base_hp Personal.base_atk
       Personal.base_def Personal.base_sp_atk Personal.base_sp_def
       Personal.base_spd Personal.ability_1 Personal.ability_2
       Personal.hidden_ability Personal.height Personal.weight Personal.evs_hp
       Personal.evs_atk Personal.evs_def Personal.evs_sp_atk Personal.evs_sp_def
       Personal.evs_spd Personal.fail_telekinesis Personal.catch_rate
       Personal.gender_rate Personal.base_exp Personal.growth_type
       Personal.special_z_item Personal.special_z_base_move
       Personal.special_z_move Personal.egg_group_1 Personal.egg_group_2
       Personal.evolution_stage Personal.egg_species Personal.egg_form
       Personal.hatch_cycles Personal.base_friendship Personal.common_item
       Personal.rare_item Personal.very_rare_item Personal.first_form_index
       Personal.form_count Personal.icon_id Personal.pokedex_number
       Personal.armor_dex_number Personal.crown_dex_number Personal.dex_color
       Personal.has_dex_entry Personal.is_visual_form Personal.is_regional_form
       Personal.can_not_dynamax Personal.tms Personal.trs Personal.move_tutors
       Personal.armor_tutors Personal.unk5E Personal.unk60].

(** A record that is well formed is decoded, and the entry it is decoded
    to is packed into the values the record was read as. *)
Lemma repack_entry (CONSTANTS : Constants) (buffer : list Z) (offset : nat) :
  registry_fits CONSTANTS = true ->
  (forall category, NoDup (CONSTANTS category)) ->
  all_bytes buffer = true ->
  (offset + 0xB0 <= length buffer)%nat ->
  record_ok CONSTANTS (drop offset buffer) = true ->
  exists e,
    Personal.unpack_entry CONSTANTS buffer offset = OK e
    /\ Personal.pack_values CONSTANTS e
       = OK (Struct.unpack_codes Personal.PERSONAL_ENTRY_STRUCT (drop offset buffer)).
Proof.
  intros (Ht & Hr & Hm & Ha)%registry_fits_spec Hnd Hb Hlen Hok.
  unfold Personal.unpack_entry. rewrite unpack_from_OK by done. cbn [bind].
  assert (Hbr : all_bytes (drop offset buffer) = true) by by apply all_bytes_drop.
  assert (Hlr : (0xB0 <= length (drop offset buffer))%nat)
    by (rewrite length_drop; lia).
  revert Hok Hbr Hlr. generalize (drop offset buffer). intros r Hok Hbr Hlr.
  unfold record_ok in Hok. split_valid Hok.
  assert (Hev0 : Z.land (int_at r 10 2) 0xE000 = 0)
    by (by apply Z.eqb_eq).
  assert (Hsp0 : Z.land (int_at r 90 2) 0xFFFA = 0)
    by (by apply Z.eqb_eq).
  assert (Hint : forall off n, (off + n <= 0xB0)%nat ->
                   0 <= int_at r off n < 256 ^ Z.of_nat n)
    by (intros off n Hn; apply int_at_bound; [done|lia]).
  assert (Hdexnn : 0 <= Z.land (int_at r 33 1) 63)
    by (apply Z.land_nonneg; right; lia).
  repeat match goal with
         | H : has_name ?C ?cat ?code = true |- _ =>
             let name := fresh "name" in
             let Hn := fresh "Hn" in
             let Hc := fresh "Hc" in
             destruct (has_name_spec C cat code (Hnd cat)) as (name & Hn & Hc);
             [first [done | apply Hint; lia] | exact H | clear H]
         end.
  rewrite unpack_codes_personal. cbv iota.
  repeat match goal with
         | |- exists _, bind (cnstname ?C ?cat ?code) _ = _ /\ _ =>
             match goal with
             | H : cnstname C cat code = OK _ |- _ => rewrite H; cbn [bind]
             end
         end.
  rewrite !parse_learnset_bits_spec by (rewrite length_bytes_at; lia).
  cbn [bind]. eexists. split; [reflexivity|].
  unfold Personal.pack_values. entry_simpl.
  rewrite (pack_selected _ Cat.tms _ 16)
    by first [done | apply Hnd | apply length_bytes_at; lia
             | by apply all_bytes_bytes_at].
  cbn [bind].
  rewrite (pack_selected _ Cat.move_tutors _ 4)
    by first [done | apply Hnd | apply length_bytes_at; lia
             | by apply all_bytes_bytes_at].
  cbn [bind].
  rewrite (pack_selected _ Cat.trs _ 16)
    by first [done | apply Hnd | apply length_bytes_at; lia
             | by apply all_bytes_bytes_at].
  cbn [bind].
  rewrite (pack_selected _ Cat.armor_tutors _ 4)
    by first [done | apply Hnd | apply length_bytes_at; lia
             | by apply all_bytes_bytes_at].
  cbn [bind].
  repeat match goal with
         | |- bind (cnstval ?C ?cat ?n) _ = _ =>
             match goal with
             | H : cnstval C cat n = OK _ |- _ => rewrite H; cbn [bind]
             end
         end.
  rewrite fromhex_hex by by apply all_bytes_bytes_at. cbn [bind].
  rewrite pack_ev_yield_ev_word. entry_simpl. rewrite !land_3_idem.
  rewrite ev_word_ev_fields by (done || (apply (Hint 10 2)%nat; lia)).
  pose proof (fields_dex_byte (int_at r 33 1) (Hint 33 1 ltac:(lia))%nat) as Hdex.
  unfold dex_byte in Hdex. rewrite Hdex.
  pose proof (fields_species_word (int_at r 90 2) (Hint 90 2 ltac:(lia))%nat Hsp0)
    as Hsp.
  unfold species_word in Hsp. rewrite Hsp.
  reflexivity.
Qed.

(** ** Round trip of the raw bytes *)

Lemma dict_set_fresh {V : Type} (d : dict V) (k : string) (v : V) :
  k ∉ d.*1 -> dict_set d k v = d ++ [(k, v)].
Proof.
  induction d as [|[k' v'] d IH]; intros Hk; [done|].
  rewrite fmap_cons, not_elem_of_cons in Hk. destruct Hk as [Hne Hk].
  cbn [dict_set app]. cbn [fst] in Hne.
  destruct (decide (k = k')); [done|]. by rewrite IH.
Qed.

Lemma length_concat_replicate {A : Type} (n : nat) (l : list A) :
  length (concat (replicate n l)) = (n * length l)%nat.
Proof.
  induction n as [|n IH]; [done|].
  cbn [replicate concat]. rewrite length_app, IH. lia.
Qed.

Lemma plain_personal : plain Personal.PERSONAL_ENTRY_STRUCT = true.
Proof. reflexivity. Qed.

Section Blob.

Variable CONSTANTS : Constants.
Variable blob : list Z.
Hypothesis Hfits : registry_fits CONSTANTS = true.
Hypothesis Hunique : forall category, NoDup (CONSTANTS category).
Hypothesis Hbytes : all_bytes blob = true.
Hypothesis Hlength : length blob = (length (CONSTANTS Cat.pokemon) * 0xB0)%nat.
Hypothesis Hrecords :
  forall k, (k < length (CONSTANTS Cat.pokemon))%nat ->
            record_ok CONSTANTS (drop (k * 0xB0) blob) = true.

(** Decoding the records from [a] on and encoding the entries obtained,
    from the offset of record [a], writes the bytes of the blob from
    there on. *)
Lemma roundtrip_records (n a : nat) (acc : dict Personal.Entry) :
  (a + n = length (CONSTANTS Cat.pokemon))%nat ->
  acc.*1 = take a (CONSTANTS Cat.pokemon) ->
  exists es,
    for_each (seq a n) acc
      (fun i entries =>
         let* entry := Personal.unpack_entry CONSTANTS blob (i * 0xB0)%nat in
         let* name := cnstname CONSTANTS Cat.pokemon (Z.of_nat i) in
         OK (dict_set entries name entry))
    = OK (acc ++ es)
    /\ forall buffer,
         length buffer = length blob ->
         for_each es (buffer, (a * 0xB0)%nat) (Personal.pack_entry CONSTANTS)
         = OK (take (a * 0xB0) buffer ++ drop (a * 0xB0) blob, length blob).
Proof.
  revert a acc; induction n as [|n IH]; intros a acc Ha Hacc.
  - exists []. split; [by rewrite app_nil_r|]. intros buffer Hb.
    cbn [for_each]. rewrite Nat.add_0_r in Ha. subst a.
    rewrite take_ge, drop_ge, app_nil_r by lia. by rewrite Hlength.
  - assert (Hk : (a < length (CONSTANTS Cat.pokemon))%nat) by lia.
    destruct (repack_entry CONSTANTS blob (a * 0xB0) Hfits Hunique Hbytes)
      as (e & Hu & Hp); [lia|by apply Hrecords|].
    destruct (lookup_lt_is_Some_2 _ _ Hk) as [name Hname].
    assert (Hcn : cnstname CONSTANTS Cat.pokemon (Z.of_nat a) = OK name)
      by (unfold cnstname; by rewrite py_getitem_nat, Hname).
    assert (Hfresh : name ∉ acc.*1).
    { rewrite Hacc. intros (j & Hj)%list_elem_of_lookup.
      rewrite lookup_take in Hj. case_decide as Hlt; [|done].
      pose proof (NoDup_lookup _ _ _ _ (Hunique Cat.pokemon) Hj Hname). lia. }
    destruct (IH (S a) (acc ++ [(name, e)])) as (es & Hloop & Hpack); [lia| |].
    { rewrite fmap_app, Hacc. cbn. by rewrite (take_S_r _ _ _ Hname). }
    exists ((name, e) :: es). split.
    + cbn [seq for_each]. rewrite Hu. cbn [bind]. rewrite Hcn. cbn [bind].
      rewrite dict_set_fresh by done. by rewrite Hloop, <- app_assoc.
    + intros buffer Hb. cbn [for_each]. unfold Personal.pack_entry at 1.
      rewrite Hp. cbn [bind].
      assert (Hrec : Struct.pack Personal.PERSONAL_ENTRY_STRUCT
                       (Struct.unpack_codes Personal.PERSONAL_ENTRY_STRUCT
                          (drop (a * 0xB0) blob))
                     = OK (take 0xB0 (drop (a * 0xB0) blob))).
      { rewrite pack_unpack_codes; [by rewrite calcsize_personal|
                                     apply plain_personal|
                                     by apply all_bytes_drop|].
        rewrite calcsize_personal, length_drop. lia. }
      assert (Hfit : (a * 0xB0 + Struct.calcsize Personal.PERSONAL_ENTRY_STRUCT
                      <= length buffer)%nat)
        by (rewrite calcsize_personal; lia).
      rewrite (pack_into_OK _ _ _ _ _ Hfit Hrec). cbn [bind].
      replace (a * 0xB0 + 0xB0)%nat with (S a * 0xB0)%nat by lia.
      rewrite Hpack by (by rewrite length_inserts).
      do 2 f_equal.
      rewrite list_inserts_take_drop
        by (rewrite length_take, length_drop; lia).
      rewrite length_take, length_drop.
      replace (0xB0 `min` (length blob - a * 0xB0))%nat with 0xB0%nat by lia.
      rewrite app_assoc, take_app_length'
        by (rewrite length_app, !length_take, length_drop; lia).
      rewrite <- app_assoc. f_equal.
      rewrite <- (take_drop 0xB0 (drop (a * 0xB0) blob)) at 2.
      rewrite drop_drop. do 2 f_equal. lia.
Qed.

End Blob.

(** C2: a well-formed blob (bytes; one record per creature of the pokemon
    category; every enum code named; zeros, as in the blank template, in
    the bits the format leaves unspecified) is decoded by
    [unpack_personal], and [pack_personal] of the entries obtained gives
    the same bytes, the two unknown fields included. The registry has no
    repeated name within a category and its learnset tables fit their
    bit buffers. *)
Theorem decode_encode_bytes (CONSTANTS : Constants) (blob : list Z) :
  registry_fits CONSTANTS = true ->
  (forall category, NoDup (CONSTANTS category)) ->
  well_formed CONSTANTS blob = true ->
  exists entries,
    Personal.unpack_personal CONSTANTS blob = OK entries
    /\ Personal.pack_personal CONSTANTS entries = OK blob.
Proof.
  intros Hfits Hunique Hwf. unfold well_formed in Hwf.
  apply andb_true_iff in Hwf as [[Hbytes Hlength%Nat.eqb_eq]%andb_true_iff Hrec].
  rewrite forallb_forall in Hrec.
  assert (Hrecords : forall k, (k < length (CONSTANTS Cat.pokemon))%nat ->
                       record_ok CONSTANTS (drop (k * 0xB0) blob) = true).
  { intros k Hk. apply Hrec, in_seq. lia. }
  destruct (roundtrip_records CONSTANTS blob Hfits Hunique Hbytes Hlength Hrecords
              (length (CONSTANTS Cat.pokemon)) 0 [])
    as (es & Hu & Hp); [lia|done|].
  exists es. split.
  - unfold Personal.unpack_personal, range.
    rewrite Hlength, Nat.div_mul by lia. exact Hu.
  - unfold Personal.pack_personal.
    pose proof (Hp (concat (replicate (length (CONSTANTS Cat.pokemon))
                              Personal.BLANK_PRSNL_ENTRY))) as Hp'.
    change (0 * 0xB0)%nat with 0%nat in Hp'.
    rewrite Hp'.
    + cbn [bind fst]. by rewrite take_0, drop_0.
    + rewrite length_concat_replicate, Hlength. done.
Qed.

Lemma decode_encode_bytes_witness :
  exists entries,
    Personal.unpack_personal Demo.constants Demo.blob = OK entries
    /\ Personal.pack_personal Demo.constants entries = OK Demo.blob.
Proof.
  apply (decode_encode_bytes Demo.constants Demo.blob).
  - vm_compute. reflexivity.
  - intros []; apply (bool_decide_unpack _); vm_compute; exact I.
  - vm_compute. reflexivity.
Defined.

(** ** Where the decoder reads its fields *)

(** Some fields of a decoded entry, in terms of the bytes of its record. *)
Lemma unpack_entry_fields (CONSTANTS : Constants) (buffer : list Z) (offset : nat)
  (e : Personal.Entry) :
  Personal.unpack_entry CONSTANTS buffer offset = OK e ->
  cnstname CONSTANTS Cat.types (int_at buffer (offset + 6) 1)
  = OK (Personal.type_1 e)
  /\ Personal.catch_rate e = int_at buffer (offset + 8) 1
  /\ ([Personal.evs_hp e; Personal.evs_atk e; Personal.evs_def e;
       Personal.evs_spd e; Personal.evs_sp_atk e; Personal.evs_sp_def e],
      Personal.fail_telekinesis e)
     = ev_fields (int_at buffer (offset + 10) 2).
Proof.
  unfold Personal.unpack_entry, Struct.unpack_from.
  destruct (_ <=? _)%nat; [|discriminate]. cbn [bind].
  rewrite unpack_codes_personal, !int_at_drop. cbv iota. intros H.
  inv_bind H. rename Ha into Htype.
  repeat inv_bind H. injection H as <-. entry_simpl. done.
Qed.

Lemma testbit_3_high (n : Z) : 2 <= n -> Z.testbit 3 n = false.
Proof. intros Hn. apply Z.bits_above_log2; [lia|]. change (Z.log2 3) with 1. lia. Qed.

(** The flag the decoder computes from an EV-yield word is set when bit 12
    or bit 13 of the word is. *)
Lemma ev_flag_two_bits (w : Z) :
  snd (ev_fields w) = Z.testbit w 12 || Z.testbit w 13.
Proof.
  unfold ev_fields, Personal.truthy. cbn [snd].
  assert (H0 : Z.testbit (Z.land (Z.shiftr w 12) 3) 0 = Z.testbit w 12)
    by (rewrite Z.land_spec, Z.shiftr_spec by lia; apply andb_true_r).
  assert (H1 : Z.testbit (Z.land (Z.shiftr w 12) 3) 1 = Z.testbit w 13)
    by (rewrite Z.land_spec, Z.shiftr_spec by lia; apply andb_true_r).
  rewrite <- H0, <- H1.
  destruct (Z.eqb_spec (Z.land (Z.shiftr w 12) 3) 0) as [Hz|Hnz]; cbn [negb].
  - by rewrite Hz, !Z.bits_0.
  - symmetry. apply orb_true_iff.
    destruct (Z.testbit (Z.land (Z.shiftr w 12) 3) 0) eqn:E0; [by left|].
    destruct (Z.testbit (Z.land (Z.shiftr w 12) 3) 1) eqn:E1; [by right|].
    exfalso. apply Hnz. apply Z.bits_inj'. intros n Hn. rewrite Z.bits_0.
    destruct (Z.eq_dec n 0) as [->|]; [done|].
    destruct (Z.eq_dec n 1) as [->|]; [done|].
    rewrite Z.land_spec, testbit_3_high by lia. apply andb_false_r.
Qed.

(** C4: the decoder reads [fail_telekinesis] through the two-bit mask
    [& 3] at bit 12, not as the single bit 12 the encoder writes: the flag
    is set when bit 12 or bit 13 is; a record whose EV-yield word is
    0x2000 (bit 13 set, bit 12 clear) decodes to [fail_telekinesis = true],
    and encoding that entry writes 0x1000. *)
Theorem fail_telekinesis_reads_bit_13 :
  (forall w, snd (ev_fields w) = Z.testbit w 12 || Z.testbit w 13)
  /\ int_at Demo.bit_13_record 10 2 = 0x2000
  /\ Z.testbit (int_at Demo.bit_13_record 10 2) 12 = false
  /\ exists e,
       Personal.unpack_entry Demo.constants Demo.bit_13_record 0 = OK e
       /\ Personal.fail_telekinesis e = true
       /\ Personal.pack_ev_yield e = 0x1000.
Proof.
  split; [apply ev_flag_two_bits|].
  split; [reflexivity|]. split; [reflexivity|].
  eexists. split; [vm_compute; reflexivity|]. split; reflexivity.
Qed.

(** C8: [pack_personal] advances its offset by one record per input entry
    and never looks the creature's name up: an input that names only
    "Bulbasaur", creature 1 of the pokemon category, has its record
    written as record 0, and record 1 is left as the blank template. *)
Theorem pack_personal_writes_in_input_order :
  cnstval Demo.constants Cat.pokemon "Bulbasaur" = OK 1
  /\ exists buffer,
       Personal.pack_personal Demo.constants [("Bulbasaur"%string, Demo.bulbasaur)]
       = OK buffer
       /\ length buffer = (length (Demo.constants Cat.pokemon) * 0xB0)%nat
       /\ Personal.unpack_entry Demo.constants buffer 0 = OK Demo.bulbasaur
       /\ record 0xB0 buffer 1 = Personal.BLANK_PRSNL_ENTRY
       /\ record 0xB0 buffer 0 <> Personal.BLANK_PRSNL_ENTRY.
Proof.
  split; [reflexivity|].
  eexists. split; [vm_compute; reflexivity|].
  split; [reflexivity|]. split; [vm_compute; reflexivity|].
  split; [vm_compute; reflexivity|]. vm_compute. discriminate.
Qed.

(** ** The record of zeros with one byte set *)

(** C9, as stated, fails: byte 0x11 is the high byte of the very rare item
    (offsets 0x10 and 0x11), the catch rate is byte 0x08. Whatever the
    registry, the record that is zero but for byte 0x11 = 0xFF never
    decodes to a catch rate of 255; with the sample registry its item
    code 0xFF00 has no name and decoding raises. *)
Lemma byte_0x11_is_not_the_catch_rate :
  (~ exists CONSTANTS e,
       Personal.unpack_entry CONSTANTS Demo.byte_0x11_record 0 = OK e
       /\ Personal.catch_rate e = 255)
  /\ int_at Demo.byte_0x11_record 16 2 = 0xFF00
  /\ Personal.unpack_entry Demo.constants Demo.byte_0x11_record 0
     = Raise IndexError.
Proof.
  split; [|split; [reflexivity|vm_compute; reflexivity]].
  intros (CONSTANTS & e & Hu & Hc).
  apply unpack_entry_fields in Hu as (_ & Hcatch & _).
  rewrite Hcatch in Hc. vm_compute in Hc. discriminate.
Qed.

Lemma spare_clear_zeros (master : list string) (size : nat) :
  spare_clear master (replicate size 0) = true.
Proof.
  unfold spare_clear. apply forallb_forall. intros j _.
  by rewrite bit_of_replicate_0.
Qed.

Lemma record_ok_byte_0x08 (CONSTANTS : Constants) :
  names_code_0 CONSTANTS = true ->
  record_ok CONSTANTS (drop 0 Demo.byte_0x08_record) = true.
Proof.
  intros Hn. unfold names_code_0 in Hn. split_valid Hn.
  rewrite drop_0. unfold record_ok.
  repeat match goal with
         | |- context [int_at Demo.byte_0x08_record ?k ?n] =>
             let v := eval vm_compute in (int_at Demo.byte_0x08_record k n) in
             change (int_at Demo.byte_0x08_record k n) with v
         end.
  change (bytes_at Demo.byte_0x08_record 40 16) with (replicate 16 0).
  change (bytes_at Demo.byte_0x08_record 60 16) with (replicate 16 0).
  change (bytes_at Demo.byte_0x08_record 56 4) with (replicate 4 0).
  change (bytes_at Demo.byte_0x08_record 168 4) with (replicate 4 0).
  rewrite !spare_clear_zeros. change (Z.land 0 63) with 0.
  repeat match goal with
         | H : has_name _ _ 0 = true |- _ => rewrite H; clear H
         end.
  reflexivity.
Qed.

(** C9, amended: the record that is zero but for byte 0x08 = 0xFF decodes
    to an entry whose [type_1] is the first name of the types category,
    whose [catch_rate] is 255, whose six EV sub-fields are 0 and whose
    [fail_telekinesis] is false; encoding that entry over the blank
    template gives the same 176 bytes back: [pack_into] writes every byte
    of a record, so nothing of the template is left in it. (The registry
    has a name for code 0 in every category the record refers to, no
    repeated name, and learnset tables that fit.) *)
Theorem byte_0x08_record_roundtrip (CONSTANTS : Constants) (name : string) :
  registry_fits CONSTANTS = true ->
  (forall category, NoDup (CONSTANTS category)) ->
  names_code_0 CONSTANTS = true ->
  exists e,
    Personal.unpack_entry CONSTANTS Demo.byte_0x08_record 0 = OK e
    /\ head (CONSTANTS Cat.types) = Some (Personal.type_1 e)
    /\ Personal.catch_rate e = 255
    /\ [Personal.evs_hp e; Personal.evs_atk e; Personal.evs_def e;
        Personal.evs_spd e; Personal.evs_sp_atk e; Personal.evs_sp_def e]
       = [0; 0; 0; 0; 0; 0]
    /\ Personal.fail_telekinesis e = false
    /\ Personal.pack_entry CONSTANTS (name, e) (Personal.BLANK_PRSNL_ENTRY, 0%nat)
       = OK (Demo.byte_0x08_record, 0xB0%nat).
Proof.
  intros Hfits Hunique Hnames.
  destruct (repack_entry CONSTANTS Demo.byte_0x08_record 0 Hfits Hunique)
    as (e & Hu & Hp);
    [reflexivity|vm_compute; lia|by apply record_ok_byte_0x08|].
  exists e. split; [done|].
  destruct (unpack_entry_fields _ _ _ _ Hu) as (Htype & Hcatch & Hev).
  change (int_at Demo.byte_0x08_record (0 + 6) 1) with 0 in Htype.
  change (int_at Demo.byte_0x08_record (0 + 8) 1) with 255 in Hcatch.
  change (ev_fields (int_at Demo.byte_0x08_record (0 + 10) 2))
    with ([0; 0; 0; 0; 0; 0], false) in Hev.
  injection Hev as -> -> -> -> -> -> ->.
  split.
  { unfold cnstname in Htype. apply py_getitem_OK_nonneg in Htype; [|done].
    by rewrite head_lookup. }
  split; [done|]. split; [done|]. split; [done|].
  unfold Personal.pack_entry. rewrite Hp. cbn [bind].
  unfold Struct.pack_into.
  change (0 + Struct.calcsize Personal.PERSONAL_ENTRY_STRUCT
          <=? length Personal.BLANK_PRSNL_ENTRY)%nat with true.
  rewrite pack_unpack_codes; [|reflexivity|reflexivity|vm_compute; lia].
  cbn [bind]. vm_compute. reflexivity.
Qed.

Lemma byte_0x08_record_roundtrip_witness :
  exists e,
    Personal.unpack_entry Demo.constants Demo.byte_0x08_record 0 = OK e
    /\ head (Demo.constants Cat.types) = Some (Personal.type_1 e)
    /\ Personal.catch_rate e = 255
    /\ [Personal.evs_hp e; Personal.evs_atk e; Personal.evs_def e;
        Personal.evs_spd e; Personal.evs_sp_atk e; Personal.evs_sp_def e]
       = [0; 0; 0; 0; 0; 0]
    /\ Personal.fail_telekinesis e = false
    /\ Personal.pack_entry Demo.constants ("Egg"%string, e)
         (Personal.BLANK_PRSNL_ENTRY, 0%nat)
       = OK (Demo.byte_0x08_record, 0xB0%nat).
Proof.
  apply (byte_0x08_record_roundtrip Demo.constants "Egg").
  - vm_compute. reflexivity.
  - intros []; apply (bool_decide_unpack _); vm_compute; exact I.
  - vm_compute. reflexivity.
Defined.

(** * Further properties of the code *)

(** ** The registry: what the two lookups do to each other *)

Lemma list_index_first (l : list string) (x : string) (j i : nat) :
  list_index l x = Some j -> l !! i = Some x -> (j <= i)%nat.
Proof.
  revert j i; induction l as [|y l IH]; intros j i; cbn [list_index];
    [discriminate|].
  destruct (decide (x = y)) as [->|Hne].
  - intros [= <-] _. lia.
  - destruct (list_index l x) as [j'|] eqn:Hj; cbn; [|discriminate].
    intros [= <-]. destruct i as [|i]; cbn.
    + intros [= ->]. done.
    + intros Hi. specialize (IH j' i eq_refl Hi). lia.
Qed.

(** X1: [cnstname] undoes [cnstval] for every name that is present; [cnstval]
    of the name at an index gives the first index that carries the name,
    which is the index itself when the category repeats no name. *)
Theorem registry_lookups_compose (CONSTANTS : Constants) (category : Cat.category) :
  (forall cname i,
     cnstval CONSTANTS category cname = OK i ->
     cnstname CONSTANTS category i = OK cname)
  /\ (forall i cname,
        0 <= i -> cnstname CONSTANTS category i = OK cname ->
        exists j, cnstval CONSTANTS category cname = OK j
                  /\ 0 <= j <= i
                  /\ cnstname CONSTANTS category j = OK cname
                  /\ (NoDup (CONSTANTS category) -> j = i)).
Proof.
  split; [intros cname i; apply cnstname_cnstval|].
  intros i cname Hi Hn. unfold cnstname in Hn.
  apply py_getitem_OK_nonneg in Hn; [|done].
  destruct (list_index_elem_of (CONSTANTS category) cname) as [j Hj].
  { apply list_elem_of_lookup. eauto. }
  exists (Z.of_nat j).
  assert (Hv : cnstval CONSTANTS category cname = OK (Z.of_nat j))
    by (unfold cnstval; by rewrite Hj).
  pose proof (list_index_first _ _ _ _ Hj Hn) as Hle.
  split; [done|]. split; [lia|]. split; [by apply cnstname_cnstval|].
  intros Hnd. rewrite (list_index_NoDup _ _ _ Hnd Hn) in Hj.
  injection Hj as <-. lia.
Qed.

Lemma registry_lookups_compose_witness :
  cnstname Demo.constants Cat.moves 2 = OK "Karate Chop"%string
  /\ exists j, cnstval Demo.constants Cat.moves "Karate Chop" = OK j /\ j = 2.
Proof.
  destruct (registry_lookups_compose Demo.constants Cat.moves) as [_ H].
  split; [reflexivity|].
  destruct (H 2 "Karate Chop"%string) as (j & Hj & _ & _ & Heq);
    [lia|reflexivity|].
  exists j. split; [exact Hj|]. apply Heq.
  apply (bool_decide_unpack _). vm_compute. exact I.
Defined.

(** X2: A negative index is not refused by [cnstname]: from [-len] on it
    counts from the end of the category, as Python's lists do. *)
Theorem cnstname_negative_index (CONSTANTS : Constants) (category : Cat.category)
  (cval : Z) :
  - Z.of_nat (length (CONSTANTS category)) <= cval < 0 ->
  cnstname CONSTANTS category cval
  = cnstname CONSTANTS category (cval + Z.of_nat (length (CONSTANTS category)))
  /\ exists cname, cnstname CONSTANTS category cval = OK cname.
Proof.
  intros Hc.
  assert (Heq : cnstname CONSTANTS category cval
                = cnstname CONSTANTS category
                    (cval + Z.of_nat (length (CONSTANTS category)))).
  { unfold cnstname.
    rewrite (py_getitem_nonneg _ (cval + _)) by lia.
    unfold py_getitem. cbv zeta.
    destruct (Z.ltb_spec cval 0); [|lia].
    destruct (Z.ltb_spec (cval + Z.of_nat (length (CONSTANTS category))) 0);
      [lia|done]. }
  split; [done|]. rewrite Heq.
  destruct (cnstname_in_range CONSTANTS category
              (cval + Z.of_nat (length (CONSTANTS category)))) as (n & Hn & _);
    [lia|eauto].
Qed.

Lemma cnstname_negative_index_witness :
  cnstname Demo.constants Cat.genders (-1) = OK "Genderless"%string.
Proof.
  destruct (cnstname_negative_index Demo.constants Cat.genders (-1)) as [H _].
  - vm_compute. split; [discriminate|reflexivity].
  - rewrite H. reflexivity.
Defined.

(** ** The EV-yield word: values out of range are masked *)

(** X3: Whatever integers an entry holds in its six EV fields, [pack_personal]
    keeps their two low bits only: the word stays below [2^13], no field
    spills into its neighbour, and decoding gives each value [& 3]. *)
Theorem ev_yield_masks (e : Personal.Entry) :
  0 <= Personal.pack_ev_yield e < 8192
  /\ ev_fields (Personal.pack_ev_yield e)
     = ([Z.land (Personal.evs_hp e) 3; Z.land (Personal.evs_atk e) 3;
         Z.land (Personal.evs_def e) 3; Z.land (Personal.evs_spd e) 3;
         Z.land (Personal.evs_sp_atk e) 3; Z.land (Personal.evs_sp_def e) 3],
        Personal.fail_telekinesis e).
Proof.
  rewrite pack_ev_yield_ev_word. apply ev_fields_ev_word; apply land_3_upto.
Qed.

(** ** Writing a record leaves the rest of the buffer alone *)

Lemma pack_int_length (n : nat) (z : Z) (bs : list Z) :
  Struct.pack_int n z = OK bs -> length bs = n.
Proof.
  unfold Struct.pack_int. destruct (_ && _); [|discriminate].
  intros [= <-]. apply length_to_bytes.
Qed.

Lemma pack_value_length (c : Struct.code) (v : Struct.value) (out : list Z) :
  Struct.pack_value c v = OK out -> length out = Struct.size c.
Proof.
  destruct c, v; cbn [Struct.pack_value Struct.size]; try discriminate;
    try apply pack_int_length.
  - intros [= <-]. unfold Struct.pack_bytes.
    rewrite length_app, length_take, length_replicate. lia.
  - by intros [= <-].
Qed.

Lemma pack_length (codes : list Struct.code) (vals : list Struct.value)
  (bs : list Z) :
  Struct.pack codes vals = OK bs -> length bs = Struct.calcsize codes.
Proof.
  revert vals bs; induction codes as [|c cs IH]; intros vals bs.
  - destruct vals; cbn; [by intros [= <-]|discriminate].
  - assert (Hx : c = Struct.fx \/ c <> Struct.fx) by (destruct c; auto).
    destruct Hx as [->|Hc].
    + cbn [Struct.pack]. intros H. inv_bind H. injection H as <-.
      cbn. by rewrite (IH _ _ Ha).
    + destruct vals as [|v vs]; [destruct c; done|].
      rewrite pack_cons by done. intros H. inv_bind H. inv_bind H.
      injection H as <-. rewrite length_app. cbn.
      by rewrite (pack_value_length _ _ _ Ha), (IH _ _ Ha0).
Qed.

Lemma pack_into_frame (codes : list Struct.code) (buffer : list Z) (offset : nat)
  (vals : list Struct.value) (buffer' : list Z) :
  Struct.pack_into codes buffer offset vals = OK buffer' ->
  length buffer' = length buffer
  /\ forall p, (p < offset \/ offset + Struct.calcsize codes <= p)%nat ->
               buffer' !! p = buffer !! p.
Proof.
  unfold Struct.pack_into. destruct (_ <=? _)%nat; [|discriminate].
  intros H. inv_bind H. injection H as <-.
  split; [apply length_inserts|]. intros p [Hp|Hp].
  - by apply list_lookup_inserts_lt.
  - apply list_lookup_inserts_ge. rewrite (pack_length _ _ _ Ha). lia.
Qed.

(** X4: When [pack_personal] writes an entry, whatever the entry, the buffer
    keeps its length, the offset moves by one record, and no byte outside
    the 0xB0 bytes of the record is changed. *)
Theorem pack_entry_frame (CONSTANTS : Constants) (item : string * Personal.Entry)
  (buffer buffer' : list Z) (offset offset' : nat) :
  Personal.pack_entry CONSTANTS item (buffer, offset) = OK (buffer', offset') ->
  offset' = (offset + 0xB0)%nat
  /\ (offset + 0xB0 <= length buffer)%nat
  /\ length buffer' = length buffer
  /\ forall p, (p < offset \/ offset + 0xB0 <= p)%nat -> buffer' !! p = buffer !! p.
Proof.
  destruct item as [name e]. unfold Personal.pack_entry. intros H.
  inv_bind H. inv_bind H. injection H as <- <-.
  split; [done|].
  assert (Hfit : (offset + 0xB0 <= length buffer)%nat).
  { unfold Struct.pack_into in Ha0. rewrite calcsize_personal in Ha0.
    destruct (Nat.leb_spec (offset + 0xB0) (length buffer)); [done|discriminate]. }
  split; [done|].
  destruct (pack_into_frame _ _ _ _ _ Ha0) as [Hl Hf].
  rewrite calcsize_personal in Hf. done.
Qed.

Lemma pack_entry_frame_witness :
  exists buffer',
    Personal.pack_entry Demo.constants ("Egg"%string, Demo.bulbasaur)
      (Demo.blob, 0xB0%nat) = OK (buffer', (0xB0 + 0xB0)%nat)
    /\ length buffer' = length Demo.blob
    /\ forall p, (p < 0xB0 \/ 0xB0 + 0xB0 <= p)%nat -> buffer' !! p = Demo.blob !! p.
Proof.
  destruct (Personal.pack_entry Demo.constants ("Egg"%string, Demo.bulbasaur)
              (Demo.blob, 0xB0%nat)) as [[buffer' offset']|] eqn:H;
    [|vm_compute in H; discriminate].
  destruct (pack_entry_frame _ _ _ _ _ _ H) as (-> & _ & Hl & Hf).
  exists buffer'. split; [reflexivity|]. split; [exact Hl|exact Hf].
Defined.

(** ** [pack_personal]: where the records go *)

Lemma record_bytes_spec (CONSTANTS : Constants) (e : Personal.Entry) :
  registry_fits CONSTANTS = true -> valid_entry CONSTANTS e = true ->
  Struct.pack Personal.PERSONAL_ENTRY_STRUCT (entry_values CONSTANTS e)
  = OK (record_bytes CONSTANTS e)
  /\ length (record_bytes CONSTANTS e) = 0xB0%nat
  /\ forall rest,
       Struct.unpack_codes Personal.PERSONAL_ENTRY_STRUCT
         (record_bytes CONSTANTS e ++ rest) = entry_values CONSTANTS e.
Proof.
  intros Hr Hv. unfold record_bytes.
  destruct (pack_all_fit _ _ (all_fit_entry_values CONSTANTS e Hr Hv))
    as (bytes & -> & Hl & Hu).
  by rewrite <- calcsize_personal.
Qed.

Lemma pack_entry_record_bytes (CONSTANTS : Constants) (name : string)
  (e : Personal.Entry) (buffer : list Z) (offset : nat) :
  registry_fits CONSTANTS = true -> valid_entry CONSTANTS e = true ->
  Personal.pack_entry CONSTANTS (name, e) (buffer, offset)
  = if (offset + 0xB0 <=? length buffer)%nat
    then OK (list_inserts offset (record_bytes CONSTANTS e) buffer,
             (offset + 0xB0)%nat)
    else Raise StructError.
Proof.
  intros Hr Hv. destruct (record_bytes_spec _ _ Hr Hv) as (Hp & _ & _).
  unfold Personal.pack_entry. rewrite pack_values_valid by done. cbn [bind].
  unfold Struct.pack_into. rewrite calcsize_personal, Hp.
  by destruct (_ <=? _)%nat.
Qed.

Lemma length_concat_record_bytes (CONSTANTS : Constants) (es : dict Personal.Entry) :
  registry_fits CONSTANTS = true -> valid_entries CONSTANTS es = true ->
  length (concat (map (fun item => record_bytes CONSTANTS (snd item)) es))
  = (length es * 0xB0)%nat.
Proof.
  intros Hr. induction es as [|[name e] es IH]; intros Hv; [done|].
  cbn [valid_entries forallb snd] in Hv. apply andb_true_iff in Hv as [Hv1 Hv2].
  cbn [map concat length snd]. rewrite length_app, IH by done.
  destruct (record_bytes_spec _ _ Hr Hv1) as (_ & -> & _). lia.
Qed.

(** Valid entries are written one after the other from the offset of
    record [a]. *)
Lemma pack_entries_valid (CONSTANTS : Constants) (es : dict Personal.Entry)
  (buffer : list Z) (a : nat) :
  registry_fits CONSTANTS = true -> valid_entries CONSTANTS es = true ->
  ((a + length es) * 0xB0 <= length buffer)%nat ->
  for_each es (buffer, (a * 0xB0)%nat) (Personal.pack_entry CONSTANTS)
  = OK (list_inserts (a * 0xB0)
          (concat (map (fun item => record_bytes CONSTANTS (snd item)) es)) buffer,
        ((a + length es) * 0xB0)%nat).
Proof.
  intros Hr. revert buffer a; induction es as [|[name e] es IH];
    intros buffer a Hv Hl.
  - cbn. do 2 f_equal. lia.
  - cbn [valid_entries forallb snd] in Hv. apply andb_true_iff in Hv as [Hv1 Hv2].
    cbn [length] in Hl. cbn [for_each].
    rewrite pack_entry_record_bytes by done.
    destruct (Nat.leb_spec (a * 0xB0 + 0xB0) (length buffer)); [|lia].
    cbn [bind].
    replace (a * 0xB0 + 0xB0)%nat with (S a * 0xB0)%nat by lia.
    rewrite IH by (rewrite ?length_inserts; done || lia).
    cbn [map concat snd length]. rewrite list_inserts_app_l.
    destruct (record_bytes_spec _ _ Hr Hv1) as (_ & -> & _).
    replace ((a + S (length es)) * 0xB0)%nat with ((S a + length es) * 0xB0)%nat by lia.
    reflexivity.
Qed.

Lemma record_concat_replicate {A : Type} (n k : nat) (l : list A) :
  (k < n)%nat ->
  take (length l) (drop (k * length l) (concat (replicate n l))) = l.
Proof.
  revert k; induction n as [|n IH]; intros k Hk; [lia|].
  cbn [replicate concat]. destruct k as [|k].
  - cbn [Nat.mul]. rewrite drop_0. by rewrite take_app_length.
  - replace (S k * length l)%nat with (length l + k * length l)%nat by lia.
    rewrite <- drop_drop, drop_app_length. apply IH. lia.
Qed.

Lemma valid_entries_lookup (CONSTANTS : Constants) (es : dict Personal.Entry)
  (j : nat) (name : string) (e : Personal.Entry) :
  valid_entries CONSTANTS es = true -> es !! j = Some (name, e) ->
  valid_entry CONSTANTS e = true.
Proof.
  unfold valid_entries. rewrite forallb_forall. intros H Hj.
  apply (H (name, e)), list_elem_of_In, list_elem_of_lookup. eauto.
Qed.

Lemma valid_entries_take (CONSTANTS : Constants) (es : dict Personal.Entry) (n : nat) :
  valid_entries CONSTANTS es = true -> valid_entries CONSTANTS (take n es) = true.
Proof.
  unfold valid_entries. rewrite !forallb_forall. intros H item Hi.
  apply H. apply list_elem_of_In. apply list_elem_of_In in Hi.
  by apply (subseteq_take n es).
Qed.

(** The buffer [pack_personal] returns for valid entries: their records
    one after the other, then what is left of the blank records. *)
Lemma pack_personal_image (CONSTANTS : Constants) (entries : dict Personal.Entry) :
  registry_fits CONSTANTS = true -> valid_entries CONSTANTS entries = true ->
  (length entries <= length (CONSTANTS Cat.pokemon))%nat ->
  Personal.pack_personal CONSTANTS entries
  = OK (concat (map (fun item => record_bytes CONSTANTS (snd item)) entries)
        ++ drop (length entries * 0xB0)
             (concat (replicate (length (CONSTANTS Cat.pokemon))
                        Personal.BLANK_PRSNL_ENTRY))).
Proof.
  intros Hr Hv Hlen. unfold Personal.pack_personal.
  set (blank := concat (replicate (length (CONSTANTS Cat.pokemon))
                          Personal.BLANK_PRSNL_ENTRY)).
  assert (Hbl : length blank = (length (CONSTANTS Cat.pokemon) * 0xB0)%nat)
    by (unfold blank; by rewrite length_concat_replicate).
  pose proof (length_concat_record_bytes _ _ Hr Hv) as Himg.
  pose proof (pack_entries_valid CONSTANTS entries blank 0 Hr Hv) as Hp.
  change (0 * 0xB0)%nat with 0%nat in Hp. rewrite Nat.add_0_l in Hp.
  rewrite Hp by lia. cbn [bind fst]. f_equal.
  rewrite list_inserts_take_drop by lia.
  by rewrite take_0, Nat.add_0_l, Himg.
Qed.

(** Record [j] of the records of valid entries decodes to entry [j]. *)
Lemma unpack_entry_image (CONSTANTS : Constants) (entries : dict Personal.Entry)
  (rest : list Z) (j : nat) (name : string) (e : Personal.Entry) :
  registry_fits CONSTANTS = true -> valid_entries CONSTANTS entries = true ->
  entries !! j = Some (name, e) ->
  Personal.unpack_entry CONSTANTS
    (concat (map (fun item => record_bytes CONSTANTS (snd item)) entries) ++ rest)
    (j * 0xB0)
  = OK (normalize CONSTANTS e).
Proof.
  intros Hr Hv Hj.
  pose proof (length_concat_record_bytes _ _ Hr Hv) as Himg.
  pose proof (valid_entries_lookup _ _ _ _ _ Hv Hj) as Hve.
  pose proof (lookup_lt_Some _ _ _ Hj) as Hjl.
  apply unpack_entry_values; try done.
  - rewrite length_app, Himg. lia.
  - rewrite <- (take_drop_middle _ _ _ Hj) at 1.
    rewrite map_app, concat_app. cbn [map concat snd].
    rewrite <- !app_assoc, drop_app_length'.
    + apply record_bytes_spec; done.
    + rewrite length_concat_record_bytes by (done || by apply valid_entries_take).
      rewrite length_take. lia.
Qed.

(** X5: [pack_personal] writes the entries in the order of the input, entry
    [j] as record [j], whatever the creatures are called; the records
    after the last entry keep the blank template; the buffer always has
    one record per creature of the pokemon category. *)
Theorem pack_personal_layout (CONSTANTS : Constants) (entries : dict Personal.Entry) :
  registry_fits CONSTANTS = true -> valid_entries CONSTANTS entries = true ->
  (length entries <= length (CONSTANTS Cat.pokemon))%nat ->
  exists buffer,
    Personal.pack_personal CONSTANTS entries = OK buffer
    /\ length buffer = (length (CONSTANTS Cat.pokemon) * 0xB0)%nat
    /\ (forall j name e,
          entries !! j = Some (name, e) ->
          Personal.unpack_entry CONSTANTS buffer (j * 0xB0) = OK (normalize CONSTANTS e))
    /\ (forall k,
          (length entries <= k < length (CONSTANTS Cat.pokemon))%nat ->
          record 0xB0 buffer k = Personal.BLANK_PRSNL_ENTRY).
Proof.
  intros Hr Hv Hlen.
  pose proof (length_concat_record_bytes _ _ Hr Hv) as Himg.
  eexists. split; [by apply pack_personal_image|].
  split; [|split].
  - rewrite length_app, Himg, length_drop, length_concat_replicate.
    change (length Personal.BLANK_PRSNL_ENTRY) with 0xB0%nat. nia.
  - intros j name e Hj. by eapply unpack_entry_image.
  - intros k Hk. unfold record.
    rewrite drop_app_ge by lia. rewrite drop_drop, Himg.
    replace (length entries * 0xB0 + (k * 0xB0 - length entries * 0xB0))%nat
      with (k * 0xB0)%nat by lia.
    apply (record_concat_replicate _ k Personal.BLANK_PRSNL_ENTRY). lia.
Qed.

Lemma pack_personal_layout_witness :
  exists buffer,
    Personal.pack_personal Demo.constants
      [("Ivysaur"%string, Demo.bulbasaur); ("Egg"%string, Demo.creature "Normal")]
    = OK buffer
    /\ Personal.unpack_entry Demo.constants buffer 0 = OK Demo.bulbasaur
    /\ record 0xB0 buffer 2 = Personal.BLANK_PRSNL_ENTRY.
Proof.
  destruct (pack_personal_layout Demo.constants
              [("Ivysaur"%string, Demo.bulbasaur);
               ("Egg"%string, Demo.creature "Normal")])
    as (buffer & Hp & _ & Hdec & Hblank).
  - vm_compute. reflexivity.
  - vm_compute. reflexivity.
  - vm_compute. lia.
  - exists buffer. split; [exact Hp|]. split.
    + pose proof (Hdec 0%nat "Ivysaur"%string Demo.bulbasaur eq_refl) as H0.
      change (0 * 0xB0)%nat with 0%nat in H0. rewrite H0.
      vm_compute. reflexivity.
    + apply Hblank. vm_compute. lia.
Defined.

(** X6: With more valid entries than the pokemon category has names,
    [pack_personal] raises [struct.error]: the first entry past the end
    does not fit the buffer, and nothing is returned. *)
Theorem pack_personal_overflow (CONSTANTS : Constants) (entries : dict Personal.Entry) :
  registry_fits CONSTANTS = true -> valid_entries CONSTANTS entries = true ->
  (length (CONSTANTS Cat.pokemon) < length entries)%nat ->
  Personal.pack_personal CONSTANTS entries = Raise StructError.
Proof.
  intros Hr Hv Hlen. unfold Personal.pack_personal.
  set (blank := concat (replicate (length (CONSTANTS Cat.pokemon))
                          Personal.BLANK_PRSNL_ENTRY)).
  assert (Hbl : length blank = (length (CONSTANTS Cat.pokemon) * 0xB0)%nat)
    by (unfold blank; by rewrite length_concat_replicate).
  destruct (lookup_lt_is_Some_2 entries (length (CONSTANTS Cat.pokemon)) Hlen)
    as [[name e] Hover].
  rewrite <- (take_drop_middle _ _ _ Hover), for_each_app.
  pose proof (pack_entries_valid CONSTANTS
                (take (length (CONSTANTS Cat.pokemon)) entries) blank 0 Hr
                (valid_entries_take _ _ _ Hv)) as Hp.
  change (0 * 0xB0)%nat with 0%nat in Hp.
  rewrite Hp by (rewrite length_take; lia). cbn [bind for_each].
  rewrite pack_entry_record_bytes by (done || by eapply valid_entries_lookup).
  rewrite length_inserts, length_take, Hbl.
  destruct (Nat.leb_spec
              ((0 + length (CONSTANTS Cat.pokemon) `min` length entries) * 0xB0 + 0xB0)
              (length (CONSTANTS Cat.pokemon) * 0xB0)); [lia|done].
Qed.

Lemma pack_personal_overflow_witness :
  Personal.pack_personal Demo.constants
    (replicate 4 ("Egg"%string, Demo.bulbasaur)) = Raise StructError.
Proof.
  apply pack_personal_overflow.
  - vm_compute. reflexivity.
  - vm_compute. reflexivity.
  - vm_compute. lia.
Defined.

(** ** [unpack_personal]: the file as a whole *)

Lemma bind_Raise {A B : Type} (m : result A) (k : A -> result B) (e : exn) :
  (let* x := m in k x) = Raise e ->
  m = Raise e \/ exists a, m = OK a /\ k a = Raise e.
Proof. destruct m as [a|e']; cbn [bind]; [eauto|]. intros [= ->]. by left. Qed.

Lemma for_each_ext_in {A S : Type} (l : list A) (s : S)
  (f g : A -> S -> result S) :
  (forall a s', a ∈ l -> f a s' = g a s') -> for_each l s f = for_each l s g.
Proof.
  revert s; induction l as [|a l IH]; intros s H; [done|].
  cbn [for_each]. rewrite H by apply list_elem_of_here.
  destruct (g a s); cbn [bind]; [|done].
  apply IH. intros a' s' Ha'. apply H. by apply list_elem_of_further.
Qed.

(** A loop raises what one of its turns raises. *)
Lemma for_each_Raise {A S : Type} (l : list A) (s : S)
  (body : A -> S -> result S) (e : exn) :
  for_each l s body = Raise e ->
  exists a s', a ∈ l /\ body a s' = Raise e.
Proof.
  revert s; induction l as [|a l IH]; intros s; cbn [for_each]; [discriminate|].
  intros [H|(s' & _ & H)]%bind_Raise.
  - exists a, s. split; [apply list_elem_of_here|done].
  - destruct (IH _ H) as (a' & s'' & Ha' & Hb).
    exists a', s''. split; [by apply list_elem_of_further|done].
Qed.

(** A loop that returns has returned from every turn. *)
Lemma for_each_OK {A S : Type} (l : list A) (s s' : S)
  (body : A -> S -> result S) (a : A) :
  for_each l s body = OK s' -> a ∈ l ->
  exists s1 s2, body a s1 = OK s2.
Proof.
  revert s; induction l as [|a' l IH]; intros s H Ha.
  - by apply elem_of_nil in Ha.
  - cbn [for_each] in H. inv_bind H.
    apply elem_of_cons in Ha as [->|Ha]; [eauto|]. by eapply IH.
Qed.

Lemma cnstname_error (CONSTANTS : Constants) (category : Cat.category) (cval : Z)
  (e : exn) :
  cnstname CONSTANTS category cval = Raise e -> e = IndexError.
Proof. apply py_getitem_error. Qed.

Lemma parse_learnset_bits_error (CONSTANTS : Constants) (consts_name : Cat.category)
  (bits : list Z) (e : exn) :
  Personal.parse_learnset_bits CONSTANTS consts_name bits = Raise e ->
  e = IndexError.
Proof.
  unfold Personal.parse_learnset_bits.
  intros (item & learnset & _ & H)%for_each_Raise.
  destruct item as [index move]. unfold Personal.parse_bit in H.
  apply bind_Raise in H as [H|(b & _ & H)]; [by apply py_getitem_error in H|].
  by destruct (Personal.truthy _).
Qed.

(** [unpack_codes] reads the first [calcsize] bytes only. *)
Lemma unpack_codes_app (codes : list Struct.code) (bs rest : list Z) :
  (Struct.calcsize codes <= length bs)%nat ->
  Struct.unpack_codes codes (bs ++ rest) = Struct.unpack_codes codes bs.
Proof.
  revert bs; induction codes as [|c cs IH]; intros bs Hl; [done|].
  cbn [Struct.calcsize] in Hl. cbn [Struct.unpack_codes].
  assert (Hc : (Struct.size c <= length bs)%nat) by lia.
  rewrite (drop_app_le bs rest) by done.
  rewrite IH by (rewrite length_drop; lia).
  destruct c; cbn [Struct.size] in Hc |- *;
    rewrite ?(take_app_le bs rest) by done; reflexivity.
Qed.

Lemma unpack_from_take (codes : list Struct.code) (buffer : list Z)
  (offset n : nat) :
  (offset + Struct.calcsize codes <= n)%nat -> (n <= length buffer)%nat ->
  Struct.unpack_from codes (take n buffer) offset
  = Struct.unpack_from codes buffer offset.
Proof.
  intros Ho Hn. rewrite !unpack_from_OK by (rewrite ?length_take; lia).
  rewrite <- (take_drop n buffer) at 2.
  rewrite drop_app_le by (rewrite length_take; lia).
  rewrite unpack_codes_app; [done|]. rewrite length_drop, length_take. lia.
Qed.

Lemma unpack_entry_take (CONSTANTS : Constants) (buffer : list Z) (offset n : nat) :
  (offset + 0xB0 <= n)%nat -> (n <= length buffer)%nat ->
  Personal.unpack_entry CONSTANTS (take n buffer) offset
  = Personal.unpack_entry CONSTANTS buffer offset.
Proof.
  intros Ho Hn. unfold Personal.unpack_entry.
  by rewrite unpack_from_take by (rewrite ?calcsize_personal; lia).
Qed.

Lemma records_bound (size len i : nat) :
  (0 < size)%nat -> (i < len / size)%nat -> (i * size + size <= len)%nat.
Proof.
  intros Hs Hi. pose proof (Nat.Div0.mul_div_le len size). nia.
Qed.

Lemma unpack_entry_error (CONSTANTS : Constants) (buffer : list Z) (offset : nat)
  (e : exn) :
  (offset + 0xB0 <= length buffer)%nat ->
  Personal.unpack_entry CONSTANTS buffer offset = Raise e -> e = IndexError.
Proof.
  intros Hl. unfold Personal.unpack_entry.
  rewrite unpack_from_OK by (rewrite calcsize_personal; lia). cbn [bind].
  rewrite unpack_codes_personal. cbv iota. intros H.
  repeat (apply bind_Raise in H as [H|(? & _ & H)];
          [by first [apply cnstname_error in H
                    | apply parse_learnset_bits_error in H]|]).
  discriminate.
Qed.

(** One turn of the loop of [unpack_personal]. *)
Lemma unpack_personal_turn_error (CONSTANTS : Constants) (buffer : list Z)
  (i : nat) (entries : dict Personal.Entry) (e : exn) :
  (i * 0xB0 + 0xB0 <= length buffer)%nat ->
  (let* entry := Personal.unpack_entry CONSTANTS buffer (i * 0xB0)%nat in
   let* name := cnstname CONSTANTS Cat.pokemon (Z.of_nat i) in
   OK (dict_set entries name entry)) = Raise e ->
  e = IndexError.
Proof.
  intros Hl [H|(entry & _ & H)]%bind_Raise; [by eapply unpack_entry_error|].
  apply bind_Raise in H as [H|(name & _ & H)]; [by eapply cnstname_error|done].
Qed.

(** X7: The only exception of [unpack_personal] is [IndexError], for a code or
    a record number without a name in the registry: it reads whole records
    only, so [struct.error] cannot occur, whatever the bytes are. A file
    with more whole records than the pokemon category has names always
    raises it. *)
Theorem unpack_personal_raises_only_IndexError (CONSTANTS : Constants)
  (buffer : list Z) :
  ((exists entries, Personal.unpack_personal CONSTANTS buffer = OK entries)
   \/ Personal.unpack_personal CONSTANTS buffer = Raise IndexError)
  /\ ((length (CONSTANTS Cat.pokemon) < length buffer / 0xB0)%nat ->
      Personal.unpack_personal CONSTANTS buffer = Raise IndexError).
Proof.
  assert (Herr : forall e, Personal.unpack_personal CONSTANTS buffer = Raise e ->
                           e = IndexError).
  { intros e H. unfold Personal.unpack_personal in H.
    apply for_each_Raise in H as (i & entries & Hi & H).
    apply elem_of_seq in Hi.
    eapply unpack_personal_turn_error; [|exact H].
    apply records_bound; lia. }
  destruct (Personal.unpack_personal CONSTANTS buffer) as [entries|e] eqn:H.
  - split; [eauto|]. intros Hn. unfold Personal.unpack_personal in H.
    destruct (for_each_OK _ _ _ _ (length (CONSTANTS Cat.pokemon)) H)
      as (s1 & s2 & Hb).
    { apply elem_of_seq. lia. }
    apply bind_OK in Hb as (entry & _ & Hb).
    apply bind_OK in Hb as (name & Hname & _).
    unfold cnstname in Hname.
    rewrite py_getitem_out_of_range in Hname by lia. discriminate.
  - rewrite (Herr e eq_refl). split; [by right|done].
Qed.

(** X8: [unpack_personal] decodes the whole records of the file: the bytes
    after the last whole record of 0xB0 bytes are ignored. *)
Theorem unpack_personal_ignores_partial_record (CONSTANTS : Constants)
  (buffer : list Z) :
  Personal.unpack_personal CONSTANTS buffer
  = Personal.unpack_personal CONSTANTS
      (take (length buffer / 0xB0 * 0xB0) buffer).
Proof.
  unfold Personal.unpack_personal.
  pose proof (Nat.Div0.mul_div_le (length buffer) 0xB0) as Hle.
  rewrite length_take, Nat.min_l by lia. rewrite Nat.div_mul by lia.
  apply for_each_ext_in. intros i entries Hi. apply elem_of_seq in Hi.
  rewrite unpack_entry_take; [done| |lia].
  assert (S i <= length buffer / 0xB0)%nat by lia. nia.
Qed.

(** The loop of [unpack_personal] and [unpack_wazaoboe] over a category
    without repeated names: the keys are the names in order, the value of
    name [a + j] is what turn [a + j] decoded. *)
Lemma keyed_loop {V : Type} (names : list string) (f : nat -> result V)
  (n a : nat) (acc res : dict V) :
  NoDup names -> acc.*1 = take a names ->
  for_each (seq a n) acc
    (fun i entries =>
       let* v := f i in
       let* name := py_getitem names (Z.of_nat i) in
       OK (dict_set entries name v)) = OK res ->
  exists es,
    res = acc ++ es
    /\ es.*1 = take n (drop a names)
    /\ length es = n
    /\ forall j name v, es !! j = Some (name, v) ->
         f (a + j)%nat = OK v /\ names !! (a + j)%nat = Some name.
Proof.
  intros Hnd. revert a acc; induction n as [|n IH]; intros a acc Hacc H.
  - cbn [seq for_each] in H. injection H as <-. exists [].
    rewrite app_nil_r. repeat split; try done.
  - cbn [seq for_each] in H. apply bind_OK in H as (st & Hturn & H).
    apply bind_OK in Hturn as (v & Hv & Hturn).
    apply bind_OK in Hturn as (name & Hget & Hturn). injection Hturn as <-.
    rewrite py_getitem_nat in Hget.
    destruct (names !! a) as [name'|] eqn:Hname; [|discriminate].
    injection Hget as ->.
    assert (Hfresh : name ∉ acc.*1).
    { rewrite Hacc. intros (j & Hj)%list_elem_of_lookup.
      rewrite lookup_take in Hj. case_decide as Hlt; [|done].
      pose proof (NoDup_lookup _ _ _ _ Hnd Hj Hname). lia. }
    rewrite dict_set_fresh in H by done.
    destruct (IH (S a) (acc ++ [(name, v)])) as (es & -> & Hk & Hlen & Hes);
      [|done|].
    { rewrite fmap_app, Hacc. cbn. by rewrite (take_S_r _ _ _ Hname). }
    exists ((name, v) :: es). split; [by rewrite <- app_assoc|].
    split; [|split].
    + rewrite fmap_cons, Hk. cbn [fst].
      by rewrite (drop_S _ _ _ Hname).
    + cbn [length]. by rewrite Hlen.
    + intros [|j] name' v' Hj.
      * injection Hj as <- <-. by rewrite Nat.add_0_r.
      * cbn in Hj. replace (a + S j)%nat with (S a + j)%nat by lia.
        by apply Hes.
Qed.

(** X9: When the pokemon category has no repeated names, the dictionary that
    [unpack_personal] returns has one entry per whole record, keyed by the
    names of the category in order; entry [j] is the decoding of record
    [j]. *)
Theorem unpack_personal_entries (CONSTANTS : Constants) (buffer : list Z)
  (entries : dict Personal.Entry) :
  NoDup (CONSTANTS Cat.pokemon) ->
  Personal.unpack_personal CONSTANTS buffer = OK entries ->
  entries.*1 = take (length buffer / 0xB0) (CONSTANTS Cat.pokemon)
  /\ length entries = (length buffer / 0xB0)%nat
  /\ forall j name e, entries !! j = Some (name, e) ->
       Personal.unpack_entry CONSTANTS buffer (j * 0xB0) = OK e
       /\ cnstname CONSTANTS Cat.pokemon (Z.of_nat j) = OK name.
Proof.
  intros Hnd H. unfold Personal.unpack_personal, range in H.
  destruct (keyed_loop (CONSTANTS Cat.pokemon)
              (fun i => Personal.unpack_entry CONSTANTS buffer (i * 0xB0)%nat)
              (length buffer / 0xB0) 0 [] entries Hnd eq_refl H)
    as (es & -> & Hk & Hlen & Hes).
  cbn [app]. rewrite drop_0 in Hk. split; [done|]. split; [done|].
  intros j name e Hj. destruct (Hes j name e Hj) as [Hf Hn].
  rewrite Nat.add_0_l in Hf, Hn. split; [done|].
  unfold cnstname. by rewrite py_getitem_nat, Hn.
Qed.

Lemma unpack_personal_entries_witness :
  exists entries,
    Personal.unpack_personal Demo.constants Demo.blob = OK entries
    /\ entries.*1 = take (length Demo.blob / 0xB0) (Demo.constants Cat.pokemon)
    /\ length entries = (length Demo.blob / 0xB0)%nat.
Proof.
  destruct (Personal.unpack_personal Demo.constants Demo.blob)
    as [entries|e] eqn:H; [|vm_compute in H; discriminate].
  exists entries. split; [reflexivity|].
  destruct (unpack_personal_entries Demo.constants Demo.blob entries)
    as (Hk & Hl & _); [|exact H|by split].
  vm_compute. repeat constructor; intros Hin; inversion Hin; subst;
    repeat match goal with H : _ ∈ _ |- _ => inversion H; clear H; subst end.
Defined.

(** ** [unpack_wazaoboe]: the file as a whole *)

Lemma unpack_slot_error (CONSTANTS : Constants) (buffer : list Z) (j offset : nat)
  (acc : list Wazaoboe.MoveEntry) (e : exn) :
  (offset + 4 <= length buffer)%nat ->
  Wazaoboe.unpack_slot CONSTANTS buffer j (offset, acc) = Raise e ->
  e = IndexError.
Proof.
  intros Hl. unfold Wazaoboe.unpack_slot.
  rewrite unpack_from_OK by (simpl; lia).
  cbn [bind Wazaoboe.ENTRY Struct.unpack_codes].
  destruct (negb _ && negb _); [|discriminate].
  intros [H|(name & _ & H)]%bind_Raise; [by eapply cnstname_error|discriminate].
Qed.

Lemma unpack_slot_offset (CONSTANTS : Constants) (buffer : list Z) (j offset : nat)
  (acc : list Wazaoboe.MoveEntry) (st : nat * list Wazaoboe.MoveEntry) :
  Wazaoboe.unpack_slot CONSTANTS buffer j (offset, acc) = OK st ->
  fst st = (offset + 4)%nat.
Proof.
  unfold Wazaoboe.unpack_slot.
  destruct (Struct.unpack_from _ _ _) as [vals|]; [|discriminate].
  cbn [bind].
  destruct vals as [|[move| |] [|[level| |] [|]]]; try discriminate.
  destruct (negb _ && negb _); [|by intros [= <-]].
  destruct (cnstname _ _ _); cbn [bind]; [by intros [= <-]|discriminate].
Qed.

Lemma unpack_slot_length (CONSTANTS : Constants) (buffer : list Z) (j offset : nat)
  (acc : list Wazaoboe.MoveEntry) (st : nat * list Wazaoboe.MoveEntry) :
  Wazaoboe.unpack_slot CONSTANTS buffer j (offset, acc) = OK st ->
  (length (snd st) <= length acc + 1)%nat.
Proof.
  unfold Wazaoboe.unpack_slot.
  destruct (Struct.unpack_from _ _ _) as [vals|]; [|discriminate].
  cbn [bind].
  destruct vals as [|[move| |] [|[level| |] [|]]]; try discriminate.
  destruct (negb _ && negb _); [|intros [= <-]; cbn [snd]; lia].
  destruct (cnstname _ _ _); cbn [bind]; [|discriminate].
  intros [= <-]. cbn [snd]. rewrite length_app. cbn [length]. lia.
Qed.

Lemma unpack_slots_length (CONSTANTS : Constants) (buffer : list Z) (n a : nat)
  (st st' : nat * list Wazaoboe.MoveEntry) :
  for_each (seq a n) st (Wazaoboe.unpack_slot CONSTANTS buffer) = OK st' ->
  (length (snd st') <= length (snd st) + n)%nat.
Proof.
  revert a st; induction n as [|n IH]; intros a [offset acc];
    cbn [seq for_each].
  - intros [= <-]. lia.
  - intros (st1 & Hs & H)%bind_OK. apply unpack_slot_length in Hs.
    apply IH in H. cbn [snd] in *. lia.
Qed.

(** A decoded learnset has at most 65 moves. *)
Lemma unpack_moves_length (CONSTANTS : Constants) (buffer : list Z) (i : nat)
  (moves_list : list Wazaoboe.MoveEntry) :
  Wazaoboe.unpack_moves CONSTANTS buffer i = OK moves_list ->
  (length moves_list <= 65)%nat.
Proof.
  unfold Wazaoboe.unpack_moves, range.
  intros (st & H & [= <-])%bind_OK. by apply unpack_slots_length in H.
Qed.

Lemma unpack_slots_error (CONSTANTS : Constants) (buffer : list Z) (n a offset : nat)
  (acc : list Wazaoboe.MoveEntry) (e : exn) :
  (offset + 4 * n <= length buffer)%nat ->
  for_each (seq a n) (offset, acc) (Wazaoboe.unpack_slot CONSTANTS buffer)
  = Raise e ->
  e = IndexError.
Proof.
  revert a offset acc; induction n as [|n IH]; intros a offset acc Hl;
    cbn [seq for_each]; [discriminate|].
  intros [H|([offset' acc'] & Hs & H)]%bind_Raise.
  - eapply unpack_slot_error; [|exact H]. lia.
  - apply unpack_slot_offset in Hs. cbn [fst] in Hs. subst offset'.
    eapply IH; [|exact H]. lia.
Qed.

Lemma unpack_moves_error (CONSTANTS : Constants) (buffer : list Z) (i : nat)
  (e : exn) :
  (i * 0x104 + 0x104 <= length buffer)%nat ->
  Wazaoboe.unpack_moves CONSTANTS buffer i = Raise e -> e = IndexError.
Proof.
  intros Hl. unfold Wazaoboe.unpack_moves, range.
  intros [H|(st & _ & H)]%bind_Raise; [|discriminate].
  eapply unpack_slots_error; [|exact H]. lia.
Qed.

Lemma unpack_slot_take (CONSTANTS : Constants) (buffer : list Z) (j offset n : nat)
  (acc : list Wazaoboe.MoveEntry) :
  (offset + 4 <= n)%nat -> (n <= length buffer)%nat ->
  Wazaoboe.unpack_slot CONSTANTS (take n buffer) j (offset, acc)
  = Wazaoboe.unpack_slot CONSTANTS buffer j (offset, acc).
Proof.
  intros Ho Hn. unfold Wazaoboe.unpack_slot.
  by rewrite unpack_from_take by (simpl; lia).
Qed.

Lemma unpack_slots_take (CONSTANTS : Constants) (buffer : list Z)
  (n a offset m : nat) (acc : list Wazaoboe.MoveEntry) :
  (offset + 4 * n <= m)%nat -> (m <= length buffer)%nat ->
  for_each (seq a n) (offset, acc) (Wazaoboe.unpack_slot CONSTANTS (take m buffer))
  = for_each (seq a n) (offset, acc) (Wazaoboe.unpack_slot CONSTANTS buffer).
Proof.
  revert a offset acc; induction n as [|n IH]; intros a offset acc Ho Hm; [done|].
  cbn [seq for_each]. rewrite unpack_slot_take by lia.
  destruct (Wazaoboe.unpack_slot CONSTANTS buffer a (offset, acc))
    as [[offset' acc']|] eqn:Hs; cbn [bind]; [|done].
  apply unpack_slot_offset in Hs. cbn [fst] in Hs. subst offset'.
  apply IH; lia.
Qed.

Lemma unpack_moves_take (CONSTANTS : Constants) (buffer : list Z) (i m : nat) :
  (i * 0x104 + 0x104 <= m)%nat -> (m <= length buffer)%nat ->
  Wazaoboe.unpack_moves CONSTANTS (take m buffer) i
  = Wazaoboe.unpack_moves CONSTANTS buffer i.
Proof.
  intros Hi Hm. unfold Wazaoboe.unpack_moves, range.
  by rewrite unpack_slots_take by lia.
Qed.

Lemma unpack_wazaoboe_turn_error (CONSTANTS : Constants) (buffer : list Z)
  (i : nat) (entries : dict (list Wazaoboe.MoveEntry)) (e : exn) :
  (i * 0x104 + 0x104 <= length buffer)%nat ->
  (let* moves_list := Wazaoboe.unpack_moves CONSTANTS buffer i in
   let* name := py_getitem (CONSTANTS Cat.pokemon) (Z.of_nat i) in
   OK (dict_set entries name moves_list)) = Raise e ->
  e = IndexError.
Proof.
  intros Hl [H|(ml & _ & H)]%bind_Raise; [by eapply unpack_moves_error|].
  apply bind_Raise in H as [H|(name & _ & H)]; [by eapply py_getitem_error|done].
Qed.

(** X10: [unpack_wazaoboe] raises nothing but [IndexError] (a move code or a
    record number without a name), whatever the bytes are; a file with more
    whole records than the pokemon category has names always raises it. *)
Theorem unpack_wazaoboe_raises_only_IndexError (CONSTANTS : Constants)
  (buffer : list Z) :
  ((exists entries, Wazaoboe.unpack_wazaoboe CONSTANTS buffer = OK entries)
   \/ Wazaoboe.unpack_wazaoboe CONSTANTS buffer = Raise IndexError)
  /\ ((length (CONSTANTS Cat.pokemon) < length buffer / 0x104)%nat ->
      Wazaoboe.unpack_wazaoboe CONSTANTS buffer = Raise IndexError).
Proof.
  assert (Herr : forall e, Wazaoboe.unpack_wazaoboe CONSTANTS buffer = Raise e ->
                           e = IndexError).
  { intros e H. unfold Wazaoboe.unpack_wazaoboe in H.
    apply for_each_Raise in H as (i & entries & Hi & H).
    apply elem_of_seq in Hi.
    eapply unpack_wazaoboe_turn_error; [|exact H].
    apply records_bound; lia. }
  destruct (Wazaoboe.unpack_wazaoboe CONSTANTS buffer) as [entries|e] eqn:H.
  - split; [eauto|]. intros Hn. unfold Wazaoboe.unpack_wazaoboe in H.
    destruct (for_each_OK _ _ _ _ (length (CONSTANTS Cat.pokemon)) H)
      as (s1 & s2 & Hb).
    { apply elem_of_seq. lia. }
    apply bind_OK in Hb as (ml & _ & Hb).
    apply bind_OK in Hb as (name & Hname & _).
    rewrite py_getitem_out_of_range in Hname by lia. discriminate.
  - rewrite (Herr e eq_refl). split; [by right|done].
Qed.

(** X11: [unpack_wazaoboe] decodes the whole records of the file: the bytes
    after the last whole record of 0x104 bytes are ignored. *)
Theorem unpack_wazaoboe_ignores_partial_record (CONSTANTS : Constants)
  (buffer : list Z) :
  Wazaoboe.unpack_wazaoboe CONSTANTS buffer
  = Wazaoboe.unpack_wazaoboe CONSTANTS
      (take (length buffer / 0x104 * 0x104) buffer).
Proof.
  unfold Wazaoboe.unpack_wazaoboe.
  pose proof (Nat.Div0.mul_div_le (length buffer) 0x104) as Hle.
  rewrite length_take, Nat.min_l by lia. rewrite Nat.div_mul by lia.
  apply for_each_ext_in. intros i entries Hi. apply elem_of_seq in Hi.
  rewrite unpack_moves_take; [done| |lia].
  assert (S i <= length buffer / 0x104)%nat by lia. nia.
Qed.

(** X12: When the pokemon category has no repeated names, the dictionary that
    [unpack_wazaoboe] returns has one learnset per whole record, keyed by
    the names of the category in order; learnset [j] is the decoding of
    record [j] and has at most 65 moves. *)
Theorem unpack_wazaoboe_entries (CONSTANTS : Constants) (buffer : list Z)
  (entries : dict (list Wazaoboe.MoveEntry)) :
  NoDup (CONSTANTS Cat.pokemon) ->
  Wazaoboe.unpack_wazaoboe CONSTANTS buffer = OK entries ->
  entries.*1 = take (length buffer / 0x104) (CONSTANTS Cat.pokemon)
  /\ length entries = (length buffer / 0x104)%nat
  /\ forall j name moves_list, entries !! j = Some (name, moves_list) ->
       Wazaoboe.unpack_moves CONSTANTS buffer j = OK moves_list
       /\ CONSTANTS Cat.pokemon !! j = Some name
       /\ (length moves_list <= 65)%nat.
Proof.
  intros Hnd H. unfold Wazaoboe.unpack_wazaoboe, range in H.
  destruct (keyed_loop (CONSTANTS Cat.pokemon)
              (Wazaoboe.unpack_moves CONSTANTS buffer)
              (length buffer / 0x104) 0 [] entries Hnd eq_refl H)
    as (es & -> & Hk & Hlen & Hes).
  cbn [app]. rewrite drop_0 in Hk. split; [done|]. split; [done|].
  intros j name ml Hj. destruct (Hes j name ml Hj) as [Hf Hn].
  rewrite Nat.add_0_l in Hf, Hn. split; [done|]. split; [done|].
  by eapply unpack_moves_length.
Qed.

Lemma unpack_wazaoboe_entries_witness :
  exists entries,
    Wazaoboe.unpack_wazaoboe Demo.constants
      (Demo.learnset_record ++ replicate 0x104 0xFF) = OK entries
    /\ entries.*1 = ["Egg"; "Bulbasaur"]%string.
Proof.
  destruct (Wazaoboe.unpack_wazaoboe Demo.constants
              (Demo.learnset_record ++ replicate 0x104 0xFF))
    as [entries|e] eqn:H; [|vm_compute in H; discriminate].
  exists entries. split; [reflexivity|].
  destruct (unpack_wazaoboe_entries Demo.constants
              (Demo.learnset_record ++ replicate 0x104 0xFF) entries)
    as (Hk & _); [|exact H|exact Hk].
  vm_compute. repeat constructor; intros Hin; inversion Hin; subst;
    repeat match goal with H : _ ∈ _ |- _ => inversion H; clear H; subst end.
Defined.

(** ** [pack_wazaoboe]: exceptions and the sentinel *)

Lemma entry_of_move_code (CONSTANTS : Constants) (e : Wazaoboe.MoveEntry) :
  encodable_move CONSTANTS e = true ->
  entry_of CONSTANTS (move_code CONSTANTS e, Wazaoboe.level e) = e
  /\ move_code CONSTANTS e < Z.of_nat (length (CONSTANTS Cat.moves)).
Proof.
  intros He. destruct (encodable_move_spec _ _ He) as (Hc & _ & _).
  apply cnstval_OK in Hc as [Hr Hlk].
  split; [|lia]. unfold entry_of. cbn [fst snd].
  rewrite nth_lookup, Hlk. by destruct e.
Qed.

(** The slots in use of the image of encodable entries followed by 0xFF
    bytes are the entries that hold no sentinel, in order. *)
Lemma used_slots_encodable (CONSTANTS : Constants) (es : list Wazaoboe.MoveEntry) :
  (length es <= 65)%nat ->
  forallb (encodable_move CONSTANTS) es = true ->
  let R := concat (map (move_bytes CONSTANTS) es)
           ++ replicate (0x104 - 4 * length es) 0xFF in
  List.filter is_used (map (raw_slot R 0) (seq 0 65))
  = List.filter is_used
      (map (fun e => (move_code CONSTANTS e, Wazaoboe.level e)) es)
  /\ map (entry_of CONSTANTS)
       (List.filter is_used (map (raw_slot R 0) (seq 0 65)))
     = List.filter (decoded_back CONSTANTS) es.
Proof.
  intros Hlen He R.
  assert (Hsplit : seq 0 65 = seq 0 (length es) ++ seq (length es) (65 - length es)).
  { replace (seq 0 65) with (seq 0 (length es + (65 - length es)))
      by (f_equal; lia).
    by rewrite seq_app. }
  assert (Hfirst : List.filter is_used (map (raw_slot R 0) (seq 0 65))
                   = List.filter is_used
                       (map (fun e => (move_code CONSTANTS e, Wazaoboe.level e)) es)).
  { rewrite Hsplit, map_app, List.filter_app.
    unfold R. rewrite raw_slots_image by done.
    assert (Hpad : List.filter is_used
                     (map (raw_slot
                             (concat (map (move_bytes CONSTANTS) es)
                              ++ replicate (0x104 - 4 * length es) 0xFF) 0)
                        (seq (length es) (65 - length es))) = []).
    { apply filter_none. intros s Hs.
      apply in_map_iff in Hs as (j & <- & Hj). apply in_seq in Hj.
      rewrite (raw_slot_padding _ (length es)); [done| |lia|lia].
      apply length_concat_move_bytes. }
    by rewrite Hpad, app_nil_r. }
  split; [done|]. rewrite Hfirst.
  clear Hsplit Hfirst Hlen. induction es as [|e es IH]; [done|].
  cbn [forallb] in He. apply andb_true_iff in He as [He1 He2].
  cbn [map List.filter]. unfold decoded_back at 1.
  destruct (is_used _) eqn:Hu; [|by apply IH].
  cbn [map]. rewrite (proj1 (entry_of_move_code _ _ He1)).
  f_equal. by apply IH.
Qed.

(** Decoding the record of a creature of a packable input gives back
    those of its first 65 moves that hold no sentinel. *)
Lemma unpack_written_packable (CONSTANTS : Constants)
  (entries : dict (list Wazaoboe.MoveEntry)) (name : string)
  (ml : list Wazaoboe.MoveEntry) :
  NoDup entries.*1 ->
  forallb (packable CONSTANTS) entries = true ->
  (name, ml) ∈ entries ->
  Wazaoboe.unpack_moves CONSTANTS
    (written CONSTANTS (replicate (length (CONSTANTS Cat.pokemon) * 0x104) 0xFF)
       entries)
    (creature_index CONSTANTS name)
  = OK (List.filter (decoded_back CONSTANTS) (take 65 ml)).
Proof.
  intros Hnd Hp Hin.
  pose proof (packable_elem_of _ _ _ Hp Hin) as Hpok. cbn [fst] in Hpok.
  destruct (creature_index_spec _ _ Hpok) as (_ & _ & Hlt).
  assert (Hvm : forallb (encodable_move CONSTANTS) (take 65 ml) = true).
  { rewrite forallb_forall in Hp. apply list_elem_of_In in Hin.
    specialize (Hp _ Hin). unfold packable in Hp.
    by apply andb_true_iff in Hp as [_ Hp]. }
  pose proof (record_written _ _ _ _ Hnd Hp Hin) as Hrec.
  unfold slot_image in Hrec at 2. rewrite length_concat_move_bytes in Hrec.
  unfold slot_image in Hrec.
  destruct (used_slots_encodable CONSTANTS (take 65 ml)) as [Hused Hdec];
    [rewrite length_take; lia|done|].
  rewrite <- Hrec in Hused, Hdec.
  assert (Hraw : map (raw_slot
                        (written CONSTANTS
                           (replicate (length (CONSTANTS Cat.pokemon) * 0x104) 0xFF)
                           entries)
                        (creature_index CONSTANTS name * 0x104)) (seq 0 65)
                 = map (raw_slot
                          (record 0x104
                             (written CONSTANTS
                                (replicate (length (CONSTANTS Cat.pokemon) * 0x104) 0xFF)
                                entries)
                             (creature_index CONSTANTS name)) 0) (seq 0 65)).
  { apply map_ext_in. intros j Hj%in_seq. apply raw_slot_record. lia. }
  rewrite unpack_moves_spec.
  - by rewrite Hraw, Hdec.
  - apply all_bytes_written, all_bytes_replicate. lia.
  - rewrite length_written, length_replicate. lia.
  - intros j Hj Hu.
    assert (Hmem : In (raw_slot
                         (written CONSTANTS
                            (replicate (length (CONSTANTS Cat.pokemon) * 0x104) 0xFF)
                            entries)
                         (creature_index CONSTANTS name * 0x104) j)
                     (List.filter is_used
                        (map (fun e => (move_code CONSTANTS e, Wazaoboe.level e))
                           (take 65 ml)))).
    { rewrite <- Hused, <- Hraw. apply filter_In. split; [|done].
      apply in_map, in_seq. lia. }
    apply filter_In in Hmem as [Hmem _].
    apply in_map_iff in Hmem as (e & <- & He). cbn [fst].
    rewrite forallb_forall in Hvm. by apply entry_of_move_code, Hvm.
Qed.

(** X13: An entry whose level is 0xFFFF, or whose move has code 0xFFFF, is
    written by [pack_wazaoboe] without complaint and lost: its slot reads
    as empty, so decoding the record gives the first 65 entries without
    it. *)
Theorem pack_wazaoboe_loses_sentinel_entries (CONSTANTS : Constants)
  (entries : dict (list Wazaoboe.MoveEntry)) :
  NoDup entries.*1 ->
  forallb (packable CONSTANTS) entries = true ->
  exists buffer stdout,
    Wazaoboe.pack_wazaoboe CONSTANTS entries = OK (buffer, stdout)
    /\ forall name ml, (name, ml) ∈ entries ->
         Wazaoboe.unpack_moves CONSTANTS buffer (creature_index CONSTANTS name)
         = OK (List.filter (decoded_back CONSTANTS) (take 65 ml))
         /\ forall e, In e (take 65 ml) ->
              Wazaoboe.level e = 65535 ->
              ~ In e (List.filter (decoded_back CONSTANTS) (take 65 ml)).
Proof.
  intros Hnd Hp. eexists _, _. split.
  { unfold Wazaoboe.pack_wazaoboe. apply pack_items_OK; [done|].
    apply length_replicate. }
  intros name ml Hin. split; [by apply unpack_written_packable|].
  intros e _ Hl [_ Hd]%filter_In.
  unfold decoded_back, is_used in Hd. cbn [fst snd] in Hd.
  rewrite Hl in Hd. by rewrite andb_false_r in Hd.
Qed.

Lemma pack_wazaoboe_loses_sentinel_entries_witness :
  exists buffer stdout,
    Wazaoboe.pack_wazaoboe Demo.constants
      [("Bulbasaur"%string, [Demo.pound 3; Demo.pound 65535; Demo.pound 7])]
    = OK (buffer, stdout)
    /\ Wazaoboe.unpack_moves Demo.constants buffer 1
       = OK [Demo.pound 3; Demo.pound 7].
Proof.
  destruct (pack_wazaoboe_loses_sentinel_entries Demo.constants
              [("Bulbasaur"%string,
                [Demo.pound 3; Demo.pound 65535; Demo.pound 7])])
    as (buffer & stdout & Hp & Hd).
  - apply (bool_decide_unpack _). vm_compute. exact I.
  - vm_compute. reflexivity.
  - exists buffer, stdout. split; [exact Hp|].
    apply (Hd "Bulbasaur"%string
             [Demo.pound 3; Demo.pound 65535; Demo.pound 7]).
    apply list_elem_of_here.
Defined.

(** X14: [pack_wazaoboe] raises [ValueError] at the first creature that the
    pokemon category does not name, and returns no buffer, whatever
    creatures were packed before it or follow it. *)
Theorem pack_wazaoboe_unknown_creature (CONSTANTS : Constants)
  (before after : dict (list Wazaoboe.MoveEntry)) (name : string)
  (ml : list Wazaoboe.MoveEntry) :
  forallb (packable CONSTANTS) before = true ->
  name ∉ CONSTANTS Cat.pokemon ->
  Wazaoboe.pack_wazaoboe CONSTANTS (before ++ (name, ml) :: after)
  = Raise ValueError.
Proof.
  intros Hp Hname. unfold Wazaoboe.pack_wazaoboe.
  rewrite for_each_app, pack_items_OK by (done || apply length_replicate).
  cbn [bind for_each]. unfold Wazaoboe.pack_moves.
  by rewrite cnstval_absent.
Qed.

Lemma pack_wazaoboe_unknown_creature_witness :
  Wazaoboe.pack_wazaoboe Demo.constants
    ([("Egg"%string, [Demo.pound 5])]
     ++ ("Missingno"%string, []) :: [("Ivysaur"%string, [Demo.pound 7])])
  = Raise ValueError.
Proof.
  apply pack_wazaoboe_unknown_creature.
  - vm_compute. reflexivity.
  - apply (bool_decide_unpack _). vm_compute. exact I.
Defined.

Lemma pack_bad_pair (m level : Z) :
  (0 <=? m) && (m <? 65536) && (0 <=? level) && (level <? 65536) = false ->
  Struct.pack Wazaoboe.ENTRY [Struct.VInt m; Struct.VInt level]
  = Raise StructError.
Proof.
  intros H. unfold Wazaoboe.ENTRY. rewrite pack_cons by done.
  unfold Struct.pack_value at 1. unfold Struct.pack_int at 1.
  change (256 ^ Z.of_nat 2) with 65536.
  destruct ((0 <=? m) && (m <? 65536)) eqn:Hm; [|done].
  cbn [bind]. rewrite pack_cons by done.
  unfold Struct.pack_value at 1. unfold Struct.pack_int at 1.
  change (256 ^ Z.of_nat 2) with 65536.
  cbn [andb] in H. by rewrite H.
Qed.

(** X15: The first of the first 65 entries of a creature that cannot be
    encoded stops [pack_wazaoboe]: with [ValueError] when its move is not
    in the moves category, with [struct.error] when the move is known but
    its code or the level is outside 0 .. 0xFFFF. *)
Theorem pack_wazaoboe_bad_move (CONSTANTS : Constants)
  (before after : dict (list Wazaoboe.MoveEntry)) (name : string)
  (ml : list Wazaoboe.MoveEntry) (j : nat) (e : Wazaoboe.MoveEntry) :
  forallb (packable CONSTANTS) before = true ->
  name ∈ CONSTANTS Cat.pokemon ->
  (j < 65)%nat -> ml !! j = Some e ->
  forallb (encodable_move CONSTANTS) (take j ml) = true ->
  encodable_move CONSTANTS e = false ->
  Wazaoboe.pack_wazaoboe CONSTANTS (before ++ (name, ml) :: after)
  = Raise (if bool_decide (Wazaoboe.move e ∈ CONSTANTS Cat.moves)
           then StructError else ValueError).
Proof.
  intros Hp Hname Hj He Hpre Hbad. unfold Wazaoboe.pack_wazaoboe.
  rewrite for_each_app, pack_items_OK by (done || apply length_replicate).
  cbn [bind for_each].
  set (buffer := written CONSTANTS _ before).
  assert (Hlen : length buffer = (length (CONSTANTS Cat.pokemon) * 0x104)%nat)
    by (unfold buffer; by rewrite length_written, length_replicate).
  destruct (creature_index_spec _ _ Hname) as (Hc & _ & Hlt).
  unfold Wazaoboe.pack_moves. rewrite Hc. cbn [bind]. rewrite Nat2Z.id.
  pose proof (lookup_lt_Some _ _ _ He) as Hjl.
  set (num := if (65 <? length ml)%nat then 65%nat else length ml).
  assert (Hnum : (j < num)%nat)
    by (unfold num; destruct (Nat.ltb_spec 65 (length ml)); lia).
  assert (Hloop :
            for_each (range num)
              (buffer, (creature_index CONSTANTS name * 0x104)%nat)
              (Wazaoboe.pack_slot CONSTANTS ml)
            = Raise (if bool_decide (Wazaoboe.move e ∈ CONSTANTS Cat.moves)
                     then StructError else ValueError)).
  { unfold range.
    replace num with (j + S (num - S j))%nat by lia.
    rewrite seq_app, for_each_app.
    rewrite (pack_slots _ _ j 0) by (rewrite ?drop_0; done || lia).
    cbn [bind Nat.add seq for_each]. unfold Wazaoboe.pack_slot at 1.
    rewrite He. case_bool_decide as Hmove.
    - destruct (cnstval_elem_of _ _ _ Hmove) as [m Hm]. rewrite Hm.
      cbn [bind]. unfold Struct.pack_into.
      destruct (_ <=? _)%nat; [|done].
      rewrite pack_bad_pair; [done|].
      unfold encodable_move in Hbad.
      rewrite bool_decide_eq_true_2 in Hbad by done.
      assert (Hmc : m = move_code CONSTANTS e).
      { unfold cnstval, move_code in *.
        destruct (list_index _ _); [|discriminate]. by injection Hm as <-. }
      subst m.
      assert (H0 : (0 <=? move_code CONSTANTS e) = true)
        by (apply Z.leb_le; unfold move_code; lia).
      by rewrite H0.
    - by rewrite cnstval_absent. }
  unfold num in Hloop. destruct (65 <? length ml)%nat; by rewrite Hloop.
Qed.

Lemma pack_wazaoboe_bad_move_witness :
  Wazaoboe.pack_wazaoboe Demo.constants
    ([] ++ ("Egg"%string, [Demo.pound 5; Demo.pound 65536]) :: [])
  = Raise StructError
  /\ Wazaoboe.pack_wazaoboe Demo.constants
       ([] ++ ("Egg"%string,
               [{| Wazaoboe.level := 5; Wazaoboe.move := "Struggle" |}]) :: [])
     = Raise ValueError.
Proof.
  split.
  - apply (pack_wazaoboe_bad_move Demo.constants [] [] "Egg"%string
             [Demo.pound 5; Demo.pound 65536] 1 (Demo.pound 65536)).
    + reflexivity.
    + apply (bool_decide_unpack _). vm_compute. exact I.
    + lia.
    + reflexivity.
    + vm_compute. reflexivity.
    + vm_compute. reflexivity.
  - apply (pack_wazaoboe_bad_move Demo.constants [] [] "Egg"%string
             [{| Wazaoboe.level := 5; Wazaoboe.move := "Struggle" |}] 0
             {| Wazaoboe.level := 5; Wazaoboe.move := "Struggle" |}).
    + reflexivity.
    + apply (bool_decide_unpack _). vm_compute. exact I.
    + lia.
    + reflexivity.
    + vm_compute. reflexivity.
    + vm_compute. reflexivity.
Defined.

(** ** [pack_wazaoboe] then [unpack_wazaoboe]: the whole file *)

Lemma dict_get_NoDup {V : Type} (d : dict V) (k : string) (v : V) :
  NoDup d.*1 -> (k, v) ∈ d -> dict_get d k = Some v.
Proof.
  induction d as [|[k' v'] d IH]; intros Hnd Hin.
  - by apply elem_of_nil in Hin.
  - rewrite fmap_cons in Hnd. apply NoDup_cons in Hnd as [Hfresh Hnd].
    cbn [dict_get]. apply elem_of_cons in Hin as [[= <- <-]|Hin].
    + by rewrite decide_True.
    + rewrite decide_False; [by apply IH|].
      intros <-. apply Hfresh. by apply (list_elem_of_fmap_2 fst _ (k, v)).
Qed.

Lemma dict_get_None {V : Type} (d : dict V) (k : string) :
  k ∉ d.*1 -> dict_get d k = None.
Proof.
  induction d as [|[k' v'] d IH]; intros Hk; [done|].
  rewrite fmap_cons, not_elem_of_cons in Hk. destruct Hk as [Hne Hk].
  cbn [dict_get]. rewrite decide_False by done. by apply IH.
Qed.

Lemma map_seq_nth {A B : Type} (h : A -> B) (l : list A) (d : A) :
  map (fun j => h (nth j l d)) (seq 0 (length l)) = map h l.
Proof.
  induction l as [|x l IH]; [done|].
  cbn [length seq map nth]. f_equal.
  rewrite <- seq_shift, map_map. exact IH.
Qed.

(** The loop of the decoders when every turn returns. *)
Lemma keyed_loop_OK {V : Type} (names : list string) (f : nat -> result V)
  (g : nat -> V) (n a : nat) (acc : dict V) :
  NoDup names -> acc.*1 = take a names -> (a + n <= length names)%nat ->
  (forall j, (a <= j < a + n)%nat -> f j = OK (g j)) ->
  for_each (seq a n) acc
    (fun i entries =>
       let* v := f i in
       let* name := py_getitem names (Z.of_nat i) in
       OK (dict_set entries name v))
  = OK (acc ++ map (fun j => (nth j names EmptyString, g j)) (seq a n)).
Proof.
  intros Hnd. revert a acc; induction n as [|n IH]; intros a acc Hacc Hlen Hf.
  - cbn. by rewrite app_nil_r.
  - cbn [seq for_each map]. rewrite Hf by lia. cbn [bind].
    destruct (lookup_lt_is_Some_2 names a) as [name Hname]; [lia|].
    rewrite py_getitem_nat, Hname. cbn [bind].
    assert (Hfresh : name ∉ acc.*1).
    { rewrite Hacc. intros (j & Hj)%list_elem_of_lookup.
      rewrite lookup_take in Hj. case_decide as Hlt; [|done].
      pose proof (NoDup_lookup _ _ _ _ Hnd Hj Hname). lia. }
    rewrite dict_set_fresh by done.
    rewrite IH.
    + rewrite <- app_assoc. cbn [app].
      by rewrite (nth_lookup_Some _ _ _ _ Hname).
    + rewrite fmap_app, Hacc. cbn. by rewrite (take_S_r _ _ _ Hname).
    + lia.
    + intros j Hj. apply Hf. lia.
Qed.

(** A record of 0xFF bytes decodes to the empty learnset. *)
Lemma unpack_moves_blank (CONSTANTS : Constants) (buffer : list Z) (i : nat) :
  all_bytes buffer = true ->
  ((i + 1) * 0x104 <= length buffer)%nat ->
  record 0x104 buffer i = replicate 0x104 0xFF ->
  Wazaoboe.unpack_moves CONSTANTS buffer i = OK [].
Proof.
  intros Hb Hl Hrec.
  assert (Hraw : forall j, (j < 65)%nat ->
            raw_slot buffer (i * 0x104) j = (65535, 65535)).
  { intros j Hj. rewrite raw_slot_record by done. rewrite Hrec.
    apply (raw_slot_padding [] 0 0x104 j); [done|lia|lia]. }
  rewrite unpack_moves_spec; try done.
  - rewrite filter_none; [done|].
    intros s (j & <- & Hj%in_seq)%in_map_iff. by rewrite Hraw by lia.
  - intros j Hj Hu. by rewrite Hraw in Hu.
Qed.

(** X16: Packing a dictionary of packable learnsets and unpacking the file
    gives a dictionary that lists every creature of the pokemon category,
    in the order of the category: a creature of the input has its first 65
    entries (without those that hold a sentinel), every other creature the
    empty list. The keys of the input come back in category order, not in
    input order. *)
Theorem wazaoboe_file_roundtrip (CONSTANTS : Constants)
  (entries : dict (list Wazaoboe.MoveEntry)) :
  NoDup (CONSTANTS Cat.pokemon) ->
  NoDup entries.*1 ->
  forallb (packable CONSTANTS) entries = true ->
  exists buffer stdout,
    Wazaoboe.pack_wazaoboe CONSTANTS entries = OK (buffer, stdout)
    /\ Wazaoboe.unpack_wazaoboe CONSTANTS buffer
       = OK (map (fun name =>
                    (name,
                     List.filter (decoded_back CONSTANTS)
                       (take 65 (default [] (dict_get entries name)))))
               (CONSTANTS Cat.pokemon)).
Proof.
  intros Hpok Hnd Hp. eexists _, _. split.
  { unfold Wazaoboe.pack_wazaoboe. apply pack_items_OK; [done|].
    apply length_replicate. }
  cbn [fst].
  set (buffer := written CONSTANTS _ entries).
  assert (Hlen : length buffer = (length (CONSTANTS Cat.pokemon) * 0x104)%nat)
    by (unfold buffer; by rewrite length_written, length_replicate).
  assert (Hbytes : all_bytes buffer = true)
    by (apply all_bytes_written, all_bytes_replicate; lia).
  unfold Wazaoboe.unpack_wazaoboe, range.
  rewrite Hlen, Nat.div_mul by lia.
  rewrite (keyed_loop_OK (CONSTANTS Cat.pokemon)
             (Wazaoboe.unpack_moves CONSTANTS buffer)
             (fun j => List.filter (decoded_back CONSTANTS)
                         (take 65 (default []
                            (dict_get entries
                               (nth j (CONSTANTS Cat.pokemon) EmptyString))))));
    [|done|done|lia|].
  - cbn [app].
    by rewrite (map_seq_nth
                  (fun name =>
                     (name, List.filter (decoded_back CONSTANTS)
                              (take 65 (default [] (dict_get entries name)))))).
  - intros j [_ Hj]. cbn [Nat.add] in Hj.
    destruct (lookup_lt_is_Some_2 _ _ Hj) as [name Hname].
    rewrite (nth_lookup_Some _ _ _ _ Hname).
    destruct (decide (name ∈ entries.*1)) as [Hin|Hout].
    + apply list_elem_of_fmap in Hin as ([name' ml] & -> & Hin). cbn [fst] in *.
      rewrite (dict_get_NoDup _ _ _ Hnd Hin). cbn [default from_option id].
      pose proof (unpack_written_packable _ _ _ _ Hnd Hp Hin) as Hu.
      unfold creature_index in Hu.
      rewrite (list_index_NoDup _ _ _ Hpok Hname) in Hu. exact Hu.
    + rewrite dict_get_None by done. cbn [default from_option id take List.filter].
      apply unpack_moves_blank; [done|lia|].
      apply record_untouched; [done|].
      intros item Hi Heq. apply Hout.
      pose proof (packable_elem_of _ _ _ Hp Hi) as Hk.
      destruct (creature_index_spec _ _ Hk) as (_ & Hlk & _).
      rewrite Heq, Hname in Hlk. injection Hlk as ->.
      by apply (list_elem_of_fmap_2 fst).
Qed.

Lemma wazaoboe_file_roundtrip_witness :
  exists buffer stdout,
    Wazaoboe.pack_wazaoboe Demo.constants Demo.learnsets = OK (buffer, stdout)
    /\ Wazaoboe.unpack_wazaoboe Demo.constants buffer
       = OK [("Egg"%string, [Demo.pound 5; Demo.pound 9]);
             ("Bulbasaur"%string, []);
             ("Ivysaur"%string, replicate 65 (Demo.pound 7))].
Proof.
  apply (wazaoboe_file_roundtrip Demo.constants Demo.learnsets).
  - apply (bool_decide_unpack _). vm_compute. exact I.
  - apply (bool_decide_unpack _). vm_compute. exact I.
  - vm_compute. reflexivity.
Defined.

(** ** pokecaplist.bin: the loop, the layout, the exceptions *)

Lemma unpack_codes_icon (r : list Z) :
  Struct.unpack_codes Pokecaplist.POKECAPLIST_ENTRY_STRUCT r
  = [Struct.VInt (int_at r 0 2); Struct.VInt (int_at r 2 2);
     Struct.VInt (int_at r 4 2); Struct.VBool (negb (int_at r 7 1 =? 0))].
Proof.
  unfold int_at.
  cbn [Struct.unpack_codes Pokecaplist.POKECAPLIST_ENTRY_STRUCT replicate app
         Struct.size].
  by rewrite !drop_drop, drop_0.
Qed.

(** The loop of [unpack_pokecaplist] from a whole number of entries on:
    [length buffer] turns are enough, and the three ways it ends. *)
Lemma unpack_while_result (CONSTANTS : Constants) (buffer : list Z) (fuel k : nat)
  (acc : list Pokecaplist.IconEntry) :
  (length buffer - 8 * k <= fuel)%nat -> (8 * k <= length buffer)%nat ->
  exists r,
    Pokecaplist.unpack_while fuel CONSTANTS buffer (8 * k) acc = Some r
    /\ match r with
       | OK entries =>
           (8 * k + 8 * length entries = length buffer + 8 * length acc)%nat
       | Raise IndexError => True
       | Raise StructError => (length buffer mod 8 <> 0)%nat
       | Raise ValueError => False
       end.
Proof.
  revert k acc; induction fuel as [|fuel IH]; intros k acc Hf Hk.
  - cbn [Pokecaplist.unpack_while].
    destruct (Nat.ltb_spec (8 * k) (length buffer)); [lia|].
    eexists. split; [done|]. cbn. lia.
  - cbn [Pokecaplist.unpack_while].
    destruct (Nat.ltb_spec (8 * k) (length buffer)) as [Hlt|Hge];
      [|eexists; split; [done|cbn; lia]].
    unfold Struct.unpack_from.
    change (Struct.calcsize Pokecaplist.POKECAPLIST_ENTRY_STRUCT) with 8%nat.
    destruct (Nat.leb_spec (8 * k + 8) (length buffer)) as [Hfit|Hcut].
    + rewrite unpack_codes_icon.
      destruct (cnstname CONSTANTS Cat.genders _) as [name|e] eqn:Hn.
      * replace (8 * k + 8)%nat with (8 * S k)%nat by lia.
        destruct (IH (S k)
                    (acc ++ [{| Pokecaplist.icon_id := int_at (drop (8 * k) buffer) 0 2;
                                Pokecaplist.form_id := int_at (drop (8 * k) buffer) 2 2;
                                Pokecaplist.gender_type := name;
                                Pokecaplist.is_gigantamax :=
                                  negb (int_at (drop (8 * k) buffer) 7 1 =? 0) |}]))
          as (r & Hr & Hres); [lia|lia|].
        exists r. split; [done|].
        destruct r as [entries|[| |]]; try done.
        rewrite length_app in Hres. cbn [length] in Hres. lia.
      * apply cnstname_error in Hn as ->. eexists. split; [done|]. done.
    + eexists. split; [done|]. cbn beta iota. intros Hmod.
      pose proof (Nat.div_mod_eq (length buffer) 8). lia.
Qed.

(** X17: [unpack_pokecaplist] always terminates. It returns entries only for a
    file of whole entries, eight bytes each; [struct.error] is raised only
    for a file that ends in a partial entry; the only other exception is
    the [IndexError] of a gender code without a name. *)
Theorem unpack_pokecaplist_result (CONSTANTS : Constants) (buffer : list Z) :
  exists r,
    Pokecaplist.unpack_pokecaplist CONSTANTS buffer = Some r
    /\ match r with
       | OK entries => length buffer = (8 * length entries)%nat
       | Raise IndexError => True
       | Raise StructError => (length buffer mod 8 <> 0)%nat
       | Raise ValueError => False
       end.
Proof.
  destruct (unpack_while_result CONSTANTS buffer (length buffer) 0 [])
    as (r & Hr & Hres); [lia|lia|].
  exists r. split; [exact Hr|].
  destruct r as [entries|[| |]]; try done. cbn [length] in Hres. lia.
Qed.

(** The bytes [pack_pokecaplist] writes for valid entries. *)
Lemma pack_pokecaplist_image (CONSTANTS : Constants)
  (entries : list Pokecaplist.IconEntry) :
  forallb (valid_icon CONSTANTS) entries = true ->
  Pokecaplist.pack_pokecaplist CONSTANTS entries
  = OK (concat (map (icon_bytes CONSTANTS) entries)).
Proof.
  intros Hv. unfold Pokecaplist.pack_pokecaplist.
  rewrite pack_icons by (rewrite ?length_replicate; done || lia).
  cbn [bind fst]. f_equal.
  rewrite list_inserts_take_drop
    by (rewrite length_concat_icon_bytes, length_replicate; lia).
  rewrite take_0, drop_ge, app_nil_r; [done|].
  rewrite length_concat_icon_bytes, length_replicate. lia.
Qed.

(** X18: [pack_pokecaplist] lays the entries out in input order, eight bytes
    each: the icon, the form and the gender code as 16-bit little-endian
    integers, a zero byte, and the flag as 0 or 1. *)
Theorem pack_pokecaplist_layout (CONSTANTS : Constants)
  (entries : list Pokecaplist.IconEntry) :
  forallb (valid_icon CONSTANTS) entries = true ->
  exists buffer,
    Pokecaplist.pack_pokecaplist CONSTANTS entries = OK buffer
    /\ length buffer = (8 * length entries)%nat
    /\ forall j e, entries !! j = Some e ->
         record 8 buffer j
         = to_bytes 2 (Pokecaplist.icon_id e)
           ++ to_bytes 2 (Pokecaplist.form_id e)
           ++ to_bytes 2 (code_of CONSTANTS Cat.genders (Pokecaplist.gender_type e))
           ++ [0; if Pokecaplist.is_gigantamax e then 1 else 0].
Proof.
  intros Hv. eexists. split; [by apply pack_pokecaplist_image|].
  split; [rewrite length_concat_icon_bytes; lia|].
  intros j e Hj. unfold record.
  rewrite <- (take_drop_middle _ _ _ Hj) at 1.
  rewrite map_app, concat_app. cbn [map concat].
  rewrite drop_app_length'.
  - apply (take_app_length' (icon_bytes CONSTANTS e)). reflexivity.
  - rewrite length_concat_icon_bytes, length_take.
    apply lookup_lt_Some in Hj. lia.
Qed.

Lemma pack_pokecaplist_layout_witness :
  exists buffer,
    Pokecaplist.pack_pokecaplist Demo.constants [Demo.icon; Demo.icon] = OK buffer
    /\ record 8 buffer 1 = [3; 0; 1; 0; 1; 0; 0; 1].
Proof.
  destruct (pack_pokecaplist_layout Demo.constants [Demo.icon; Demo.icon])
    as (buffer & Hp & _ & Hrec); [vm_compute; reflexivity|].
  exists buffer. split; [exact Hp|].
  rewrite (Hrec 1%nat Demo.icon eq_refl). vm_compute. reflexivity.
Defined.

(** X19: The first entry that cannot be encoded stops [pack_pokecaplist]: with
    [ValueError] when its gender is not in the genders category (whatever
    its numbers are), with [struct.error] when the gender is known but its
    code, the icon or the form is outside 0 .. 0xFFFF. *)
Theorem pack_pokecaplist_bad_entry (CONSTANTS : Constants)
  (before after : list Pokecaplist.IconEntry) (e : Pokecaplist.IconEntry) :
  forallb (valid_icon CONSTANTS) before = true ->
  valid_icon CONSTANTS e = false ->
  Pokecaplist.pack_pokecaplist CONSTANTS (before ++ e :: after)
  = Raise (if bool_decide (Pokecaplist.gender_type e ∈ CONSTANTS Cat.genders)
           then StructError else ValueError).
Proof.
  intros Hv Hbad. unfold Pokecaplist.pack_pokecaplist.
  rewrite for_each_app.
  rewrite pack_icons
    by (rewrite ?length_replicate, ?length_app; cbn [length]; done || lia).
  cbn [bind for_each]. unfold Pokecaplist.pack_entry at 1.
  case_bool_decide as Hg; [|by rewrite cnstval_absent].
  destruct (cnstval_elem_of _ _ _ Hg) as [g Hgv]. rewrite Hgv. cbn [bind].
  assert (Hcode : g = code_of CONSTANTS Cat.genders (Pokecaplist.gender_type e)
                  /\ 0 <= g).
  { unfold cnstval, code_of in *.
    destruct (list_index _ _); [|discriminate]. injection Hgv as <-.
    cbn [default from_option id]. lia. }
  destruct Hcode as [-> Hg0].
  assert (Hkb : known_below CONSTANTS Cat.genders 65536 (Pokecaplist.gender_type e)
                = (code_of CONSTANTS Cat.genders (Pokecaplist.gender_type e)
                   <? 65536)).
  { unfold known_below, code_of, cnstval in *.
    by destruct (list_index _ _); [|discriminate]. }
  unfold valid_icon in Hbad. rewrite Hkb in Hbad. unfold in_range in Hbad.
  unfold Struct.pack_into.
  destruct (_ <=? _)%nat; [|done].
  cbn [Struct.pack Pokecaplist.POKECAPLIST_ENTRY_STRUCT replicate app
         Struct.pack_value].
  unfold Struct.pack_int. change (256 ^ Z.of_nat 2) with 65536.
  destruct ((0 <=? Pokecaplist.icon_id e) && (Pokecaplist.icon_id e <? 65536));
    [|done].
  cbn [bind].
  destruct ((0 <=? Pokecaplist.form_id e) && (Pokecaplist.form_id e <? 65536));
    [|done].
  cbn [bind andb] in Hbad |- *.
  apply Z.leb_le in Hg0. rewrite Hg0, Hbad. done.
Qed.

Lemma pack_pokecaplist_bad_entry_witness :
  Pokecaplist.pack_pokecaplist Demo.constants
    ([Demo.icon]
     ++ {| Pokecaplist.icon_id := 65536; Pokecaplist.form_id := 0;
           Pokecaplist.gender_type := "Female";
           Pokecaplist.is_gigantamax := false |} :: [])
  = Raise StructError
  /\ Pokecaplist.pack_pokecaplist Demo.constants
       ([Demo.icon]
        ++ {| Pokecaplist.icon_id := 65536; Pokecaplist.form_id := 0;
              Pokecaplist.gender_type := "female";
              Pokecaplist.is_gigantamax := false |} :: [])
     = Raise ValueError.
Proof.
  split.
  - apply (pack_pokecaplist_bad_entry Demo.constants [Demo.icon] []
             {| Pokecaplist.icon_id := 65536; Pokecaplist.form_id := 0;
                Pokecaplist.gender_type := "Female";
                Pokecaplist.is_gigantamax := false |});
      vm_compute; reflexivity.
  - apply (pack_pokecaplist_bad_entry Demo.constants [Demo.icon] []
             {| Pokecaplist.icon_id := 65536; Pokecaplist.form_id := 0;
                Pokecaplist.gender_type := "female";
                Pokecaplist.is_gigantamax := false |});
      vm_compute; reflexivity.
Defined.

(** ** pokecaplist.bin: decoding, then encoding *)

Lemma two_bytes (a b : Z) :
  0 <= a < 256 -> 0 <= b < 256 -> to_bytes 2 (from_bytes [a; b]) = [a; b].
Proof.
  intros Ha Hb. apply (to_bytes_from_bytes [a; b]).
  apply all_bytes_cons. split; [done|]. apply all_bytes_cons. by split.
Qed.

(** A record as [pack_pokecaplist] writes them decodes to a valid entry
    whose bytes it is. *)
Lemma icon_record (CONSTANTS : Constants) (r : list Z) :
  NoDup (CONSTANTS Cat.genders) ->
  all_bytes r = true -> (8 <= length r)%nat ->
  icon_record_ok CONSTANTS r = true ->
  valid_icon CONSTANTS (icon_of CONSTANTS r) = true
  /\ icon_bytes CONSTANTS (icon_of CONSTANTS r) = take 8 r.
Proof.
  intros Hnd Hb Hl Hok.
  unfold icon_record_ok in Hok. rewrite !andb_true_iff in Hok.
  destruct Hok as [[Hname Hpad%Z.eqb_eq] Hflag%Z.ltb_lt].
  pose proof (int_at_bound r 0 2 Hb ltac:(lia)) as Hicon.
  pose proof (int_at_bound r 2 2 Hb ltac:(lia)) as Hform.
  pose proof (int_at_bound r 4 2 Hb ltac:(lia)) as Hgender.
  pose proof (int_at_bound r 7 1 Hb ltac:(lia)) as Hgiga.
  change (256 ^ Z.of_nat 2) with 65536 in *.
  destruct (has_name_spec _ _ _ Hnd (proj1 Hgender) Hname) as (name & Hn & Hv).
  assert (Hnth : nth (Z.to_nat (int_at r 4 2)) (CONSTANTS Cat.genders) EmptyString
                 = name).
  { unfold cnstname in Hn. apply py_getitem_OK_nonneg in Hn; [|lia].
    by apply nth_lookup_Some. }
  assert (Hcode : code_of CONSTANTS Cat.genders name = int_at r 4 2).
  { unfold cnstval, code_of in *.
    destruct (list_index _ _); [|discriminate]. by injection Hv as <-. }
  split.
  - unfold valid_icon, icon_of.
    cbn [Pokecaplist.icon_id Pokecaplist.form_id Pokecaplist.gender_type].
    rewrite Hnth. rewrite !andb_true_iff. repeat split.
    + by apply in_range_spec.
    + by apply in_range_spec.
    + unfold known_below, cnstval in *.
      destruct (list_index _ _); [|discriminate]. injection Hv as Hv.
      apply Z.ltb_lt. lia.
  - unfold icon_bytes, icon_of.
    cbn [Pokecaplist.icon_id Pokecaplist.form_id Pokecaplist.gender_type
           Pokecaplist.is_gigantamax].
    rewrite Hnth, Hcode.
    destruct r as [|b0 [|b1 [|b2 [|b3 [|b4 [|b5 [|b6 [|b7 rest]]]]]]]];
      cbn [length] in Hl; try lia.
    repeat (apply all_bytes_cons in Hb as [? Hb]).
    unfold int_at in *. cbn [drop take] in *. rewrite ?take_0 in *.
    cbn [from_bytes] in Hpad, Hflag, Hgiga.
    change (from_bytes [b7]) with (b7 + 256 * 0).
    rewrite !two_bytes by done.
    assert (b6 = 0) as -> by lia.
    assert (Hb7 : (if negb (b7 + 256 * 0 =? 0) then 1 else 0) = b7).
    { destruct (Z.eqb_spec (b7 + 256 * 0) 0); cbn [negb]; lia. }
    rewrite Hb7. reflexivity.
Qed.

(** A list is the concatenation of its records. *)
Lemma concat_records {A : Type} (size n : nat) (l : list A) :
  length l = (n * size)%nat ->
  concat (map (fun k => take size (drop (k * size) l)) (seq 0 n)) = l.
Proof.
  revert l; induction n as [|n IH]; intros l Hl.
  - destruct l; [done|discriminate].
  - cbn [seq map concat Nat.mul]. rewrite drop_0.
    rewrite <- seq_shift, map_map.
    rewrite <- (take_drop size l) at 2. f_equal.
    rewrite <- (IH (drop size l)) by (rewrite length_drop; lia).
    f_equal. apply map_ext. intros k. by rewrite drop_drop.
Qed.

(** X20: Decoding an icon file as [pack_pokecaplist] writes them (whole
    entries, named gender codes, zero pad bytes, flags 0 or 1) and encoding
    the entries gives the file back, byte for byte, when no gender name is
    repeated. *)
Theorem pokecaplist_decode_encode (CONSTANTS : Constants) (buffer : list Z) :
  NoDup (CONSTANTS Cat.genders) ->
  icon_file_ok CONSTANTS buffer = true ->
  exists entries,
    Pokecaplist.unpack_pokecaplist CONSTANTS buffer = Some (OK entries)
    /\ length entries = (length buffer / 8)%nat
    /\ Pokecaplist.pack_pokecaplist CONSTANTS entries = OK buffer.
Proof.
  intros Hnd Hok. unfold icon_file_ok in Hok. rewrite !andb_true_iff in Hok.
  destruct Hok as [[Hb Hmod%Nat.eqb_eq] Hrec].
  rewrite forallb_forall in Hrec.
  set (n := (length buffer / 8)%nat) in *.
  assert (Hlen : length buffer = (n * 8)%nat).
  { pose proof (Nat.div_mod_eq (length buffer) 8). unfold n. lia. }
  set (es := map (fun k => icon_of CONSTANTS (drop (k * 8) buffer)) (seq 0 n)).
  assert (Hk : forall k, In k (seq 0 n) ->
            valid_icon CONSTANTS (icon_of CONSTANTS (drop (k * 8) buffer)) = true
            /\ icon_bytes CONSTANTS (icon_of CONSTANTS (drop (k * 8) buffer))
               = take 8 (drop (k * 8) buffer)).
  { intros k Hin. pose proof Hin as Hlt%in_seq. apply icon_record; try done.
    - by apply all_bytes_drop.
    - rewrite length_drop. lia.
    - by apply Hrec. }
  assert (Hv : forallb (valid_icon CONSTANTS) es = true).
  { apply forallb_forall. intros e (k & <- & Hin)%in_map_iff. by apply Hk. }
  assert (Himg : concat (map (icon_bytes CONSTANTS) es) = buffer).
  { unfold es. rewrite map_map.
    etrans; [|exact (concat_records 8 n buffer Hlen)]. f_equal.
    apply map_ext_in. intros k Hin. by apply Hk. }
  exists es. split; [|split].
  - unfold Pokecaplist.unpack_pokecaplist.
    pose proof (unpack_icons CONSTANTS es (length buffer) [] [] Hv) as Hu.
    cbn [app length] in Hu. rewrite Himg in Hu. apply Hu.
    unfold es. rewrite length_map, length_seq. lia.
  - unfold es. by rewrite length_map, length_seq.
  - by rewrite pack_pokecaplist_image, Himg.
Qed.

Lemma pokecaplist_decode_encode_witness :
  exists entries,
    Pokecaplist.unpack_pokecaplist Demo.constants
      [3; 0; 1; 0; 1; 0; 0; 1; 7; 1; 0; 0; 0; 0; 0; 0] = Some (OK entries)
    /\ length entries = 2%nat
    /\ Pokecaplist.pack_pokecaplist Demo.constants entries
       = OK [3; 0; 1; 0; 1; 0; 0; 1; 7; 1; 0; 0; 0; 0; 0; 0].
Proof.
  apply (pokecaplist_decode_encode Demo.constants
           [3; 0; 1; 0; 1; 0; 0; 1; 7; 1; 0; 0; 0; 0; 0; 0]).
  - apply (bool_decide_unpack _). vm_compute. exact I.
  - vm_compute. reflexivity.
Defined.

(** ** Creature records: what the decoder returns can be encoded *)

Lemma cnstname_known_below (CONSTANTS : Constants) (category : Cat.category)
  (bound code : Z) (cname : string) :
  0 <= code < bound ->
  cnstname CONSTANTS category code = OK cname ->
  known_below CONSTANTS category bound cname = true.
Proof.
  intros Hc Hn. unfold cnstname in Hn.
  apply py_getitem_OK_nonneg in Hn; [|lia].
  destruct (list_index_elem_of (CONSTANTS category) cname) as [j Hj].
  { apply list_elem_of_lookup. eauto. }
  pose proof (list_index_first _ _ _ _ Hj Hn).
  unfold known_below. rewrite Hj. apply Z.ltb_lt. lia.
Qed.

Lemma is_hex_of_hex (bs : list Z) :
  all_bytes bs = true -> is_hex_of (length bs) (hex bs) = true.
Proof.
  unfold is_hex_of. induction bs as [|b bs IH]; intros Hb; [done|].
  apply all_bytes_cons in Hb as [Hb Hbs].
  apply andb_true_iff in IH as [Hl%Nat.eqb_eq Hd]; [|done].
  assert (Hhi : 0 <= b / 16 < 16)
    by (split; [apply Z.div_pos; lia | apply Z.div_lt_upper_bound; lia]).
  assert (Hlo : 0 <= b mod 16 < 16) by (apply Z.mod_pos_bound; lia).
  destruct (hex_digit_spec _ Hhi) as (_ & _ & H1).
  destruct (hex_digit_spec _ Hlo) as (_ & _ & H2).
  cbn [hex String.length length list_ascii_of_string forallb].
  rewrite H1, H2, Hd, Hl. cbn [andb]. rewrite andb_true_r.
  apply Nat.eqb_eq. lia.
Qed.

Lemma subset_of_selected (bits : list Z) (master : list string) :
  subset_of (selected bits 0 master) master = true.
Proof.
  unfold subset_of. apply forallb_forall. intros move Hin%list_elem_of_In.
  apply bool_decide_eq_true.
  apply elem_of_selected in Hin as (i & Hi & _).
  apply list_elem_of_lookup. eauto.
Qed.

(** The names a bit buffer selects are in the order of the master
    list. *)
Lemma members_selected (bits : list Z) (master : list string) :
  NoDup master ->
  members (selected bits 0 master) master = selected bits 0 master.
Proof.
  intros Hnd. symmetry. apply selected_members. intros j move Hj.
  cbn [Nat.add]. destruct (bit_of bits j) eqn:Hbit; symmetry.
  - apply bool_decide_eq_true, elem_of_selected. by exists j.
  - apply bool_decide_eq_false. intros (i & Hi & Hbi)%elem_of_selected.
    rewrite (NoDup_lookup _ _ _ _ Hnd Hi Hj) in Hbi. cbn in Hbi. congruence.
Qed.

Lemma land_3_range (x : Z) : in_range 4 (Z.land x 3) = true.
Proof.
  apply in_range_spec. change 3 with (Z.ones 2).
  rewrite Z.land_ones by lia. apply Z.mod_pos_bound. lia.
Qed.

Lemma land_63_range (x : Z) : 0 <= Z.land x 63 < 64.
Proof.
  change 63 with (Z.ones 6).
  rewrite Z.land_ones by lia. apply Z.mod_pos_bound. lia.
Qed.

(** Whatever the bytes of a record are, the entry it decodes to is valid,
    with its learnsets in the order of their master lists. *)
Lemma decoded_entry_valid (CONSTANTS : Constants) (buffer : list Z) (offset : nat)
  (e : Personal.Entry) :
  registry_fits CONSTANTS = true ->
  (forall category, NoDup (CONSTANTS category)) ->
  all_bytes buffer = true ->
  Personal.unpack_entry CONSTANTS buffer offset = OK e ->
  valid_entry CONSTANTS e = true /\ normalize CONSTANTS e = e.
Proof.
  intros (Ht & Hr & Hm & Ha)%registry_fits_spec Hnd Hb.
  unfold Personal.unpack_entry, Struct.unpack_from. rewrite calcsize_personal.
  destruct (Nat.leb_spec (offset + 0xB0) (length buffer)) as [Hlen|];
    [|discriminate].
  cbn [bind].
  assert (Hbr : all_bytes (drop offset buffer) = true) by by apply all_bytes_drop.
  assert (Hlr : (0xB0 <= length (drop offset buffer))%nat)
    by (rewrite length_drop; lia).
  revert Hbr Hlr. generalize (drop offset buffer). intros r Hbr Hlr.
  assert (Hint : forall off n, (off + n <= 0xB0)%nat ->
                   0 <= int_at r off n < 256 ^ Z.of_nat n)
    by (intros off n Hn; apply int_at_bound; [done|lia]).
  rewrite unpack_codes_personal. cbv iota. intros H.
  repeat (let x := fresh "x" in
          let Hx := fresh "Hx" in
          apply bind_OK in H as (x & Hx & H)).
  injection H as <-.
  repeat match goal with
         | H : Personal.parse_learnset_bits _ _ _ = OK _ |- _ =>
             rewrite parse_learnset_bits_spec in H
               by (rewrite length_bytes_at; lia);
             injection H as <-
         end.
  split.
  - unfold valid_entry. entry_simpl.
    repeat match goal with
           | |- _ && _ = true => apply andb_true_intro; split
           end;
      match goal with
          | |- known_below ?C ?cat ?b ?name = true =>
              match goal with
              | Hn : cnstname C cat ?code = OK name |- _ =>
                  apply (cnstname_known_below C cat b code name);
                  [first [apply land_63_range | apply Hint; lia]|exact Hn]
              end
          | |- in_range 4 _ = true => apply land_3_range
          | |- in_range _ (int_at _ _ _) = true =>
              apply in_range_spec, Hint; lia
          | |- subset_of _ _ = true => apply subset_of_selected
          | |- is_hex_of 72 _ = true =>
              rewrite <- (length_bytes_at r 96 72) at 1 by lia;
              apply is_hex_of_hex; by apply all_bytes_bytes_at
          end.
  - unfold normalize, set_learnsets. entry_simpl.
    by rewrite !members_selected by apply Hnd.
Qed.

(** X21: The tool's output is stable: whatever the bytes of a record are (also
    with bits set that the format does not specify), the entry decoded
    from it is valid, is encoded without an exception, and the record
    written decodes to the same entry again. *)
Theorem decoded_entry_reencodes (CONSTANTS : Constants) (buffer : list Z)
  (offset : nat) (e : Personal.Entry) (name : string) (target : list Z)
  (position : nat) :
  registry_fits CONSTANTS = true ->
  (forall category, NoDup (CONSTANTS category)) ->
  all_bytes buffer = true ->
  Personal.unpack_entry CONSTANTS buffer offset = OK e ->
  (position + 0xB0 <= length target)%nat ->
  valid_entry CONSTANTS e = true
  /\ exists target',
       Personal.pack_entry CONSTANTS (name, e) (target, position)
       = OK (target', (position + 0xB0)%nat)
       /\ Personal.unpack_entry CONSTANTS target' position = OK e.
Proof.
  intros Hfit Hnd Hb Hu Hpos.
  destruct (decoded_entry_valid _ _ _ _ Hfit Hnd Hb Hu) as [Hv Hnorm].
  split; [done|].
  destruct (pack_entry_valid CONSTANTS name e target position Hfit Hv Hpos)
    as (bytes & _ & _ & Hp & Hd).
  eexists. split; [exact Hp|]. by rewrite Hd, Hnorm.
Qed.

Lemma decoded_entry_reencodes_witness :
  exists e target',
    Personal.unpack_entry Demo.constants Demo.bit_13_record 0 = OK e
    /\ Personal.pack_entry Demo.constants ("Egg"%string, e)
         (Personal.BLANK_PRSNL_ENTRY, 0%nat) = OK (target', 0xB0%nat)
    /\ target' <> Demo.bit_13_record
    /\ Personal.unpack_entry Demo.constants target' 0 = OK e.
Proof.
  destruct (Personal.unpack_entry Demo.constants Demo.bit_13_record 0)
    as [e|] eqn:Hu; [|vm_compute in Hu; discriminate].
  destruct (decoded_entry_reencodes Demo.constants Demo.bit_13_record 0 e
              "Egg"%string Personal.BLANK_PRSNL_ENTRY 0)
    as (_ & target' & Hp & Hd).
  - vm_compute. reflexivity.
  - intros []; apply (bool_decide_unpack _); vm_compute; exact I.
  - vm_compute. reflexivity.
  - exact Hu.
  - vm_compute. lia.
  - exists e, target'. split; [reflexivity|]. split; [exact Hp|].
    split; [|exact Hd].
    intros ->. vm_compute in Hu. injection Hu as <-.
    apply (f_equal (fun r => match r with
                             | OK (b, _) => nth 0x0B b 0
                             | Raise _ => 0
                             end)) in Hp.
    vm_compute in Hp. discriminate Hp.
Defined.

(** ** [unpack_personal] then [pack_personal]: the whole file *)

(** X22: Any file of one record per creature that [unpack_personal] decodes
    (its bytes need not be what [pack_personal] would write) gives a
    dictionary that [pack_personal] encodes without an exception, into a
    file that decodes to the same dictionary. *)
Theorem personal_file_stable (CONSTANTS : Constants) (buffer : list Z)
  (entries : dict Personal.Entry) :
  registry_fits CONSTANTS = true ->
  (forall category, NoDup (CONSTANTS category)) ->
  all_bytes buffer = true ->
  (length buffer / 0xB0)%nat = length (CONSTANTS Cat.pokemon) ->
  Personal.unpack_personal CONSTANTS buffer = OK entries ->
  exists buffer',
    Personal.pack_personal CONSTANTS entries = OK buffer'
    /\ length buffer' = (length (CONSTANTS Cat.pokemon) * 0xB0)%nat
    /\ Personal.unpack_personal CONSTANTS buffer' = OK entries.
Proof.
  intros Hr Hnd Hb Hn Hu.
  pose proof Hu as Hloop. unfold Personal.unpack_personal, range in Hloop.
  destruct (keyed_loop (CONSTANTS Cat.pokemon)
              (fun i => Personal.unpack_entry CONSTANTS buffer (i * 0xB0)%nat)
              (length buffer / 0xB0) 0 [] entries (Hnd Cat.pokemon) eq_refl Hloop)
    as (es & -> & _ & Hlen & Hes).
  cbn [app] in *. rewrite Hn in Hlen.
  assert (Hdec : forall j name e, es !! j = Some (name, e) ->
            Personal.unpack_entry CONSTANTS buffer (j * 0xB0) = OK e
            /\ valid_entry CONSTANTS e = true /\ normalize CONSTANTS e = e).
  { intros j name e Hj. destruct (Hes j name e Hj) as [Hf _].
    rewrite Nat.add_0_l in Hf. split; [done|].
    by eapply decoded_entry_valid. }
  assert (Hv : valid_entries CONSTANTS es = true).
  { apply forallb_forall. intros [name e] Hin%list_elem_of_In.
    apply list_elem_of_lookup in Hin as [j Hj]. cbn [snd].
    by destruct (Hdec j name e Hj) as (_ & Hve & _). }
  pose proof (length_concat_record_bytes _ _ Hr Hv) as Himg.
  assert (Hbuf : length
                   (concat (map (fun item => record_bytes CONSTANTS (snd item)) es)
                    ++ drop (length es * 0xB0)
                         (concat (replicate (length (CONSTANTS Cat.pokemon))
                                    Personal.BLANK_PRSNL_ENTRY)))
                 = (length (CONSTANTS Cat.pokemon) * 0xB0)%nat).
  { rewrite length_app, Himg, length_drop, length_concat_replicate.
    change (length Personal.BLANK_PRSNL_ENTRY) with 0xB0%nat. lia. }
  eexists. split; [apply pack_personal_image; [done|done|lia]|].
  split; [done|].
  rewrite <- Hu. unfold Personal.unpack_personal.
  rewrite Hbuf, Nat.div_mul, Hn by lia.
  apply for_each_ext_in. intros i acc Hi. apply elem_of_seq in Hi.
  destruct (lookup_lt_is_Some_2 es i) as [[name e] Hj]; [lia|].
  destruct (Hdec i name e Hj) as (Hold & _ & Hnorm).
  rewrite (unpack_entry_image _ _ _ _ _ _ Hr Hv Hj), Hnorm.
  by rewrite Hold.
Qed.

Lemma personal_file_stable_witness :
  exists entries buffer',
    Personal.unpack_personal Demo.constants (<[0x0B%nat := 0x20]> Demo.blob)
    = OK entries
    /\ Personal.pack_personal Demo.constants entries = OK buffer'
    /\ buffer' <> <[0x0B%nat := 0x20]> Demo.blob
    /\ Personal.unpack_personal Demo.constants buffer' = OK entries.
Proof.
  destruct (Personal.unpack_personal Demo.constants
              (<[0x0B%nat := 0x20]> Demo.blob)) as [entries|] eqn:Hu;
    [|vm_compute in Hu; discriminate].
  destruct (personal_file_stable Demo.constants
              (<[0x0B%nat := 0x20]> Demo.blob) entries)
    as (buffer' & Hp & _ & Hd).
  - vm_compute. reflexivity.
  - intros []; apply (bool_decide_unpack _); vm_compute; exact I.
  - vm_compute. reflexivity.
  - vm_compute. reflexivity.
  - exact Hu.
  - exists entries, buffer'. split; [reflexivity|]. split; [exact Hp|].
    split; [|exact Hd].
    intros ->. vm_compute in Hu. injection Hu as <-.
    apply (f_equal (fun r => match r with
                             | OK b => nth 0x0B b 0
                             | Raise _ => 0
                             end)) in Hp.
    vm_compute in Hp. discriminate Hp.
Defined.

(** ** Learnset tables: names outside the master list, tables too long *)

Lemma elem_of_enumerate_from {A : Type} (a : Z) (l : list A) (i : Z) (x : A) :
  (i, x) ∈ Personal.enumerate_from a l -> x ∈ l.
Proof.
  revert a; induction l as [|y l IH]; intros a; cbn [Personal.enumerate_from].
  - by intros ?%elem_of_nil.
  - intros [[= _ ->]|H]%elem_of_cons; [apply list_elem_of_here|].
    apply list_elem_of_further. by eapply IH.
Qed.

Lemma enumerate_from_app {A : Type} (a : Z) (l1 l2 : list A) :
  Personal.enumerate_from a (l1 ++ l2)
  = Personal.enumerate_from a l1
    ++ Personal.enumerate_from (a + Z.of_nat (length l1)) l2.
Proof.
  revert a; induction l1 as [|x l1 IH]; intros a;
    cbn [Personal.enumerate_from app length].
  - by rewrite Z.add_0_r.
  - rewrite IH. do 3 f_equal. lia.
Qed.

(** Two learnsets that hold the same names of the master list are packed
    alike. *)
Lemma pack_learnset_bits_ext (CONSTANTS : Constants) (consts_name : Cat.category)
  (S1 S2 : list string) (size : nat) :
  (forall move, move ∈ CONSTANTS consts_name -> move ∈ S1 <-> move ∈ S2) ->
  Personal.pack_learnset_bits CONSTANTS consts_name S1 size
  = Personal.pack_learnset_bits CONSTANTS consts_name S2 size.
Proof.
  intros H. unfold Personal.pack_learnset_bits. apply for_each_ext_in.
  intros [index move] bits Hin%elem_of_enumerate_from.
  unfold Personal.pack_bit. by rewrite (bool_decide_ext _ _ (H move Hin)).
Qed.

(** X23: A name of a learnset that is not in the master list of its table is
    ignored by [pack_personal]: no exception, and the same bytes as
    without the name; after decoding, the name is gone. *)
Theorem learnset_unknown_names_ignored (CONSTANTS : Constants)
  (consts_name : Cat.category) (learnset : list string) (size : nat) :
  (length (CONSTANTS consts_name) <= 8 * size)%nat ->
  exists bits,
    Personal.pack_learnset_bits CONSTANTS consts_name learnset size = OK bits
    /\ (forall move, move ∉ CONSTANTS consts_name ->
          Personal.pack_learnset_bits CONSTANTS consts_name (move :: learnset) size
          = OK bits)
    /\ Personal.pack_learnset_bits CONSTANTS consts_name
         (members learnset (CONSTANTS consts_name)) size = OK bits
    /\ Personal.parse_learnset_bits CONSTANTS consts_name bits
       = OK (members learnset (CONSTANTS consts_name)).
Proof.
  intros Hfit.
  destruct (pack_learnset_bits_spec CONSTANTS consts_name learnset size Hfit)
    as (bits & Hp & _).
  exists bits. split; [done|]. split; [|split].
  - intros move Hout. rewrite <- Hp. apply pack_learnset_bits_ext.
    intros m Hm. rewrite elem_of_cons. split; [|tauto].
    intros [->|H]; [done|exact H].
  - rewrite <- Hp. apply pack_learnset_bits_ext.
    intros m Hm. rewrite elem_of_members. tauto.
  - by apply (parse_pack_learnset_bits _ _ _ size).
Qed.

Lemma learnset_unknown_names_ignored_witness :
  exists bits,
    Personal.pack_learnset_bits Demo.constants Cat.tms
      (Personal.tms Demo.bulbasaur) 16 = OK bits
    /\ Personal.pack_learnset_bits Demo.constants Cat.tms
         ("TM999 No Such Move"%string :: Personal.tms Demo.bulbasaur) 16 = OK bits.
Proof.
  destruct (learnset_unknown_names_ignored Demo.constants Cat.tms
              (Personal.tms Demo.bulbasaur) 16) as (bits & Hp & Hout & _).
  - vm_compute. lia.
  - exists bits. split; [exact Hp|]. apply Hout.
    apply (bool_decide_unpack _). vm_compute. exact I.
Defined.

(** A loop that returns has kept every invariant of its turns, and each
    of its turns returned from a state with the invariant. *)
Lemma for_each_OK_inv {A S : Type} (P : S -> Prop) (l : list A) (s s' : S)
  (body : A -> S -> result S) (a : A) :
  (forall x s1 s2, body x s1 = OK s2 -> P s1 -> P s2) ->
  P s -> for_each l s body = OK s' -> a ∈ l ->
  exists s1 s2, P s1 /\ body a s1 = OK s2.
Proof.
  intros Hinv. revert s; induction l as [|x l IH]; intros s Hs H Ha.
  - by apply elem_of_nil in Ha.
  - cbn [for_each] in H. apply bind_OK in H as (s1 & Hx & H).
    apply elem_of_cons in Ha as [->|Ha]; [eauto|].
    apply (IH s1); [by eapply Hinv|done|done].
Qed.

Lemma pack_bit_length (learnset : list string) (item : Z * string)
  (bits bits' : list Z) :
  Personal.pack_bit learnset item bits = OK bits' -> length bits' = length bits.
Proof.
  destruct item as [index move]. unfold Personal.pack_bit.
  destruct (bool_decide _); [|by intros [= <-]].
  destruct (py_getitem bits _); cbn [bind]; [|discriminate].
  intros [= <-]. apply length_insert.
Qed.

Lemma lookup_enumerate_from {A : Type} (a : Z) (l : list A) (k : nat) (x : A) :
  l !! k = Some x -> (a + Z.of_nat k, x) ∈ Personal.enumerate_from a l.
Proof.
  revert a k; induction l as [|y l IH]; intros a [|k] H; try done.
  - injection H as ->. cbn [Personal.enumerate_from].
    rewrite Z.add_0_r. apply list_elem_of_here.
  - cbn [Personal.enumerate_from]. apply list_elem_of_further.
    replace (a + Z.of_nat (S k)) with (a + 1 + Z.of_nat k) by lia.
    by apply IH.
Qed.

(** X24: The width of a learnset field bounds its master list. With a master
    list of more than eight names per byte of the field, decoding raises
    [IndexError] for every record, and encoding raises it for every
    learnset that holds a name beyond the width (and for no other). *)
Theorem learnset_table_too_long (CONSTANTS : Constants)
  (consts_name : Cat.category) :
  (forall bits,
     (8 * length bits < length (CONSTANTS consts_name))%nat ->
     Personal.parse_learnset_bits CONSTANTS consts_name bits = Raise IndexError)
  /\ (forall learnset size k move,
        CONSTANTS consts_name !! k = Some move -> (8 * size <= k)%nat ->
        move ∈ learnset ->
        Personal.pack_learnset_bits CONSTANTS consts_name learnset size
        = Raise IndexError).
Proof.
  split.
  - intros bits Hlong. unfold Personal.parse_learnset_bits, Personal.enumerate.
    rewrite <- (take_drop (8 * length bits) (CONSTANTS consts_name)).
    rewrite enumerate_from_app, for_each_app.
    rewrite (parse_bits_loop bits _ 0 []) by (rewrite length_take; lia).
    cbn [bind]. rewrite length_take, Nat.min_l by lia.
    destruct (lookup_lt_is_Some_2 (CONSTANTS consts_name) (8 * length bits))
      as [move Hmove]; [lia|].
    rewrite (drop_S _ _ _ Hmove). cbn [Personal.enumerate_from for_each].
    unfold Personal.parse_bit at 1.
    rewrite Z.add_0_l, shiftr_3_nat, py_getitem_nat.
    replace (8 * length bits / 8)%nat with (length bits)
      by (symmetry; rewrite Nat.mul_comm; apply Nat.div_mul; lia).
    by rewrite lookup_ge_None_2 by lia.
  - intros learnset size k move Hk Hwide Hin.
    destruct (Personal.pack_learnset_bits CONSTANTS consts_name learnset size)
      as [bits|e] eqn:Hp; [|by apply pack_learnset_bits_error in Hp as ->].
    unfold Personal.pack_learnset_bits, Personal.enumerate in Hp.
    destruct (for_each_OK_inv (fun bits => length bits = size) _ _ _ _
                (0 + Z.of_nat k, move)
                (fun x s1 s2 H Hs => eq_trans (pack_bit_length _ _ _ _ H) Hs)
                (length_replicate size 0) Hp)
      as (s1 & s2 & Hs1 & Hb).
    { by apply lookup_enumerate_from. }
    unfold Personal.pack_bit in Hb. rewrite bool_decide_eq_true_2 in Hb by done.
    rewrite Z.add_0_l, shiftr_3_nat, py_getitem_nat in Hb.
    rewrite lookup_ge_None_2 in Hb; [discriminate|].
    rewrite Hs1. apply Nat.div_le_lower_bound; lia.
Qed.

(** ** [unpack_wazaoboe] then [pack_wazaoboe]: the bytes of the file *)

Lemma filter_all {A : Type} (f : A -> bool) (l : list A) :
  (forall a, In a l -> f a = true) -> List.filter f l = l.
Proof.
  induction l as [|a l IH]; intros H; [done|].
  cbn [List.filter]. rewrite (H a) by by left.
  f_equal. apply IH. intros b Hb. apply H. by right.
Qed.

Lemma length_filter_le {A : Type} (f : A -> bool) (l : list A) :
  (length (List.filter f l) <= length l)%nat.
Proof.
  induction l as [|a l IH]; [done|].
  cbn [List.filter]. destruct (f a); cbn [length]; lia.
Qed.

Lemma fmap_map {A B : Type} (f : A -> B) (l : list A) : f <$> l = map f l.
Proof. induction l as [|a l IH]; [done|]. cbn. by rewrite IH. Qed.

(** The shape of a record as [pack_wazaoboe] writes them. *)
Lemma learnset_record_shape (CONSTANTS : Constants) (r : list Z) :
  learnset_record_ok CONSTANTS r = true ->
  exists m,
    (m <= 65)%nat
    /\ List.filter is_used (raw_slots r) = map (raw_slot r 0) (seq 0 m)
    /\ (forall j, (j < m)%nat ->
          is_used (raw_slot r 0 j) = true
          /\ has_name CONSTANTS Cat.moves (fst (raw_slot r 0 j)) = true)
    /\ (forall j, (m <= j < 65)%nat -> raw_slot r 0 j = (65535, 65535)).
Proof.
  unfold learnset_record_ok. cbv zeta.
  set (m := length (List.filter is_used (raw_slots r))).
  intros Hok. rewrite forallb_forall in Hok.
  assert (Hm : (m <= 65)%nat).
  { unfold m. etrans; [apply length_filter_le|].
    unfold raw_slots. by rewrite length_map, length_seq. }
  assert (Hlow : forall j, (j < m)%nat ->
            is_used (raw_slot r 0 j) = true
            /\ has_name CONSTANTS Cat.moves (fst (raw_slot r 0 j)) = true).
  { intros j Hj. specialize (Hok j). rewrite in_seq in Hok.
    specialize (Hok ltac:(lia)).
    destruct (Nat.ltb_spec j m); [|lia]. by apply andb_true_iff in Hok. }
  assert (Hhigh : forall j, (m <= j < 65)%nat -> raw_slot r 0 j = (65535, 65535)).
  { intros j Hj. specialize (Hok j). rewrite in_seq in Hok.
    specialize (Hok ltac:(lia)).
    destruct (Nat.ltb_spec j m); [lia|].
    apply andb_true_iff in Hok as [H1%Z.eqb_eq H2%Z.eqb_eq].
    destruct (raw_slot r 0 j) as [a b]. cbn [fst snd] in *. congruence. }
  exists m. split; [done|]. split; [|done].
  unfold raw_slots.
  replace (seq 0 65) with (seq 0 (m + (65 - m))) by (f_equal; lia).
  rewrite seq_app, map_app, List.filter_app.
  rewrite filter_all, filter_none; [by rewrite app_nil_r| |].
  - intros s (j & <- & Hj%in_seq)%in_map_iff. by rewrite Hhigh by lia.
  - intros s (j & <- & Hj%in_seq)%in_map_iff. by apply Hlow; lia.
Qed.

Lemma take_drop_take {A : Type} (l : list A) (a n m : nat) :
  (a + n <= m)%nat -> take n (drop a (take m l)) = take n (drop a l).
Proof.
  intros H. rewrite (take_drop_commute (take m l)), take_take.
  rewrite Nat.min_l by lia. by rewrite <- take_drop_commute.
Qed.

(** The four bytes of a slot are its two codes, little-endian. *)
Lemma slot_bytes (r : list Z) (j : nat) :
  all_bytes r = true -> (4 * j + 4 <= length r)%nat ->
  take 4 (drop (4 * j) r)
  = to_bytes 2 (fst (raw_slot r 0 j)) ++ to_bytes 2 (snd (raw_slot r 0 j)).
Proof.
  intros Hb Hl. unfold raw_slot. cbn [fst snd]. rewrite !Nat.add_0_l.
  assert (H2 : forall q, (q + 2 <= length r)%nat ->
            to_bytes 2 (from_bytes (take 2 (drop q r))) = take 2 (drop q r)).
  { intros q Hq.
    pose proof (to_bytes_from_bytes (take 2 (drop q r))) as H.
    rewrite length_take, length_drop in H.
    replace (2 `min` (length r - q))%nat with 2%nat in H by lia.
    apply H. by apply all_bytes_take, all_bytes_drop. }
  rewrite !H2 by lia.
  rewrite <- drop_drop. generalize (drop (4 * j) r). intros l.
  by destruct l as [|a [|b [|c [|d l]]]].
Qed.

Lemma entry_of_encodable (CONSTANTS : Constants) (slot : Z * Z) :
  NoDup (CONSTANTS Cat.moves) ->
  0 <= fst slot < 65536 -> 0 <= snd slot < 65536 ->
  has_name CONSTANTS Cat.moves (fst slot) = true ->
  encodable_move CONSTANTS (entry_of CONSTANTS slot) = true
  /\ move_bytes CONSTANTS (entry_of CONSTANTS slot)
     = to_bytes 2 (fst slot) ++ to_bytes 2 (snd slot).
Proof.
  intros Hnd Hc Hl Hn.
  destruct (has_name_spec _ _ _ Hnd (proj1 Hc) Hn) as (name & Hname & Hval).
  assert (Hnth : nth (Z.to_nat (fst slot)) (CONSTANTS Cat.moves) EmptyString = name).
  { unfold cnstname in Hname. apply py_getitem_OK_nonneg in Hname; [|lia].
    by apply nth_lookup_Some. }
  assert (Hcode : move_code CONSTANTS (entry_of CONSTANTS slot) = fst slot).
  { unfold move_code, entry_of. cbn [Wazaoboe.move]. rewrite Hnth.
    unfold cnstval in Hval.
    destruct (list_index _ _); [|discriminate]. by injection Hval as <-. }
  split.
  - unfold encodable_move. rewrite !andb_true_iff. repeat split.
    + apply bool_decide_eq_true. unfold entry_of. cbn [Wazaoboe.move].
      rewrite Hnth. apply cnstval_OK in Hval as [_ Hlk].
      apply list_elem_of_lookup. eauto.
    + apply Z.ltb_lt. rewrite Hcode. lia.
    + apply Z.leb_le. unfold entry_of. cbn. lia.
    + apply Z.ltb_lt. unfold entry_of. cbn. lia.
  - unfold move_bytes. by rewrite Hcode.
Qed.

(** A record as [pack_wazaoboe] writes them is the image of the learnset
    it decodes to, followed by 0xFF bytes. *)
Lemma learnset_record_image (CONSTANTS : Constants) (r : list Z) :
  NoDup (CONSTANTS Cat.moves) ->
  all_bytes r = true -> (0x104 <= length r)%nat ->
  learnset_record_ok CONSTANTS r = true ->
  let ml := map (entry_of CONSTANTS) (List.filter is_used (raw_slots r)) in
  (length ml <= 65)%nat
  /\ forallb (encodable_move CONSTANTS) ml = true
  /\ (forall j, (j < 65)%nat -> is_used (raw_slot r 0 j) = true ->
        fst (raw_slot r 0 j) < Z.of_nat (length (CONSTANTS Cat.moves)))
  /\ take 0x104 r
     = concat (map (move_bytes CONSTANTS) ml)
       ++ replicate (0x104 - 4 * length ml) 0xFF.
Proof.
  intros Hnd Hb Hl Hok ml.
  destruct (learnset_record_shape _ _ Hok) as (m & Hm & Hused & Hlow & Hhigh).
  assert (Hml : ml = map (fun j => entry_of CONSTANTS (raw_slot r 0 j)) (seq 0 m))
    by (unfold ml; by rewrite Hused, map_map).
  assert (Hlen : length ml = m) by (by rewrite Hml, length_map, length_seq).
  assert (Hslot : forall j, (j < m)%nat ->
            encodable_move CONSTANTS (entry_of CONSTANTS (raw_slot r 0 j)) = true
            /\ move_bytes CONSTANTS (entry_of CONSTANTS (raw_slot r 0 j))
               = take 4 (drop (4 * j) r)).
  { intros j Hj. destruct (Hlow j Hj) as [_ Hn].
    destruct (raw_slot_bounds r 0 j Hb ltac:(lia)) as [Hc Hv].
    destruct (entry_of_encodable CONSTANTS _ Hnd Hc Hv Hn) as [He Hmb].
    split; [done|]. rewrite Hmb. symmetry. apply slot_bytes; [done|lia]. }
  split; [lia|]. split; [|split].
  - rewrite Hml. apply forallb_forall.
    intros e (j & <- & Hj%in_seq)%in_map_iff. by apply Hslot; lia.
  - intros j Hj Hu.
    destruct (Nat.lt_ge_cases j m) as [Hlt|Hge].
    + destruct (Hlow j Hlt) as [_ Hn%Z.ltb_lt]. exact Hn.
    + rewrite Hhigh in Hu by lia. done.
  - rewrite Hlen.
    rewrite <- (concat_records 4 65 (take 0x104 r)) at 1
      by (rewrite length_take; lia).
    replace (seq 0 65) with (seq 0 (m + (65 - m))) by (f_equal; lia).
    rewrite seq_app, map_app, concat_app. f_equal.
    + rewrite Hml, map_map. f_equal. apply map_ext_in. intros j Hj%in_seq.
      rewrite (proj2 (Hslot j ltac:(lia))).
      rewrite take_drop_take by lia. do 2 f_equal. lia.
    + cbn [Nat.add].
      assert (Hpad : forall n a, (a + n <= 65)%nat -> (m <= a)%nat ->
                concat (map (fun k => take 4 (drop (k * 4) (take 0x104 r)))
                         (seq a n))
                = replicate (4 * n) 0xFF).
      { induction n as [|n IH]; intros a Ha Hma; [done|].
        cbn [seq map concat]. rewrite IH by lia.
        replace (4 * S n)%nat with (4 + 4 * n)%nat by lia.
        rewrite replicate_add. f_equal.
        rewrite take_drop_take by lia.
        replace (a * 4)%nat with (4 * a)%nat by lia.
        rewrite slot_bytes by (done || lia).
        by rewrite Hhigh by lia. }
      rewrite Hpad by lia. f_equal. lia.
Qed.

Lemma raw_slot_offset (buffer : list Z) (offset j : nat) :
  raw_slot buffer offset j = raw_slot (drop offset buffer) 0 j.
Proof. unfold raw_slot. by rewrite !drop_drop, !Nat.add_0_l, !Nat.add_assoc. Qed.

(** Two buffers with the same records are the same buffer. *)
Lemma records_ext (size n : nat) (l1 l2 : list Z) :
  length l1 = (n * size)%nat -> length l2 = (n * size)%nat ->
  (forall k, (k < n)%nat -> record size l1 k = record size l2 k) ->
  l1 = l2.
Proof.
  intros H1 H2 H.
  rewrite <- (concat_records size n l1 H1), <- (concat_records size n l2 H2).
  f_equal. apply map_ext_in. intros k Hk%in_seq. apply H. lia.
Qed.

(** X25: Decoding a learnset file as [pack_wazaoboe] writes them (one record
    per creature; in each record the slots in use first, with named move
    codes, then 0xFF bytes) and encoding the dictionary gives the file
    back, byte for byte, and prints nothing, when no creature and no move
    name is repeated. *)
Theorem wazaoboe_decode_encode (CONSTANTS : Constants) (buffer : list Z) :
  NoDup (CONSTANTS Cat.pokemon) -> NoDup (CONSTANTS Cat.moves) ->
  learnset_file_ok CONSTANTS buffer = true ->
  exists entries,
    Wazaoboe.unpack_wazaoboe CONSTANTS buffer = OK entries
    /\ Wazaoboe.pack_wazaoboe CONSTANTS entries = OK (buffer, []).
Proof.
  intros Hpok Hmov Hok. unfold learnset_file_ok in Hok.
  rewrite !andb_true_iff in Hok. destruct Hok as [[Hb Hlen%Nat.eqb_eq] Hrec].
  rewrite forallb_forall in Hrec.
  set (names := CONSTANTS Cat.pokemon) in *.
  set (g := fun k => map (entry_of CONSTANTS)
                       (List.filter is_used (raw_slots (drop (k * 0x104) buffer)))).
  assert (Hk : forall k, (k < length names)%nat ->
            (length (g k) <= 65)%nat
            /\ forallb (encodable_move CONSTANTS) (g k) = true
            /\ Wazaoboe.unpack_moves CONSTANTS buffer k = OK (g k)
            /\ record 0x104 buffer k
               = concat (map (move_bytes CONSTANTS) (g k))
                 ++ replicate (0x104 - 4 * length (g k)) 0xFF).
  { intros k Hlt.
    destruct (learnset_record_image CONSTANTS (drop (k * 0x104) buffer))
      as (H65 & Henc & Hnamed & Himg); try done.
    - by apply all_bytes_drop.
    - rewrite length_drop. lia.
    - apply Hrec, in_seq. lia.
    - split; [done|]. split; [done|]. split; [|done].
      rewrite unpack_moves_spec; [|done|lia|].
      + unfold g, raw_slots. do 3 f_equal. apply map_ext. intros j.
        apply raw_slot_offset.
      + intros j Hj. rewrite raw_slot_offset. by apply Hnamed. }
  set (entries := map (fun k => (nth k names EmptyString, g k)) (seq 0 (length names))).
  assert (Hkeys : entries.*1 = names).
  { unfold entries. rewrite fmap_map, map_map. cbn [fst].
    rewrite (map_seq_nth (fun name => name) names EmptyString).
    apply map_id. }
  assert (Hitem : forall name ml, (name, ml) ∈ entries ->
            exists k, (k < length names)%nat /\ names !! k = Some name
                      /\ ml = g k /\ creature_index CONSTANTS name = k).
  { intros name ml Hin%list_elem_of_In.
    apply in_map_iff in Hin as (k & [= <- <-] & Hin%in_seq).
    exists k. split; [lia|].
    destruct (lookup_lt_is_Some_2 names k) as [name Hname]; [lia|].
    rewrite (nth_lookup_Some _ _ _ _ Hname). split; [done|]. split; [done|].
    unfold creature_index. fold names.
    by rewrite (list_index_NoDup _ _ _ Hpok Hname). }
  assert (Hpack : forallb (packable CONSTANTS) entries = true).
  { apply forallb_forall. intros [name ml] Hin%list_elem_of_In.
    destruct (Hitem name ml Hin) as (k & Hlt & Hname & -> & _).
    unfold packable. cbn [fst snd]. apply andb_true_iff. split.
    - apply bool_decide_eq_true, list_elem_of_lookup. eauto.
    - destruct (Hk k Hlt) as (H65 & Henc & _). by rewrite take_ge by lia. }
  assert (Hwarn : warnings entries = []).
  { unfold warnings. rewrite filter_none; [done|].
    intros [name ml] Hin%list_elem_of_In.
    destruct (Hitem name ml Hin) as (k & Hlt & _ & -> & _).
    destruct (Hk k Hlt) as (H65 & _). cbn [snd]. apply Nat.ltb_ge. lia. }
  exists entries. split.
  - unfold Wazaoboe.unpack_wazaoboe, range.
    rewrite Hlen, Nat.div_mul by lia.
    rewrite (keyed_loop_OK names (Wazaoboe.unpack_moves CONSTANTS buffer) g);
      [done|done|done|lia|].
    intros k [_ Hlt]. by apply Hk.
  - unfold Wazaoboe.pack_wazaoboe. fold names.
    rewrite pack_items_OK by (done || apply length_replicate).
    rewrite Hwarn. cbn [app]. do 2 f_equal.
    apply (records_ext 0x104 (length names)).
    + by rewrite length_written, length_replicate.
    + done.
    + intros k Hlt.
      destruct (lookup_lt_is_Some_2 names k Hlt) as [name Hname].
      assert (Hin : (name, g k) ∈ entries).
      { apply list_elem_of_In, in_map_iff. exists k.
        rewrite (nth_lookup_Some _ _ _ _ Hname). split; [done|].
        apply in_seq. lia. }
      destruct (Hitem name (g k) Hin) as (k' & _ & _ & _ & Hidx).
      assert (k' = k) as ->.
      { unfold creature_index in Hidx. fold names in Hidx.
        rewrite (list_index_NoDup _ _ _ Hpok Hname) in Hidx.
        cbn in Hidx. lia. }
      destruct (Hk k Hlt) as (H65 & _ & _ & Himg).
      pose proof (record_written CONSTANTS entries name (g k)) as Hw.
      fold names in Hw. rewrite Hidx in Hw.
      rewrite Hw; [|by rewrite Hkeys|done|done].
      rewrite Himg. unfold slot_image.
      rewrite take_ge by lia.
      by rewrite length_concat_move_bytes.
Qed.

Lemma wazaoboe_decode_encode_witness :
  exists entries,
    Wazaoboe.unpack_wazaoboe Demo.constants
      (replicate 0x104 0xFF
       ++ ([1; 0; 3; 0; 1; 0; 7; 0] ++ replicate 252 0xFF)
       ++ replicate 0x104 0xFF) = OK entries
    /\ Wazaoboe.pack_wazaoboe Demo.constants entries
       = OK (replicate 0x104 0xFF
             ++ ([1; 0; 3; 0; 1; 0; 7; 0] ++ replicate 252 0xFF)
             ++ replicate 0x104 0xFF, []).
Proof.
  apply (wazaoboe_decode_encode Demo.constants
           (replicate 0x104 0xFF
            ++ ([1; 0; 3; 0; 1; 0; 7; 0] ++ replicate 252 0xFF)
            ++ replicate 0x104 0xFF)).
  - apply (bool_decide_unpack _). vm_compute. exact I.
  - apply (bool_decide_unpack _). vm_compute. exact I.
  - vm_compute. reflexivity.
Defined.

(** ** [unk60]: a text of any length *)

Lemma length_pack_bytes (n : nat) (bs : list Z) :
  length (Struct.pack_bytes n bs) = n.
Proof.
  unfold Struct.pack_bytes. rewrite length_app, length_take, length_replicate. lia.
Qed.

Lemma pack_bytes_id (n : nat) (bs : list Z) :
  length bs = n -> Struct.pack_bytes n bs = bs.
Proof.
  intros <-. unfold Struct.pack_bytes.
  by rewrite firstn_all, Nat.sub_diag, app_nil_r.
Qed.

Lemma all_bytes_pack_bytes (n : nat) (bs : list Z) :
  all_bytes bs = true -> all_bytes (Struct.pack_bytes n bs) = true.
Proof.
  intros Hb. unfold Struct.pack_bytes. apply all_bytes_app. split.
  - by apply all_bytes_take.
  - apply all_bytes_replicate. lia.
Qed.

(** [struct] packs values as it packs them cut or padded. *)
Lemma pack_pad_values (codes : list Struct.code) (vals : list Struct.value) :
  Struct.pack codes (pad_values codes vals) = Struct.pack codes vals.
Proof.
  revert vals; induction codes as [|c cs IH]; intros vals; [done|].
  destruct c; cbn [pad_values Struct.pack];
    try (destruct vals as [|v vs]; [done|]; by rewrite IH).
  - destruct vals as [|v vs]; [done|]. rewrite IH.
    destruct v as [z|bs|b]; try done.
    cbn [Struct.pack_value].
    by rewrite (pack_bytes_id n) by apply length_pack_bytes.
  - by rewrite IH.
Qed.

Lemma valid_entry_set_unk60 (CONSTANTS : Constants) (e : Personal.Entry)
  (text : string) :
  valid_entry CONSTANTS e = true -> is_hex_of 72 text = true ->
  valid_entry CONSTANTS (set_unk60 e text) = true.
Proof.
  unfold valid_entry, set_unk60. entry_simpl.
  intros [Hv _]%andb_true_iff Ht. by rewrite Hv, Ht.
Qed.

(** The values of an entry whose [unk60] is the text of any bytes. *)
Lemma pack_values_any_unk60 (CONSTANTS : Constants) (e : Personal.Entry)
  (bs : list Z) :
  registry_fits CONSTANTS = true -> valid_entry CONSTANTS e = true ->
  all_bytes bs = true ->
  exists vals,
    Personal.pack_values CONSTANTS (set_unk60 e (hex bs)) = OK vals
    /\ pad_values Personal.PERSONAL_ENTRY_STRUCT vals
       = pad_values Personal.PERSONAL_ENTRY_STRUCT
           (entry_values CONSTANTS
              (set_unk60 e (hex (Struct.pack_bytes 72 bs)))).
Proof.
  intros (Ht & Hr & Hm & Ha)%registry_fits_spec Hv Hb.
  unfold valid_entry in Hv. split_valid Hv.
  unfold Personal.pack_values, set_unk60. entry_simpl.
  rewrite (proj1 (learnset_bits_spec _ Cat.tms _ 16 Ht)). cbn [bind].
  rewrite (proj1 (learnset_bits_spec _ Cat.move_tutors _ 4 Hm)). cbn [bind].
  rewrite (proj1 (learnset_bits_spec _ Cat.trs _ 16 Hr)). cbn [bind].
  rewrite (proj1 (learnset_bits_spec _ Cat.armor_tutors _ 4 Ha)). cbn [bind].
  repeat match goal with
         | |- exists _, bind (cnstval ?C ?cat ?n) _ = _ /\ _ =>
             match goal with
             | H : known_below C cat _ n = true |- _ =>
                 rewrite (proj1 (known_below_spec _ _ _ _ H)); cbn [bind]
             end
         end.
  rewrite fromhex_hex by done. cbn [bind].
  eexists. split; [reflexivity|].
  unfold entry_values. entry_simpl. unfold hex_bytes.
  rewrite fromhex_hex by by apply all_bytes_pack_bytes.
  cbn [pad_values Personal.PERSONAL_ENTRY_STRUCT replicate app].
  by rewrite (pack_bytes_id 72 (Struct.pack_bytes 72 bs))
    by apply length_pack_bytes.
Qed.

(** X26: [pack_personal] does not check the length of [unk60]: the bytes of a
    text of fewer than 72 bytes are padded with zeros, those of a longer
    text are cut to the first 72, and no exception is raised; decoding
    returns the text of the 72 bytes written. *)
Theorem unk60_padded_or_cut (CONSTANTS : Constants) (e : Personal.Entry)
  (bs : list Z) (name : string) (target : list Z) (position : nat) :
  registry_fits CONSTANTS = true -> valid_entry CONSTANTS e = true ->
  all_bytes bs = true ->
  (position + 0xB0 <= length target)%nat ->
  exists target',
    Personal.pack_entry CONSTANTS (name, set_unk60 e (hex bs)) (target, position)
    = OK (target', (position + 0xB0)%nat)
    /\ Personal.unpack_entry CONSTANTS target' position
       = OK (normalize CONSTANTS
               (set_unk60 e
                  (hex (take 72 bs ++ replicate (72 - length bs) 0)))).
Proof.
  intros Hr Hv Hb Hpos.
  assert (Hv' : valid_entry CONSTANTS
                  (set_unk60 e (hex (Struct.pack_bytes 72 bs))) = true).
  { apply valid_entry_set_unk60; [done|].
    rewrite <- (length_pack_bytes 72 bs) at 1.
    by apply is_hex_of_hex, all_bytes_pack_bytes. }
  destruct (pack_entry_valid CONSTANTS name _ target position Hr Hv' Hpos)
    as (bytes & _ & _ & Hp & Hd).
  destruct (pack_values_any_unk60 CONSTANTS e bs Hr Hv Hb) as (vals & Hvals & Hpad).
  exists (list_inserts position bytes target). split; [|exact Hd].
  rewrite <- Hp. unfold Personal.pack_entry.
  rewrite Hvals, (pack_values_valid _ _ Hr Hv'). cbn [bind].
  unfold Struct.pack_into.
  by rewrite <- (pack_pad_values _ vals), Hpad, pack_pad_values.
Qed.

Lemma unk60_padded_or_cut_witness :
  exists target',
    Personal.pack_entry Demo.constants
      ("Egg"%string, set_unk60 Demo.bulbasaur "ab")
      (Personal.BLANK_PRSNL_ENTRY, 0%nat) = OK (target', 0xB0%nat)
    /\ Personal.unpack_entry Demo.constants target' 0
       = OK (set_unk60 Demo.bulbasaur (hex (0xAB :: replicate 71 0))).
Proof.
  destruct (unk60_padded_or_cut Demo.constants Demo.bulbasaur [0xAB]
              "Egg"%string Personal.BLANK_PRSNL_ENTRY 0)
    as (target' & Hp & Hd).
  - vm_compute. reflexivity.
  - vm_compute. reflexivity.
  - vm_compute. reflexivity.
  - vm_compute. lia.
  - exists target'. split; [exact Hp|]. rewrite Hd. vm_compute. reflexivity.
Defined.

(** ** The other two decoders: what they return can be encoded *)

Lemma unpack_slot_valid (CONSTANTS : Constants) (buffer : list Z) (j offset : nat)
  (acc : list Wazaoboe.MoveEntry) (st : nat * list Wazaoboe.MoveEntry) :
  all_bytes buffer = true ->
  forallb (valid_move CONSTANTS) acc = true ->
  Wazaoboe.unpack_slot CONSTANTS buffer j (offset, acc) = OK st ->
  forallb (valid_move CONSTANTS) (snd st) = true.
Proof.
  intros Hb Hacc. unfold Wazaoboe.unpack_slot, Struct.unpack_from.
  change (Struct.calcsize Wazaoboe.ENTRY) with 4%nat.
  destruct (Nat.leb_spec (offset + 4) (length buffer)) as [Hl|]; [|discriminate].
  cbn [bind Wazaoboe.ENTRY Struct.unpack_codes Struct.size].
  rewrite drop_drop.
  fold (int_at buffer offset 2). fold (int_at buffer (offset + 2) 2).
  pose proof (int_at_bound buffer offset 2 Hb ltac:(lia)) as Hm.
  pose proof (int_at_bound buffer (offset + 2) 2 Hb ltac:(lia)) as Hv.
  change (256 ^ Z.of_nat 2) with 65536 in *.
  destruct (Z.eqb_spec (int_at buffer offset 2) 65535) as [|Hm'];
    cbn [negb andb]; [by intros [= <-]|].
  destruct (Z.eqb_spec (int_at buffer (offset + 2) 2) 65535) as [|Hv'];
    cbn [negb]; [by intros [= <-]|].
  intros (name & Hname & [= <-])%bind_OK. cbn [snd].
  rewrite forallb_app, Hacc. cbn [forallb andb]. rewrite andb_true_r.
  unfold cnstname in Hname. apply py_getitem_OK_nonneg in Hname; [|lia].
  destruct (list_index_elem_of (CONSTANTS Cat.moves) name) as [k Hk].
  { apply list_elem_of_lookup. eauto. }
  pose proof (list_index_first _ _ _ _ Hk Hname) as Hle.
  unfold valid_move, encodable_move, move_code.
  cbn [Wazaoboe.move Wazaoboe.level]. rewrite Hk. cbn [default from_option id].
  rewrite !andb_true_iff. repeat split.
  - apply bool_decide_eq_true, list_elem_of_lookup. eauto.
  - apply Z.ltb_lt. lia.
  - apply Z.leb_le. lia.
  - apply Z.ltb_lt. lia.
  - apply negb_true_iff, Z.eqb_neq. lia.
  - apply negb_true_iff, Z.eqb_neq. lia.
Qed.

Lemma unpack_slots_valid (CONSTANTS : Constants) (buffer : list Z) (n a : nat)
  (st st' : nat * list Wazaoboe.MoveEntry) :
  all_bytes buffer = true ->
  forallb (valid_move CONSTANTS) (snd st) = true ->
  for_each (seq a n) st (Wazaoboe.unpack_slot CONSTANTS buffer) = OK st' ->
  forallb (valid_move CONSTANTS) (snd st') = true.
Proof.
  intros Hb. revert a st; induction n as [|n IH]; intros a [offset acc] Hacc;
    cbn [seq for_each].
  - by intros [= <-].
  - intros (st1 & Hs & H)%bind_OK.
    apply (IH (S a) st1); [|done]. by eapply unpack_slot_valid.
Qed.

(** A decoded learnset holds valid entries only. *)
Lemma unpack_moves_valid (CONSTANTS : Constants) (buffer : list Z) (i : nat)
  (moves_list : list Wazaoboe.MoveEntry) :
  all_bytes buffer = true ->
  Wazaoboe.unpack_moves CONSTANTS buffer i = OK moves_list ->
  forallb (valid_move CONSTANTS) moves_list = true.
Proof.
  intros Hb. unfold Wazaoboe.unpack_moves, range.
  intros (st & H & [= <-])%bind_OK.
  by apply (unpack_slots_valid CONSTANTS buffer 65 0 ((i * 0x104)%nat, []) st).
Qed.

(** X27: Any learnset file of one record per creature that [unpack_wazaoboe]
    decodes (also one with empty slots between slots in use) gives a
    dictionary that [pack_wazaoboe] encodes without an exception and
    without a warning, into a file that decodes to the same dictionary. *)
Theorem wazaoboe_file_stable (CONSTANTS : Constants) (buffer : list Z)
  (entries : dict (list Wazaoboe.MoveEntry)) :
  NoDup (CONSTANTS Cat.pokemon) ->
  all_bytes buffer = true ->
  (length buffer / 0x104)%nat = length (CONSTANTS Cat.pokemon) ->
  Wazaoboe.unpack_wazaoboe CONSTANTS buffer = OK entries ->
  exists buffer',
    Wazaoboe.pack_wazaoboe CONSTANTS entries = OK (buffer', [])
    /\ length buffer' = (length (CONSTANTS Cat.pokemon) * 0x104)%nat
    /\ Wazaoboe.unpack_wazaoboe CONSTANTS buffer' = OK entries.
Proof.
  intros Hpok Hb Hn Hu.
  pose proof Hu as Hloop. unfold Wazaoboe.unpack_wazaoboe, range in Hloop.
  destruct (keyed_loop (CONSTANTS Cat.pokemon)
              (Wazaoboe.unpack_moves CONSTANTS buffer)
              (length buffer / 0x104) 0 [] entries Hpok eq_refl Hloop)
    as (es & -> & Hkeys & Hlen & Hes).
  cbn [app] in *. rewrite Hn in Hlen, Hkeys.
  rewrite drop_0, firstn_all in Hkeys.
  assert (Hdec : forall j name ml, es !! j = Some (name, ml) ->
            Wazaoboe.unpack_moves CONSTANTS buffer j = OK ml
            /\ CONSTANTS Cat.pokemon !! j = Some name
            /\ forallb (valid_move CONSTANTS) ml = true
            /\ (length ml <= 65)%nat).
  { intros j name ml Hj. destruct (Hes j name ml Hj) as [Hf Hname].
    rewrite Nat.add_0_l in Hf, Hname. split; [done|]. split; [done|].
    split; [by eapply unpack_moves_valid|by eapply unpack_moves_length]. }
  assert (Hnd : NoDup es.*1) by by rewrite Hkeys.
  assert (Hv : forallb (valid_item CONSTANTS) es = true).
  { apply forallb_forall. intros [name ml] Hin%list_elem_of_In.
    apply list_elem_of_lookup in Hin as [j Hj].
    destruct (Hdec j name ml Hj) as (_ & Hname & Hvm & H65).
    unfold valid_item. cbn [fst snd]. apply andb_true_iff. split.
    - apply bool_decide_eq_true, list_elem_of_lookup. eauto.
    - by rewrite take_ge by lia. }
  pose proof (valid_items_packable _ _ Hv) as Hp.
  assert (Hwarn : warnings es = []).
  { unfold warnings. rewrite filter_none; [done|].
    intros [name ml] Hin%list_elem_of_In.
    apply list_elem_of_lookup in Hin as [j Hj].
    destruct (Hdec j name ml Hj) as (_ & _ & _ & H65).
    cbn [snd]. apply Nat.ltb_ge. lia. }
  eexists. split; [|split].
  - unfold Wazaoboe.pack_wazaoboe.
    rewrite pack_items_OK by (done || apply length_replicate).
    by rewrite Hwarn.
  - by rewrite length_written, length_replicate.
  - rewrite <- Hu. unfold Wazaoboe.unpack_wazaoboe.
    rewrite length_written, length_replicate, Nat.div_mul, Hn by lia.
    apply for_each_ext_in. intros i acc Hi. apply elem_of_seq in Hi.
    destruct (lookup_lt_is_Some_2 es i) as [[name ml] Hj]; [lia|].
    destruct (Hdec i name ml Hj) as (Hold & Hname & _ & H65).
    assert (Hin : (name, ml) ∈ es) by (apply list_elem_of_lookup; eauto).
    pose proof (unpack_written CONSTANTS es name ml Hnd Hv Hin) as Hnew.
    unfold creature_index in Hnew.
    rewrite (list_index_NoDup _ _ _ Hpok Hname) in Hnew.
    cbn [default from_option id] in Hnew.
    rewrite take_ge in Hnew by lia. by rewrite Hnew, Hold.
Qed.

Lemma wazaoboe_file_stable_witness :
  exists entries buffer',
    Wazaoboe.unpack_wazaoboe Demo.constants
      (replicate 0x104 0xFF ++ Demo.learnset_record ++ replicate 0x104 0xFF)
    = OK entries
    /\ Wazaoboe.pack_wazaoboe Demo.constants entries = OK (buffer', [])
    /\ buffer' <> replicate 0x104 0xFF ++ Demo.learnset_record
                  ++ replicate 0x104 0xFF
    /\ Wazaoboe.unpack_wazaoboe Demo.constants buffer' = OK entries.
Proof.
  destruct (Wazaoboe.unpack_wazaoboe Demo.constants
              (replicate 0x104 0xFF ++ Demo.learnset_record
               ++ replicate 0x104 0xFF)) as [entries|] eqn:Hu;
    [|vm_compute in Hu; discriminate].
  destruct (wazaoboe_file_stable Demo.constants
              (replicate 0x104 0xFF ++ Demo.learnset_record
               ++ replicate 0x104 0xFF) entries)
    as (buffer' & Hp & _ & Hd).
  - apply (bool_decide_unpack _). vm_compute. exact I.
  - vm_compute. reflexivity.
  - vm_compute. reflexivity.
  - exact Hu.
  - exists entries, buffer'. split; [reflexivity|]. split; [exact Hp|].
    split; [|exact Hd].
    intros ->. vm_compute in Hu. injection Hu as <-.
    apply (f_equal (fun r => match r with
                             | OK (b, _) => nth 264 b 0
                             | Raise _ => 0
                             end)) in Hp.
    vm_compute in Hp. discriminate Hp.
Defined.

(** The loop of [unpack_pokecaplist] returns valid entries only. *)
Lemma unpack_while_valid (CONSTANTS : Constants) (buffer : list Z) (fuel offset : nat)
  (acc entries : list Pokecaplist.IconEntry) :
  all_bytes buffer = true ->
  forallb (valid_icon CONSTANTS) acc = true ->
  Pokecaplist.unpack_while fuel CONSTANTS buffer offset acc = Some (OK entries) ->
  forallb (valid_icon CONSTANTS) entries = true.
Proof.
  intros Hb. revert offset acc; induction fuel as [|fuel IH];
    intros offset acc Hacc; cbn [Pokecaplist.unpack_while].
  - destruct (_ <? _)%nat; [discriminate|]. by intros [= <-].
  - destruct (_ <? _)%nat; [|by intros [= <-]].
    unfold Struct.unpack_from.
    change (Struct.calcsize Pokecaplist.POKECAPLIST_ENTRY_STRUCT) with 8%nat.
    destruct (Nat.leb_spec (offset + 8) (length buffer)) as [Hfit|];
      [|discriminate].
    rewrite unpack_codes_icon, !int_at_drop.
    destruct (cnstname CONSTANTS Cat.genders _) as [name|] eqn:Hn;
      [|discriminate].
    apply IH. rewrite forallb_app, Hacc. cbn [forallb andb].
    rewrite andb_true_r.
    pose proof (int_at_bound buffer (offset + 0) 2 Hb ltac:(lia)) as Hi.
    pose proof (int_at_bound buffer (offset + 2) 2 Hb ltac:(lia)) as Hf.
    pose proof (int_at_bound buffer (offset + 4) 2 Hb ltac:(lia)) as Hg.
    change (256 ^ Z.of_nat 2) with 65536 in *.
    unfold valid_icon.
    cbn [Pokecaplist.icon_id Pokecaplist.form_id Pokecaplist.gender_type].
    rewrite !andb_true_iff. repeat split.
    + by apply in_range_spec.
    + by apply in_range_spec.
    + by eapply cnstname_known_below.
Qed.

(** X28: Any icon file that [unpack_pokecaplist] decodes (also one with pad
    bytes that are not zero, or flag bytes above 1) gives a list that
    [pack_pokecaplist] encodes without an exception, into a file of the
    same length that decodes to the same list. *)
Theorem pokecaplist_file_stable (CONSTANTS : Constants) (buffer : list Z)
  (entries : list Pokecaplist.IconEntry) :
  all_bytes buffer = true ->
  Pokecaplist.unpack_pokecaplist CONSTANTS buffer = Some (OK entries) ->
  exists buffer',
    Pokecaplist.pack_pokecaplist CONSTANTS entries = OK buffer'
    /\ length buffer' = length buffer
    /\ Pokecaplist.unpack_pokecaplist CONSTANTS buffer' = Some (OK entries).
Proof.
  intros Hb Hu.
  assert (Hv : forallb (valid_icon CONSTANTS) entries = true)
    by (by eapply (unpack_while_valid _ _ _ _ [])).
  destruct (unpack_while_result CONSTANTS buffer (length buffer) 0 [])
    as (r & Hr & Hres); [lia|lia|].
  change (8 * 0)%nat with 0%nat in Hr.
  unfold Pokecaplist.unpack_pokecaplist in Hu. rewrite Hu in Hr.
  injection Hr as <-. cbn [length] in Hres.
  destruct (pokecaplist_roundtrip CONSTANTS entries Hv) as (buffer' & Hp & Hl & Hd).
  exists buffer'. split; [done|]. split; [lia|done].
Qed.

Lemma pokecaplist_file_stable_witness :
  exists entries buffer',
    Pokecaplist.unpack_pokecaplist Demo.constants [3; 0; 1; 0; 1; 0; 9; 2]
    = Some (OK entries)
    /\ Pokecaplist.pack_pokecaplist Demo.constants entries = OK buffer'
    /\ buffer' = [3; 0; 1; 0; 1; 0; 0; 1]
    /\ Pokecaplist.unpack_pokecaplist Demo.constants buffer' = Some (OK entries).
Proof.
  destruct (Pokecaplist.unpack_pokecaplist Demo.constants
              [3; 0; 1; 0; 1; 0; 9; 2]) as [[entries|]|] eqn:Hu;
    [|vm_compute in Hu; discriminate|vm_compute in Hu; discriminate].
  destruct (pokecaplist_file_stable Demo.constants [3; 0; 1; 0; 1; 0; 9; 2]
              entries) as (buffer' & Hp & _ & Hd).
  - vm_compute. reflexivity.
  - exact Hu.
  - exists entries, buffer'. split; [reflexivity|]. split; [exact Hp|].
    split; [|exact Hd].
    vm_compute in Hu. injection Hu as <-.
    vm_compute in Hp. by injection Hp as <-.
Defined.
